(** * Kaizen-Labs: a shallow embedding of the Sui command-line utility

    The repository is glue code around three kinds of collaborators: the
    Sui RPC client, HTTP endpoints reached through axios, and the local
    file system / compiler.  Every workflow is embedded as a computation
    in a small trace monad: a computation receives the trace of the
    collaborator calls made so far and returns a settled value (fulfilled
    or rejected) together with the extended trace.  Each call is recorded
    with the answer the collaborator gave, so that statements about "what
    was queried, in which order, and with what outcome" are statements
    about traces. *)

From Stdlib Require Import String Ascii List ZArith QArith Bool Lia.
From stdpp Require Import base option list strings gmap pretty.

Local Open Scope string_scope.
Local Open Scope list_scope.

(* ===================================================================== *)
(** ** JavaScript runtime notions shared by the three source files       *)
(* ===================================================================== *)

Module Js.

(** A thrown value: an [Error] object carrying its message, or any other
    value (the sources test [error instanceof Error]). *)
Inductive Thrown : Type :=
| JsError (message : string)
| NonError.

(** [error instanceof Error ? error.message : 'Unknown error'] *)
Definition message_or_unknown (e : Thrown) : string :=
  match e with
  | JsError m => m
  | NonError => "Unknown error"
  end.

(** The state of a settled promise. *)
Inductive Settled (A : Type) : Type :=
| Fulfilled (a : A)
| Rejected (e : Thrown).
Arguments Fulfilled {A} a.
Arguments Rejected {A} e.

Definition is_fulfilled {A} (r : Settled A) : bool :=
  match r with Fulfilled _ => true | Rejected _ => false end.

(** The double-quote character and the line feed, as strings. *)
Definition dq : string := String (ascii_of_nat 34) EmptyString.
Definition nl : string := String (ascii_of_nat 10) EmptyString.

(** [s.startsWith(p)] *)
Fixpoint startsWith (s p : string) {struct p} : bool :=
  match p, s with
  | EmptyString, _ => true
  | String _ _, EmptyString => false
  | String c p', String d s' => if Ascii.eqb c d then startsWith s' p' else false
  end.

(** [s.includes(p)]: [p] occurs somewhere in [s]. *)
Fixpoint includes (s p : string) : bool :=
  startsWith s p ||
  match s with
  | EmptyString => false
  | String _ s' => includes s' p
  end.

(** [s.endsWith(p)] *)
Fixpoint endsWith (s p : string) : bool :=
  String.eqb s p ||
  match s with
  | EmptyString => false
  | String _ s' => endsWith s' p
  end.

(** Truthiness of a string value: the empty string is falsy. *)
Definition truthy (s : string) : bool :=
  match s with EmptyString => false | String _ _ => true end.

(** Truthiness of an optional string ([undefined] is falsy). *)
Definition truthy_opt (o : option string) : bool :=
  match o with Some s => truthy s | None => false end.

(** [o || fallback] on an optional string. *)
Definition or_else (o : option string) (fallback : string) : string :=
  match o with
  | Some s => if truthy s then s else fallback
  | None => fallback
  end.

Definition is_upper (c : ascii) : bool :=
  let n := nat_of_ascii c in (65 <=? n)%nat && (n <=? 90)%nat.

(** [toLowerCase] on the ASCII range (the launch workflow applies it to a
    validated symbol, which is made of the letters A-Z only). *)
Definition lower_ascii (c : ascii) : ascii :=
  if is_upper c then ascii_of_nat (nat_of_ascii c + 32) else c.

Fixpoint toLowerCase (s : string) : string :=
  match s with
  | EmptyString => EmptyString
  | String c s' => String (lower_ascii c) (toLowerCase s')
  end.

(** *** The trace monad *)
Section Async.
Context {Event : Type}.

Definition Async (A : Type) : Type := list Event -> Settled A * list Event.

Definition ret {A} (a : A) : Async A := fun log => (Fulfilled a, log).

Definition throw {A} (e : Thrown) : Async A := fun log => (Rejected e, log).

Definition bind {A B} (m : Async A) (k : A -> Async B) : Async B :=
  fun log =>
    match m log with
    | (Fulfilled a, log') => k a log'
    | (Rejected e, log') => (Rejected e, log')
    end.

(** [try { body } catch (error) { handler }] *)
Definition try_catch {A} (body : Async A) (handler : Thrown -> Async A) : Async A :=
  fun log =>
    match body log with
    | (Fulfilled a, log') => (Fulfilled a, log')
    | (Rejected e, log') => handler e log'
    end.

(** An effect without a result worth recording (console output). *)
Definition emit (ev : Event) : Async unit :=
  fun log => (Fulfilled tt, log ++ [ev]).

(** A call to a collaborator: the answer is a function of the calls made
    so far, and is recorded in the trace with the call. *)
Definition call {A} (answer : list Event -> Settled A)
           (record : Settled A -> Event) : Async A :=
  fun log => let r := answer log in (r, log ++ [record r]).

(** A computation that only writes [out] to the trace. *)
Definition only_outputs (m : Async unit) (out : list Event) : Prop :=
  forall log, m log = (Fulfilled tt, log ++ out).
End Async.

Arguments Async : clear implicits.

End Js.

Import Js.

Declare Scope async_scope.
Delimit Scope async_scope with async.
Notation "'let*' x ':=' m 'in' k" :=
  (bind m (fun x => k))
  (at level 10, x name, m at level 100, k at level 200) : async_scope.
Notation "m ';;' k" :=
  (bind m (fun _ => k))
  (at level 100, k at level 200, right associativity) : async_scope.

(* ===================================================================== *)
(** ** The account-inspection command (network registry, name resolver,
       network detector, account inspector)                              *)
(* ===================================================================== *)

Module Cli.

Inductive NetworkName : Type := mainnet | testnet | devnet | localnet.

Definition NetworkName_eqb (a b : NetworkName) : bool :=
  match a, b with
  | mainnet, mainnet | testnet, testnet | devnet, devnet | localnet, localnet => true
  | _, _ => false
  end.

(** A network name spliced into a template literal. *)
Definition NetworkName_to_string (n : NetworkName) : string :=
  match n with
  | mainnet => "mainnet"
  | testnet => "testnet"
  | devnet => "devnet"
  | localnet => "localnet"
  end.

Record NetworkConfig : Type := {
  url : string;
  suiNsEndpoint : string;
  chainId : string
}.

Record Balance : Type := {
  coinType : string;
  totalBalance : string
}.

Record SuiNameResponse : Type := {
  address : option string;
  name : option string
}.

(** An RPC client is determined by the endpoint it is bound to. *)
Record SuiClient : Type := { client_url : string }.

(** Operations on the progress spinner. *)
Inductive SpinnerOp : Type :=
| SpinnerStart (text : string)
| SpinnerText (text : string)
| SpinnerSucceed (text : string)
| SpinnerFail (text : string).

Section Collaborators.
(** The object returned by [client.getObject] is only printed. *)
Context {SuiObjectResponse : Type}.

(** Calls to the collaborators, each with the answer received. *)
Inductive Event : Type :=
| GetAllBalances (client : SuiClient) (owner : string) (answer : Settled (list Balance))
| GetObject (client : SuiClient) (id : string) (answer : Settled SuiObjectResponse)
| AxiosGet (target : string) (answer : Settled (option SuiNameResponse))
| ConsoleDebug (label : string) (detail : Thrown)
| ConsoleLog (line : string)
| Spinner (op : SpinnerOp)
| ProcessExit (code : Z).
(* [ConsoleDebug] carries the thrown value: what is printed after the label
   is its message when it is an [Error], the value itself otherwise. *)

(** What the command runs against.  The SDK's table of full-node
    endpoints, the runtime's URI component encoder and its JSON printer
    are not part of the repository; the answers of the RPC client and
    of the HTTP endpoints are functions of the trace so far. *)
Record World : Type := {
  getFullnodeUrl : NetworkName -> string;
  encodeURIComponent : string -> string;
  JSON_stringify : SuiObjectResponse -> string;
  rpc_getAllBalances : list Event -> SuiClient -> string -> Settled (list Balance);
  rpc_getObject : list Event -> SuiClient -> string -> Settled SuiObjectResponse;
  axios_get : list Event -> string -> Settled (option SuiNameResponse)
}.

Variable w : World.

Local Open Scope async_scope.

Definition NETWORKS (n : NetworkName) : NetworkConfig :=
  match n with
  | mainnet => {| url := getFullnodeUrl w mainnet;
                  suiNsEndpoint := "https://api.suins.io/mainnet";
                  chainId := "0x1" |}
  | testnet => {| url := getFullnodeUrl w testnet;
                  suiNsEndpoint := "https://api.suins.io/testnet";
                  chainId := "0x2" |}
  | devnet => {| url := getFullnodeUrl w devnet;
                 suiNsEndpoint := "https://api.suins.io/devnet";
                 chainId := "0x3" |}
  | localnet => {| url := "http://127.0.0.1:9000";
                   suiNsEndpoint := "http://localhost:3000/api";
                   chainId := "0x4" |}
  end.

(** [Object.keys(NETWORKS)]: the table's keys in declaration order. *)
Definition NETWORKS_keys : list NetworkName := [mainnet; testnet; devnet; localnet].

Definition getAllBalances (client : SuiClient) (owner : string) : Async Event (list Balance) :=
  call (fun log => rpc_getAllBalances w log client owner) (GetAllBalances client owner).

Definition getObject (client : SuiClient) (id : string) : Async Event SuiObjectResponse :=
  call (fun log => rpc_getObject w log client id) (GetObject client id).

Definition axios_get_call (target : string) : Async Event (option SuiNameResponse) :=
  call (fun log => axios_get w log target) (AxiosGet target).

(** *** detectNetworkForAddress *)

Definition networksToCheck : list NetworkName := [mainnet; testnet; devnet].

(** One iteration of the probing loop: [Some] is the [return] inside the
    [try], [None] falls through to the next candidate. *)
Definition detect_probe (addr : string) (network : NetworkName)
  : Async Event (option (NetworkName * SuiClient)) :=
  try_catch
    (let client := {| client_url := url (NETWORKS network) |} in
     let* balances := getAllBalances client addr in
     if (0 <? length balances)%nat then ret (Some (network, client)) else ret None)
    (fun error =>
       emit (ConsoleDebug ("Network " +:+ NetworkName_to_string network +:+ " check failed:") error);;
       ret None).

Fixpoint detect_loop (addr : string) (candidates : list NetworkName)
  : Async Event (NetworkName * SuiClient) :=
  match candidates with
  | [] => throw (JsError "Address not found on any supported network")
  | network :: rest =>
      let* found := detect_probe addr network in
      match found with
      | Some hit => ret hit
      | None => detect_loop addr rest
      end
  end.

Definition detectNetworkForAddress (addr : string) : Async Event (NetworkName * SuiClient) :=
  detect_loop addr networksToCheck.

(** *** resolveSuiName *)

Definition resolveSuiName (nm : string) (network : NetworkName) : Async Event string :=
  try_catch
    (let* data := axios_get_call
                    (suiNsEndpoint (NETWORKS network) +:+ "/resolve?name=" +:+ encodeURIComponent w nm) in
     match data with
     | Some {| address := Some a |} =>
         if truthy a then ret a else throw (JsError "No address returned")
     | _ => throw (JsError "No address returned")
     end)
    (fun error => throw (JsError ("Failed to resolve name: " +:+ message_or_unknown error))).

(** *** resolveSuiNameOnAllNetworks *)

Definition resolve_probe (nm : string) (network : NetworkName) : Async Event (option string) :=
  try_catch
    (let* a := resolveSuiName nm network in
     if truthy a then ret (Some a) else ret None)
    (fun error =>
       emit (ConsoleDebug ("SuiNS resolution failed on " +:+ NetworkName_to_string network +:+ ":") error);;
       ret None).

Fixpoint resolve_loop (nm : string) (networks : list NetworkName) : Async Event string :=
  match networks with
  | [] => throw (JsError ("SuiNS name " +:+ dq +:+ nm +:+ dq +:+ " not found on any network"))
  | network :: rest =>
      let* found := resolve_probe nm network in
      match found with
      | Some a => ret a
      | None => resolve_loop nm rest
      end
  end.

Definition resolveSuiNameOnAllNetworks (nm : string) : Async Event string :=
  resolve_loop nm NETWORKS_keys.

(** *** checkForSuiNsName *)

Definition checkForSuiNsName (addr : string) (network : NetworkName)
  : Async Event (option string) :=
  try_catch
    (let* data := axios_get_call
                    (suiNsEndpoint (NETWORKS network) +:+ "/reverse-lookup?address=" +:+ addr) in
     match data with
     | Some {| name := Some n |} => if truthy n then ret (Some n) else ret None
     | _ => ret None
     end)
    (fun error => emit (ConsoleDebug "Reverse lookup failed:" error);; ret None).

(** *** The getAccountInfo action *)

(** [Promise.all] over three operations: all three are started, in array
    order, before any is awaited, and the combined promise is rejected as
    soon as one of them is.  Which answer arrives first is a matter of
    timing; the model fixes it to the array order: the answers are taken
    in that order, all three are recorded, and the rejection reported is
    the first in that order. *)
Definition Promise_all3 {A B C} (p1 : Async Event A) (p2 : Async Event B) (p3 : Async Event C)
  : Async Event (A * B * C) :=
  fun log =>
    let '(r1, log1) := p1 log in
    let '(r2, log2) := p2 log1 in
    let '(r3, log3) := p3 log2 in
    (match r1, r2, r3 with
     | Fulfilled a, Fulfilled b, Fulfilled c => Fulfilled (a, b, c)
     | Rejected e, _, _ => Rejected e
     | _, Rejected e, _ => Rejected e
     | _, _, Rejected e => Rejected e
     end, log3).

Fixpoint print_balances (balances : list Balance) : Async Event unit :=
  match balances with
  | [] => ret tt
  | b :: rest =>
      emit (ConsoleLog (coinType b +:+ ": " +:+ totalBalance b));;
      print_balances rest
  end.

(** [identifier.includes('.sui')] *)
Definition isSuiNsName (identifier : string) : bool := includes identifier ".sui".

(** Lines 73-81: the address the inspection is about. *)
Definition resolve_identifier (identifier : string) : Async Event string :=
  if isSuiNsName identifier then
    emit (Spinner (SpinnerText ("Resolving SuiNS name: " +:+ identifier)));;
    let* a := resolveSuiNameOnAllNetworks identifier in
    emit (Spinner (SpinnerText ("Resolved " +:+ identifier +:+ " to " +:+ a)));;
    ret a
  else ret identifier.

(** Lines 95-114: the report.  The styling functions of chalk are the
    identity on the text; the arguments of one [console.log] are joined
    by a space. *)
Definition print_account_report (addr : string) (network : NetworkName)
           (accountInfo : SuiObjectResponse) (balances : list Balance)
           (reverseLookup : option string) : Async Event unit :=
  emit (Spinner (SpinnerSucceed ("Account information retrieved for " +:+ addr)));;
  emit (ConsoleLog (nl +:+ "Network: " +:+ NetworkName_to_string network));;
  emit (ConsoleLog ("Address: " +:+ addr));;
  (if truthy_opt reverseLookup
   then emit (ConsoleLog ("SuiNS Name: " +:+ or_else reverseLookup EmptyString))
   else ret tt);;
  emit (ConsoleLog (nl +:+ "Balances:"));;
  (match balances with
   | [] => emit (ConsoleLog "No coins found")
   | _ => print_balances balances
   end);;
  emit (ConsoleLog (nl +:+ "Account Object:"));;
  emit (ConsoleLog (JSON_stringify w accountInfo)).

(** Lines 84-114: the three fetches and the report, once the network is
    known. *)
Definition fetch_and_print (identifier addr : string) (network : NetworkName) (client : SuiClient)
  : Async Event unit :=
  emit (Spinner (SpinnerText ("Found account on " +:+ NetworkName_to_string network +:+ " network")));;
  let* fetched :=
    Promise_all3
      (getObject client addr)
      (getAllBalances client addr)
      (if isSuiNsName identifier then ret (Some identifier) else checkForSuiNsName addr network) in
  let '(accountInfo, balances, reverseLookup) := fetched in
  print_account_report addr network accountInfo balances reverseLookup.

(** The body of the [try] block. *)
Definition getAccountInfo_body (identifier : string) : Async Event unit :=
  let* addr := resolve_identifier identifier in
  let* detected := detectNetworkForAddress addr in
  let '(network, client) := detected in
  fetch_and_print identifier addr network client.

(** The action: the process exit code is the result (0 when the action
    returns normally). *)
Definition getAccountInfo (identifier : string) : list Event -> Z * list Event :=
  fun log =>
    match (emit (Spinner (SpinnerStart "Detecting account information..."));;
           getAccountInfo_body identifier) log with
    | (Fulfilled _, log') => (0%Z, log')
    | (Rejected error, log') =>
        (1%Z, log' ++ [Spinner (SpinnerFail (message_or_unknown error)); ProcessExit 1])
    end.

(** *** Observations on traces *)

(** The events a computation adds to the trace it starts from. *)
Definition events_of {A} (m : Async Event A) (log : list Event) : list Event :=
  drop (length log) (snd (m log)).

Definition balance_probe (ev : Event) : option (SuiClient * string * Settled (list Balance)) :=
  match ev with
  | GetAllBalances client owner answer => Some (client, owner, answer)
  | _ => None
  end.

(** Console and spinner output, as opposed to calls to a collaborator. *)
Definition is_output (ev : Event) : bool :=
  match ev with
  | ConsoleDebug _ _ | ConsoleLog _ | Spinner _ | ProcessExit _ => true
  | GetAllBalances _ _ _ | GetObject _ _ _ | AxiosGet _ _ => false
  end.

(** The balance queries of a trace, in order. *)
Definition balance_probes (tr : list Event) : list (SuiClient * string * Settled (list Balance)) :=
  omap balance_probe tr.

(** A balance query matches when it succeeds with at least one entry. *)
Definition is_match (answer : Settled (list Balance)) : bool :=
  match answer with
  | Fulfilled (_ :: _) => true
  | _ => false
  end.

Definition http_request (ev : Event) : option (string * Settled (option SuiNameResponse)) :=
  match ev with
  | AxiosGet target answer => Some (target, answer)
  | _ => None
  end.

(** The HTTP requests of a trace, in order. *)
Definition http_requests (tr : list Event) : list (string * Settled (option SuiNameResponse)) :=
  omap http_request tr.

(** The address a forward lookup yields, if any. *)
Definition yields (answer : Settled (option SuiNameResponse)) : option string :=
  match answer with
  | Fulfilled (Some {| address := Some a |}) => if truthy a then Some a else None
  | _ => None
  end.

Definition client_of (network : NetworkName) : SuiClient :=
  {| client_url := url (NETWORKS network) |}.

Definition resolve_target (nm : string) (network : NetworkName) : string :=
  suiNsEndpoint (NETWORKS network) +:+ "/resolve?name=" +:+ encodeURIComponent w nm.

Definition reverse_target (addr : string) (network : NetworkName) : string :=
  suiNsEndpoint (NETWORKS network) +:+ "/reverse-lookup?address=" +:+ addr.

(** The events of a detection scan: balance queries and debug notes. *)
Definition is_detection_event (ev : Event) : bool :=
  match ev with
  | GetAllBalances _ _ _ | ConsoleDebug _ _ => true
  | _ => false
  end.

(** The events of a resolution scan: HTTP requests, debug notes and the
    text of the spinner. *)
Definition is_resolution_event (ev : Event) : bool :=
  match ev with
  | AxiosGet _ _ | ConsoleDebug _ _ | Spinner (SpinnerText _) => true
  | _ => false
  end.

Definition report_line (ev : Event) : option string :=
  match ev with
  | ConsoleLog line => Some line
  | _ => None
  end.

(** The lines written by [console.log], in order. *)
Definition report_lines (tr : list Event) : list string := omap report_line tr.

Definition object_fetch (ev : Event) : option (SuiClient * string) :=
  match ev with
  | GetObject client id _ => Some (client, id)
  | _ => None
  end.

(** The object fetches of a trace, in order. *)
Definition object_fetches (tr : list Event) : list (SuiClient * string) :=
  omap object_fetch tr.

Definition debug_note (ev : Event) : option (string * Thrown) :=
  match ev with
  | ConsoleDebug label detail => Some (label, detail)
  | _ => None
  end.

(** The notes written by [console.debug], in order. *)
Definition debug_notes (tr : list Event) : list (string * Thrown) := omap debug_note tr.

End Collaborators.

Arguments Event : clear implicits.
Arguments World : clear implicits.

End Cli.

(* ===================================================================== *)
(** ** The NFT inspector (getNftDetails.ts)                              *)
(* ===================================================================== *)

Module Nft.

Record NftMetadata : Type := {
  creator : option string;
  type : option string;
  tag : option string;
  allTimeFloorPrice : option string;
  name : option string;
  description : option string;
  imageUrl : option string;
  attributes : option (list (string * string))
}.

Record MarketplaceApiResponse : Type := {
  stats_allTimeFloorPrice : option string
}.

(** [display?: { data?: Record<string, string> | null } | null] *)
Record DisplayFieldsResponse : Type := {
  display_data : option (gmap string string)
}.

Section Collaborators.
(** The values of the content fields are only rendered. *)
Context {MoveValue : Type}.

(** The parsed content of an object: a Move object carries [fields]
    (listed in the order of [Object.entries]), a package does not. *)
Inductive SuiParsedData : Type :=
| MoveObject (fields : list (string * MoveValue))
| Package.

Record SuiObjectData : Type := {
  data_type : option string;
  data_display : option DisplayFieldsResponse;
  data_content : option SuiParsedData
}.

Record SuiObjectResponse : Type := {
  data : option SuiObjectData
}.

Inductive Event : Type :=
| GetObject (rpc : string) (id : string) (answer : Settled SuiObjectResponse)
| AxiosGet (target : string) (answer : Settled MarketplaceApiResponse)
| ConsoleLog (line : string)
| ConsoleError (line : string)
| ProcessExit (code : Z).

(** What the command runs against.  A content value is rendered by
    [JSON.stringify] when [typeof value === 'object'], by [String]
    otherwise; the answers of the RPC client and of the marketplace are
    functions of the trace so far. *)
Record World : Type := {
  getFullnodeUrl : string -> string;
  typeof_object : MoveValue -> bool;
  JSON_stringify : MoveValue -> string;
  String_of : MoveValue -> string;
  rpc_getObject : list Event -> string -> string -> Settled SuiObjectResponse;
  axios_get : list Event -> string -> Settled MarketplaceApiResponse
}.

Variable w : World.

Local Open Scope async_scope.

(** [nftObject.data.display?.data ?? undefined] *)
Definition display_of (d : SuiObjectData) : option (gmap string string) :=
  match data_display d with
  | Some disp => display_data disp
  | None => None
  end.

(** The loop over [Object.entries(fields)]. *)
Fixpoint collect_attributes (fields : list (string * MoveValue)) : list (string * string) :=
  match fields with
  | [] => []
  | (key, value) :: rest =>
      if startsWith key "_" then collect_attributes rest
      else (key, if typeof_object w value then JSON_stringify w value else String_of w value)
             :: collect_attributes rest
  end.

(** The metadata assembled from the on-chain object, before the
    marketplace statistic is merged in. *)
Definition onchain_metadata (d : SuiObjectData) : NftMetadata :=
  let display := display_of d in
  let from_display (key : string) : option string :=
    match display with
    | Some m => m !! key
    | None => None
    end in
  {| type := data_type d;
     name := from_display "name";
     description := from_display "description";
     imageUrl := from_display "image_url";
     creator := from_display "creator";
     tag := from_display "tag";
     attributes :=
       match data_content d with
       | Some (MoveObject fields) => Some (collect_attributes fields)
       | _ => None
       end;
     allTimeFloorPrice := None |}.

Definition with_floor_price (m : NftMetadata) (p : option string) : NftMetadata :=
  {| creator := creator m; type := type m; tag := tag m;
     allTimeFloorPrice := p;
     name := name m; description := description m; imageUrl := imageUrl m;
     attributes := attributes m |}.

(** The [try]/[catch] around the marketplace request.  The body of a
    fulfilled answer is an object, as the type given to the response in
    the source has it ([AxiosResponse<MarketplaceApiResponse>]). *)
Definition enrich_floor_price (nftObjectId : string) (m : NftMetadata) : Async Event NftMetadata :=
  try_catch
    (let* response := call (fun log => axios_get w log
                              ("https://api.suimarketplace.com/nfts/" +:+ nftObjectId +:+ "/stats"))
                           (AxiosGet ("https://api.suimarketplace.com/nfts/" +:+ nftObjectId +:+ "/stats")) in
     ret (with_floor_price m (stats_allTimeFloorPrice response)))
    (fun error =>
       match error with
       | JsError msg => emit (ConsoleLog ("Could not fetch floor price data: " +:+ msg))
       | NonError => emit (ConsoleLog "Could not fetch floor price data")
       end;;
       ret m).

Fixpoint print_attributes (attrs : list (string * string)) : Async Event unit :=
  match attrs with
  | [] => ret tt
  | (key, value) :: rest =>
      emit (ConsoleLog ("  " +:+ key +:+ ": " +:+ value));;
      print_attributes rest
  end.

(** The report (the styling functions of chalk are the identity on the
    text). *)
Definition print_details (m : NftMetadata) : Async Event unit :=
  emit (ConsoleLog (nl +:+ "NFT Details:"));;
  emit (ConsoleLog "----------------------------------");;
  emit (ConsoleLog ("Name: " +:+ or_else (name m) "Not available"));;
  emit (ConsoleLog ("Type: " +:+ or_else (type m) "Not available"));;
  emit (ConsoleLog ("Creator: " +:+ or_else (creator m) "Not available"));;
  emit (ConsoleLog ("Tag: " +:+ or_else (tag m) "Not available"));;
  emit (ConsoleLog ("All Time Floor Price: " +:+ or_else (allTimeFloorPrice m) "Not available"));;
  (if truthy_opt (description m)
   then emit (ConsoleLog (nl +:+ "Description: " +:+ or_else (description m) EmptyString))
   else ret tt);;
  (if truthy_opt (imageUrl m)
   then emit (ConsoleLog (nl +:+ "Image URL: " +:+ or_else (imageUrl m) EmptyString))
   else ret tt);;
  (match attributes m with
   | Some (a :: attrs) =>
       emit (ConsoleLog (nl +:+ "Attributes:"));;
       print_attributes (a :: attrs)
   | _ => ret tt
   end);;
  emit (ConsoleLog ("----------------------------------" +:+ nl)).

Definition getNftDetails (nftObjectId : string) : Async Event unit :=
  let rpc := getFullnodeUrl w "mainnet" in
  emit (ConsoleLog (nl +:+ "Fetching details for NFT: " +:+ nftObjectId +:+ "..."));;
  let* nftObject := call (fun log => rpc_getObject w log rpc nftObjectId) (GetObject rpc nftObjectId) in
  match data nftObject with
  | None => throw (JsError "NFT not found or data unavailable")
  | Some d =>
      let* metadata := enrich_floor_price nftObjectId (onchain_metadata d) in
      print_details metadata
  end.

(** The command's action: the process exit code is the result. *)
Definition getNftDetails_action (nftObjectId : string) : list Event -> Z * list Event :=
  fun log =>
    match getNftDetails nftObjectId log with
    | (Fulfilled _, log') => (0%Z, log')
    | (Rejected error, log') =>
        (1%Z, log' ++ [ConsoleError ("Error: " +:+ message_or_unknown error); ProcessExit 1])
    end.

(** *** Observations on traces *)

Definition events_of {A} (m : Async Event A) (log : list Event) : list Event :=
  drop (length log) (snd (m log)).

Definition printed_line (ev : Event) : option string :=
  match ev with
  | ConsoleLog line => Some line
  | _ => None
  end.

(** The lines written by [console.log], in order. *)
Definition printed (tr : list Event) : list string := omap printed_line tr.

Definition stats_target (nftObjectId : string) : string :=
  "https://api.suimarketplace.com/nfts/" +:+ nftObjectId +:+ "/stats".

(** The lines of the report of [getNftDetails] (lines 83-106), as a list:
    the five labelled lines between two rules, then the description, the
    image and the attributes when there are any. *)
Definition details_lines (m : NftMetadata) : list string :=
  [ nl +:+ "NFT Details:";
    "----------------------------------";
    "Name: " +:+ or_else (name m) "Not available";
    "Type: " +:+ or_else (type m) "Not available";
    "Creator: " +:+ or_else (creator m) "Not available";
    "Tag: " +:+ or_else (tag m) "Not available";
    "All Time Floor Price: " +:+ or_else (allTimeFloorPrice m) "Not available" ]
  ++ (if truthy_opt (description m)
      then [nl +:+ "Description: " +:+ or_else (description m) EmptyString] else [])
  ++ (if truthy_opt (imageUrl m)
      then [nl +:+ "Image URL: " +:+ or_else (imageUrl m) EmptyString] else [])
  ++ match attributes m with
     | Some (a :: attrs) =>
         (nl +:+ "Attributes:")
           :: map (fun kv => "  " +:+ fst kv +:+ ": " +:+ snd kv) (a :: attrs)
     | _ => []
     end
  ++ ["----------------------------------" +:+ nl].

(** A call to a collaborator, as opposed to console output. *)
Definition is_call (ev : Event) : bool :=
  match ev with
  | GetObject _ _ _ | AxiosGet _ _ => true
  | ConsoleLog _ | ConsoleError _ | ProcessExit _ => false
  end.

(** The text of a content value:
    [typeof value === 'object' ? JSON.stringify(value) : String(value)]. *)
Definition render_value (value : MoveValue) : string :=
  if typeof_object w value then JSON_stringify w value else String_of w value.

End Collaborators.

Arguments Event : clear implicits.
Arguments World : clear implicits.

End Nft.

(* ===================================================================== *)
(** ** The launch orchestrator (nftLaunch.ts)                            *)
(* ===================================================================== *)

Module Launch.

(** [z.enum(['mainnet', 'testnet', 'devnet'])] *)
Inductive Network : Type := mainnet | testnet | devnet.

Definition Network_to_string (n : Network) : string :=
  match n with
  | mainnet => "mainnet"
  | testnet => "testnet"
  | devnet => "devnet"
  end.

(** A JavaScript number: a finite value (every double is a rational), or
    one of the three special values. *)
Inductive JsNumber : Type :=
| Finite (q : Q)
| NaN
| PosInfinity
| NegInfinity.

(** [a < b] on numbers, for a finite [b]. *)
Definition num_lt (a : JsNumber) (b : Q) : bool :=
  match a with
  | Finite q => negb (Qle_bool b q)
  | NegInfinity => true
  | PosInfinity | NaN => false
  end.

(** [a > b] on numbers, for a finite [b]. *)
Definition num_gt (a : JsNumber) (b : Q) : bool :=
  match a with
  | Finite q => negb (Qle_bool q b)
  | PosInfinity => true
  | NegInfinity | NaN => false
  end.

Inductive ZodIssueCode : Type :=
| invalid_type | too_small | too_big | invalid_string | custom.

(** An issue names the field it is about; [message] is the message given
    in the schema, when there is one. *)
Record ZodIssue : Type := {
  path : string;
  code : ZodIssueCode;
  message : option string
}.

(** The output of the schema. *)
Record MemeConfig : Type := {
  name : string;
  symbol : string;
  description : string;
  imagePath : string;
  network : Network;
  totalSupply : JsNumber;
  royaltyBps : JsNumber
}.

(** The input of the schema: the fields with a default may be absent. *)
Record RawAnswers : Type := {
  raw_name : string;
  raw_symbol : string;
  raw_description : option string;
  raw_imagePath : string;
  raw_network : option Network;
  raw_totalSupply : JsNumber;
  raw_royaltyBps : option JsNumber
}.

Record WalrusResponse : Type := { walrus_url : string }.

Record MoveBuildOutput : Type := {
  modules : list string;
  dependencies : list string
}.

Record SuiObjectChange : Type := {
  change_type : string;
  objectId : option string;
  packageId : option string;
  objectType : option string
}.

(** The publish transaction: the compiled package, and what
    [transferObjects] is given as the recipient of the upgrade capability,
    the bytes handed to [txb.pure]. *)
Record Transaction : Type := {
  publish_modules : list string;
  publish_dependencies : list string;
  upgradeCap_recipient : list Byte.byte
}.

Record TransactionResult : Type := {
  digest : string;
  objectChanges : option (list SuiObjectChange)
}.

(** *** MemeSchema, field by field *)

(** [/^[A-Z]{3,5}$/] *)
Fixpoint all_upper (s : string) : bool :=
  match s with
  | EmptyString => true
  | String c s' => is_upper c && all_upper s'
  end.

Definition symbol_regex (s : string) : bool :=
  (3 <=? String.length s)%nat && (String.length s <=? 5)%nat && all_upper s.

Definition description_default : string := "A meme NFT collection".
Definition network_default : Network := testnet.
Definition royaltyBps_default : JsNumber := Finite 5.

(** [.default(d)]: an absent input is replaced by [d] before the inner
    schema is applied. *)
Definition with_default {A} (d : A) (input : option A) : A :=
  match input with Some v => v | None => d end.

(** [z.string().min(1, ...)] *)
Definition shape_name (input : string) : list ZodIssue :=
  if (1 <=? String.length input)%nat then []
  else [{| path := "name"; code := too_small; message := Some "Name cannot be empty" |}].

(** [z.string().regex(...)] *)
Definition shape_symbol (input : string) : list ZodIssue :=
  if symbol_regex input then []
  else [{| path := "symbol"; code := invalid_string;
           message := Some "Must be 3-5 uppercase letters" |}].

(** [z.number().min(lo).max(hi)] *)
Definition number_between (field : string) (lo hi : Q) (input : JsNumber) : list ZodIssue :=
  match input with
  | NaN => [{| path := field; code := invalid_type; message := None |}]
  | _ =>
      (if num_lt input lo then [{| path := field; code := too_small; message := None |}] else [])
      ++ (if num_gt input hi then [{| path := field; code := too_big; message := None |}] else [])
  end.

Definition shape_totalSupply (input : JsNumber) : list ZodIssue :=
  number_between "totalSupply" 1 10000 input.

Definition shape_royaltyBps (input : option JsNumber) : list ZodIssue :=
  number_between "royaltyBps" 0 100 (with_default royaltyBps_default input).

(** The record the schema returns for an input without issues: the input,
    with the defaults in place of the absent fields. *)
Definition apply_defaults (raw : RawAnswers) : MemeConfig :=
  {| name := raw_name raw;
     symbol := raw_symbol raw;
     description := with_default description_default (raw_description raw);
     imagePath := raw_imagePath raw;
     network := with_default network_default (raw_network raw);
     totalSupply := raw_totalSupply raw;
     royaltyBps := with_default royaltyBps_default (raw_royaltyBps raw) |}.

(** The issue raised by the refinement on [imagePath]. *)
Definition imagePath_issue (accessible : bool) : list ZodIssue :=
  if accessible then []
  else [{| path := "imagePath"; code := custom; message := Some "File not found" |}].

Definition unlines (ls : list string) : string := String.concat nl ls.

Section Collaborators.
(** The key pair derived from the private key is only asked for its
    address. *)
Context {Keypair : Type}.

Inductive Event : Type :=
| Prompt (answer : Settled RawAnswers)
| FsAccess (file : string) (answer : Settled unit)
| FsMkdir (dir : string) (answer : Settled unit)
| FsReadFile (file : string) (answer : Settled string)
| FsWriteFile (file : string) (content : string) (answer : Settled unit)
| AxiosPost (target : string) (payload : string) (authorization : string)
            (answer : Settled WalrusResponse)
| ExecSync (command : string) (dir : string) (answer : Settled string)
| SignAndExecute (rpc : string) (tx : Transaction) (signer : string)
                 (answer : Settled TransactionResult)
| ConsoleLog (line : string).

(** What the workflow runs against: [process.cwd()] and [process.env];
    [path.join] on the segments it is given, [TextEncoder.encode], the
    rendering of a number in a template literal, the message of a
    [ZodError], the parser of the compiler's output and the key pair
    derived from the private key, which belong to the runtime and the
    libraries; and the answers of the prompt, the file system, the
    storage service, the compiler and the RPC client, as functions of
    the trace so far. *)
Record World : Type := {
  getFullnodeUrl : Network -> string;
  cwd : string;
  env : string -> option string;
  path_join : list string -> string;
  TextEncoder_encode : string -> list Byte.byte;
  Number_toString : JsNumber -> string;
  ZodError_message : list ZodIssue -> string;
  JSON_parse : string -> Settled MoveBuildOutput;
  Keypair_fromSecretKey : string -> Settled Keypair;
  toSuiAddress : Keypair -> string;
  inquirer_prompt : list Event -> Settled RawAnswers;
  fs_access : list Event -> string -> Settled unit;
  fs_mkdir : list Event -> string -> Settled unit;
  fs_readFile : list Event -> string -> Settled string;
  fs_writeFile : list Event -> string -> string -> Settled unit;
  axios_post : list Event -> string -> string -> string -> Settled WalrusResponse;
  execSync_run : list Event -> string -> string -> Settled string;
  rpc_signAndExecute : list Event -> string -> Transaction -> string -> Settled TransactionResult
}.

Variable w : World.

Local Open Scope async_scope.

Definition mkdir (dir : string) : Async Event unit :=
  call (fun log => fs_mkdir w log dir) (FsMkdir dir).

Definition writeFile (file content : string) : Async Event unit :=
  call (fun log => fs_writeFile w log file content) (FsWriteFile file content).

Definition execSync (command dir : string) : Async Event string :=
  call (fun log => execSync_run w log command dir) (ExecSync command dir).

(** The refinement of [imagePath]: [fs.access] in a [try]/[catch]. *)
Definition imagePath_refine (val : string) : Async Event bool :=
  try_catch
    (call (fun log => fs_access w log val) (FsAccess val);; ret true)
    (fun _ => ret false).

(** [MemeSchema.shape.imagePath.safeParseAsync] *)
Definition shape_imagePath (input : string) : Async Event (list ZodIssue) :=
  let* accessible := imagePath_refine input in
  ret (imagePath_issue accessible).

(** [MemeSchema.parseAsync]: every field is checked; the issues of the
    synchronous checks are collected in the order of the shape, the issue
    of the asynchronous refinement on [imagePath] is added when its check
    settles, after them; the parsed record carries the defaults of the
    absent fields. *)
Definition MemeSchema_parseAsync (raw : RawAnswers) : Async Event MemeConfig :=
  let* image_issues := shape_imagePath (raw_imagePath raw) in
  let issues :=
    shape_name (raw_name raw) ++ shape_symbol (raw_symbol raw)
    ++ shape_totalSupply (raw_totalSupply raw) ++ shape_royaltyBps (raw_royaltyBps raw)
    ++ image_issues in
  match issues with
  | [] => ret (apply_defaults raw)
  | _ :: _ => throw (JsError (ZodError_message w issues))
  end.

(** *** Helpers of the workflow *)

Definition uploadToWalrus (filePath : string) : Async Event string :=
  let* data := call (fun log => fs_readFile w log filePath) (FsReadFile filePath) in
  let authorization :=
    "Bearer " +:+ with_default "undefined" (env w "WALRUS_API_KEY") in
  let* res := call (fun log => axios_post w log "https://api.walrus.gg/upload" data authorization)
                   (AxiosPost "https://api.walrus.gg/upload" data authorization) in
  ret (walrus_url res).

Definition Move_toml (config : MemeConfig) : string :=
  unlines
    [
     "[package]";
     "name = " +:+ dq +:+ "meme_" +:+ toLowerCase (symbol config) +:+ dq;
     "version = " +:+ dq +:+ "0.1.0" +:+ dq;
     EmptyString;
     "[dependencies]";
     "Sui = { git = " +:+ dq +:+ "https://github.com/MystenLabs/sui.git" +:+ dq +:+ ", subdir = " +:+ dq +:+ "crates/sui-framework/packages/sui-framework" +:+ dq +:+ ", rev = " +:+ dq +:+ "framework/testnet" +:+ dq +:+ " }"
    ].

(** The lines of the template of [generateMoveCode]. *)
Definition Move_code_lines (config : MemeConfig) (imageUrl : string) : list string :=
    [
     "module meme_" +:+ toLowerCase (symbol config) +:+ "::meme {";
     "    use sui::transfer;";
     "    use sui::object::{Self, UID};";
     "    use sui::tx_context::TxContext;";
     "    use sui::display;";
     "    use sui::url::Url;";
     "    use sui::string::String;";
     EmptyString;
     "    struct " +:+ symbol config +:+ " has key, store {";
     "        id: UID,";
     "        name: String,";
     "        description: String,";
     "        image_url: Url,";
     "    }";
     EmptyString;
     "    public fun init(otw: &mut TxContext) {";
     "        let display = display::new_with_fields(";
     "            &mut display::new(),";
     "            vector[";
     "                (" +:+ dq +:+ "name" +:+ dq +:+ ", " +:+ dq +:+ name config +:+ dq +:+ "),";
     "                (" +:+ dq +:+ "description" +:+ dq +:+ ", " +:+ dq +:+ description config +:+ dq +:+ "),";
     "                (" +:+ dq +:+ "image_url" +:+ dq +:+ ", " +:+ dq +:+ imageUrl +:+ dq +:+ "),";
     "                (" +:+ dq +:+ "creator" +:+ dq +:+ ", " +:+ dq +:+ "Meme Creator" +:+ dq +:+ "),";
     "                (" +:+ dq +:+ "royalty" +:+ dq +:+ ", " +:+ dq +:+ Number_toString w (royaltyBps config) +:+ dq +:+ "),";
     "                (" +:+ dq +:+ "symbol" +:+ dq +:+ ", " +:+ dq +:+ symbol config +:+ dq +:+ ")";
     "            ]";
     "        );";
     "        display::update_version(&mut display);";
     "        transfer::public_transfer(display, tx_context::sender(otw));";
     "    }";
     EmptyString;
     "    public entry fun mint(";
     "        name: String,";
     "        description: String,";
     "        image_url: Url,";
     "        recipient: address,";
     "        ctx: &mut TxContext";
     "    ) {";
     "        let meme = " +:+ symbol config +:+ " {";
     "            id: object::new(ctx),";
     "            name,";
     "            description,";
     "            image_url";
     "        };";
     "        transfer::public_transfer(meme, recipient);";
     "    }";
     "}"
    ].

Definition generateMoveCode (config : MemeConfig) (imageUrl : string) : string :=
  unlines (Move_code_lines config imageUrl).

Definition generateMoveFiles (projectDir : string) (config : MemeConfig) (imageUrl : string)
  : Async Event unit :=
  mkdir (path_join w [projectDir; "sources"]);;
  writeFile (path_join w [projectDir; "Move.toml"]) (Move_toml config);;
  writeFile (path_join w [projectDir; "sources"; "meme.move"])
            (generateMoveCode config imageUrl).

Definition getKeypair : Async Event Keypair :=
  match env w "SUI_PRIVATE_KEY" with
  | Some key =>
      if truthy key then
        match Keypair_fromSecretKey w key with
        | Fulfilled k => ret k
        | Rejected e => throw e
        end
      else throw (JsError "Missing SUI_PRIVATE_KEY in environment")
  | None => throw (JsError "Missing SUI_PRIVATE_KEY in environment")
  end.

(** [change.type === 'published' && 'packageId' in change] *)
Definition is_published (change : SuiObjectChange) : bool :=
  String.eqb (change_type change) "published" &&
  match packageId change with Some _ => true | None => false end.

Definition deployCollection (projectDir : string) (net : Network) : Async Event unit :=
  let rpc := getFullnodeUrl w net in
  let* keypair := getKeypair in
  let* stdout := execSync "sui move build --dump-bytecode-as-base64" projectDir in
  let* buildOutput := (fun log => (JSON_parse w stdout, log)) in
  let txb := {| publish_modules := modules buildOutput;
                publish_dependencies := dependencies buildOutput;
                upgradeCap_recipient := TextEncoder_encode w (toSuiAddress w keypair) |} in
  let* result := call (fun log => rpc_signAndExecute w log rpc txb (toSuiAddress w keypair))
                      (SignAndExecute rpc txb (toSuiAddress w keypair)) in
  let publishedPackage :=
    match objectChanges result with
    | Some changes => List.find is_published changes
    | None => None
    end in
  emit (ConsoleLog ("📦 Package ID: " +:+
                    match publishedPackage with
                    | Some change => with_default "undefined" (packageId change)
                    | None => "Unknown"
                    end));;
  emit (ConsoleLog ("🔗 Explorer: https://suiexplorer.com/txblock/" +:+ digest result
                    +:+ "?network=" +:+ Network_to_string net)).

(** *** launchMeme *)

(** Lines 127-145: what follows the upload. *)
Definition generate_build_deploy (projectDir : string) (answers : MemeConfig)
           (imageUrl : string) : Async Event unit :=
  generateMoveFiles projectDir answers imageUrl;;
  emit (ConsoleLog "🏗 Building Move package...");;
  execSync "sui move build" projectDir;;
  emit (ConsoleLog "🛰 Deploying to Sui...");;
  deployCollection projectDir (network answers);;
  emit (ConsoleLog (nl +:+ "🎉 Meme NFT launched successfully!"));;
  emit (ConsoleLog ("👉 Project directory: " +:+ projectDir)).

(** The answers of the prompt are those of the user; the validators of
    the questions are the field schemas above. *)
Definition launchMeme : Async Event unit :=
  let* rawAnswers := call (inquirer_prompt w) Prompt in
  let* answers := MemeSchema_parseAsync rawAnswers in
  let projectDir := path_join w [cwd w; "meme-" +:+ toLowerCase (symbol answers)] in
  mkdir projectDir;;
  emit (ConsoleLog "🚀 Initializing Sui NFT project...");;
  emit (ConsoleLog "📤 Uploading meme to Walrus...");;
  let* imageUrl := uploadToWalrus (imagePath answers) in
  generate_build_deploy projectDir answers imageUrl.

(** *** Observations on traces *)

Definition events_of {A} (m : Async Event A) (log : list Event) : list Event :=
  drop (length log) (snd (m log)).

(** The upload failed: reading the image or posting it was rejected. *)
Definition is_upload_failure (ev : Event) : bool :=
  match ev with
  | FsReadFile _ (Rejected _) => true
  | AxiosPost _ _ _ (Rejected _) => true
  | _ => false
  end.

(** The steps that follow the upload: writing the generated files,
    running the compiler, submitting the transaction. *)
Definition is_later_step (ev : Event) : bool :=
  match ev with
  | FsWriteFile _ _ _ => true
  | ExecSync _ _ _ => true
  | SignAndExecute _ _ _ _ => true
  | _ => false
  end.

(** The events of the deployment: the second run of the compiler, the
    transaction, and the two lines of the report. *)
Definition is_deploy_step (ev : Event) : bool :=
  match ev with
  | ExecSync command _ _ => String.eqb command "sui move build --dump-bytecode-as-base64"
  | SignAndExecute _ _ _ _ => true
  | ConsoleLog _ => true
  | _ => false
  end.

Definition written_file (ev : Event) : option (string * string) :=
  match ev with
  | FsWriteFile file content (Fulfilled _) => Some (file, content)
  | _ => None
  end.

(** The files written successfully, with their content, in order. *)
Definition written_files (tr : list Event) : list (string * string) :=
  omap written_file tr.

Definition created_dir (ev : Event) : option string :=
  match ev with
  | FsMkdir dir (Fulfilled _) => Some dir
  | _ => None
  end.

Definition created_dirs (tr : list Event) : list string := omap created_dir tr.

Definition with_symbol (raw : RawAnswers) (s : string) : RawAnswers :=
  {| raw_name := raw_name raw; raw_symbol := s; raw_description := raw_description raw;
     raw_imagePath := raw_imagePath raw; raw_network := raw_network raw;
     raw_totalSupply := raw_totalSupply raw; raw_royaltyBps := raw_royaltyBps raw |}.

(** *** The validators of the questions *)

(** What a [validate] function of a question returns: [true], or the
    message shown to the user. *)
Inductive Validation : Type :=
| Valid
| Invalid (text : string).

(** [result.success || result.error.errors[0].message]; an issue raised
    without a message of the schema carries the default message of the
    library, [default_message]. *)
Definition first_error (default_message : ZodIssue -> string) (issues : list ZodIssue)
  : Validation :=
  match issues with
  | [] => Valid
  | issue :: _ => Invalid (with_default (default_message issue) (message issue))
  end.

Definition validate_name (default_message : ZodIssue -> string) (input : string) : Validation :=
  first_error default_message (shape_name input).

Definition validate_symbol (default_message : ZodIssue -> string) (input : string) : Validation :=
  first_error default_message (shape_symbol input).

Definition validate_imagePath (default_message : ZodIssue -> string) (input : string)
  : Async Event Validation :=
  let* issues := shape_imagePath input in
  ret (first_error default_message issues).

Definition validate_totalSupply (default_message : ZodIssue -> string) (input : JsNumber)
  : Validation :=
  first_error default_message (shape_totalSupply input).

Definition validate_royaltyBps (default_message : ZodIssue -> string) (input : JsNumber)
  : Validation :=
  first_error default_message (shape_royaltyBps (Some input)).

Definition is_transaction (ev : Event) : bool :=
  match ev with
  | SignAndExecute _ _ _ _ => true
  | _ => false
  end.

(** The runs of the compiler, in order: command, directory and whether the
    run succeeded. *)
Definition compiler_run (ev : Event) : option (string * string * bool) :=
  match ev with
  | ExecSync command dir answer => Some (command, dir, is_fulfilled answer)
  | _ => None
  end.

Definition compiler_runs (tr : list Event) : list (string * string * bool) :=
  omap compiler_run tr.

(** The transactions submitted, in order: whether the node executed
    them. *)
Definition transaction_outcome (ev : Event) : option bool :=
  match ev with
  | SignAndExecute _ _ _ answer => Some (is_fulfilled answer)
  | _ => None
  end.

Definition transaction_outcomes (tr : list Event) : list bool :=
  omap transaction_outcome tr.

(** A parsed record, read back as an input of the schema. *)
Definition to_raw (c : MemeConfig) : RawAnswers :=
  {| raw_name := name c;
     raw_symbol := symbol c;
     raw_description := Some (description c);
     raw_imagePath := imagePath c;
     raw_network := Some (network c);
     raw_totalSupply := totalSupply c;
     raw_royaltyBps := Some (royaltyBps c) |}.

End Collaborators.

Arguments World : clear implicits.

End Launch.

(* ===================================================================== *)
(** ** Concrete worlds, on which the embedding is run                    *)
(* ===================================================================== *)

Module Scenarios.

(** The full-node endpoints of the SDK. *)
Definition fullnode (n : Cli.NetworkName) : string :=
  match n with
  | Cli.mainnet => "https://fullnode.mainnet.sui.io:443"
  | Cli.testnet => "https://fullnode.testnet.sui.io:443"
  | Cli.devnet => "https://fullnode.devnet.sui.io:443"
  | Cli.localnet => "http://127.0.0.1:9000"
  end.

Definition not_found {A} : Settled A := Rejected (JsError "Request failed with status code 404").

Definition some_sui : list Cli.Balance :=
  [{| Cli.coinType := "0x2::sui::SUI"; Cli.totalBalance := "1000000000" |}].

(** A world for the account inspector: the naming service of mainnet
    knows [known_name] and nothing else, and only mainnet holds coins of
    [known_address]; the names used need no escaping. *)
Definition account_world (known_name known_address : string) : Cli.World string :=
  {| Cli.getFullnodeUrl := fullnode;
     Cli.encodeURIComponent := fun s => s;
     Cli.JSON_stringify := fun o => o;
     Cli.rpc_getAllBalances := fun _ client owner =>
       if String.eqb (Cli.client_url client) (fullnode Cli.mainnet) && String.eqb owner known_address
       then Fulfilled some_sui else Fulfilled [];
     Cli.rpc_getObject := fun _ _ _ => Fulfilled "{}";
     Cli.axios_get := fun _ target =>
       if String.eqb target ("https://api.suins.io/mainnet/resolve?name=" +:+ known_name)
       then Fulfilled (Some {| Cli.address := Some known_address; Cli.name := None |})
       else not_found |}.

(** A world in which every endpoint is unreachable. *)
Definition offline_world : Cli.World string :=
  {| Cli.getFullnodeUrl := fullnode;
     Cli.encodeURIComponent := fun s => s;
     Cli.JSON_stringify := fun o => o;
     Cli.rpc_getAllBalances := fun _ _ _ => Rejected (JsError "fetch failed");
     Cli.rpc_getObject := fun _ _ _ => Rejected (JsError "fetch failed");
     Cli.axios_get := fun _ _ => Rejected (JsError "connect ECONNREFUSED") |}.

(** An object without display data, with three content fields. *)
Definition bare_object : Nft.SuiObjectData (MoveValue := string) :=
  {| Nft.data_type := Some "0x2::devnet_nft::DevNetNFT";
     Nft.data_display := None;
     Nft.data_content := Some (Nft.MoveObject [("id", "0x1"); ("_version", "3"); ("level", "7")]) |}.

(** A world for the NFT inspector: the node answers [found] for every
    object, the marketplace answers [stats]; content values are plain
    strings. *)
Definition nft_world (found : Nft.SuiObjectResponse (MoveValue := string))
           (stats : Settled Nft.MarketplaceApiResponse) : Nft.World string :=
  {| Nft.getFullnodeUrl := fun n => "https://fullnode." +:+ n +:+ ".sui.io:443";
     Nft.typeof_object := fun _ => false;
     Nft.JSON_stringify := fun v => v;
     Nft.String_of := fun v => v;
     Nft.rpc_getObject := fun _ _ _ => Fulfilled found;
     Nft.axios_get := fun _ _ => stats |}.

(** The answers of a user who keeps the defaults. *)
Definition doge_answers : Launch.RawAnswers :=
  {| Launch.raw_name := "Doge Coin";
     Launch.raw_symbol := "DOGE";
     Launch.raw_description := None;
     Launch.raw_imagePath := "doge.png";
     Launch.raw_network := None;
     Launch.raw_totalSupply := Launch.Finite 1000;
     Launch.raw_royaltyBps := None |}.

(** The answers of a user who types a description of their own. *)
Definition described_answers : Launch.RawAnswers :=
  {| Launch.raw_name := "Doge Coin";
     Launch.raw_symbol := "DOGE";
     Launch.raw_description := Some "Such wow, very 'coin'";
     Launch.raw_imagePath := "doge.png";
     Launch.raw_network := None;
     Launch.raw_totalSupply := Launch.Finite 1000;
     Launch.raw_royaltyBps := None |}.

(** Numbers are printed like integers (enough for whole values). *)
Definition show_number (n : Launch.JsNumber) : string :=
  match n with
  | Launch.Finite q => pretty (Qnum q / Zpos (Qden q))%Z
  | Launch.NaN => "NaN"
  | Launch.PosInfinity => "Infinity"
  | Launch.NegInfinity => "-Infinity"
  end.

Definition issue_text (i : Launch.ZodIssue) : string :=
  Launch.path i +:+ ": " +:+
  match Launch.message i with Some m => m | None => "Invalid value" end.

(** A world for the launch workflow: the user gives [answers], the files
    of [disk] exist, the storage service answers [upload]; the compiler
    and the node do their job. *)
Definition launch_world (answers : Launch.RawAnswers) (disk : list string)
           (upload : Settled Launch.WalrusResponse) : Launch.World string :=
  {| Launch.getFullnodeUrl := fun n => "https://fullnode." +:+ Launch.Network_to_string n +:+ ".sui.io:443";
     Launch.cwd := "/home/user";
     Launch.path_join := String.concat "/";
     Launch.TextEncoder_encode := list_byte_of_string;
     Launch.env := fun key =>
       if String.eqb key "WALRUS_API_KEY" then Some "walrus-key"
       else if String.eqb key "SUI_PRIVATE_KEY" then Some "AAECAwQ="
       else None;
     Launch.Number_toString := show_number;
     Launch.ZodError_message := fun issues => String.concat "; " (map issue_text issues);
     Launch.JSON_parse := fun _ =>
       Fulfilled {| Launch.modules := ["oRzrCwYAAAAK"]; Launch.dependencies := ["0x1"; "0x2"] |};
     Launch.Keypair_fromSecretKey := fun _ => Fulfilled "0x51";
     Launch.toSuiAddress := fun k => k;
     Launch.inquirer_prompt := fun _ => Fulfilled answers;
     Launch.fs_access := fun _ file =>
       if existsb (String.eqb file) disk then Fulfilled tt
       else Rejected (JsError "ENOENT: no such file or directory");
     Launch.fs_mkdir := fun _ _ => Fulfilled tt;
     Launch.fs_readFile := fun _ file =>
       if existsb (String.eqb file) disk then Fulfilled "PNG"
       else Rejected (JsError "ENOENT: no such file or directory");
     Launch.fs_writeFile := fun _ _ _ => Fulfilled tt;
     Launch.axios_post := fun _ _ _ _ => upload;
     Launch.execSync_run := fun _ _ _ => Fulfilled "{}";
     Launch.rpc_signAndExecute := fun _ _ _ _ =>
       Fulfilled {| Launch.digest := "9oG3";
                    Launch.objectChanges :=
                      Some [{| Launch.change_type := "published";
                               Launch.objectId := None;
                               Launch.packageId := Some "0xcafe";
                               Launch.objectType := None |}] |} |}.

Definition uploaded : Settled Launch.WalrusResponse :=
  Fulfilled {| Launch.walrus_url := "https://walrus.gg/doge.png" |}.

(** The same world with an environment of one's choice and a compiler
    that answers [build]. *)
Definition launch_world_with (environment : string -> option string) (build : Settled string)
           (answers : Launch.RawAnswers) (disk : list string)
           (upload : Settled Launch.WalrusResponse) : Launch.World string :=
  let base := launch_world answers disk upload in
  {| Launch.getFullnodeUrl := Launch.getFullnodeUrl base;
     Launch.cwd := Launch.cwd base;
     Launch.path_join := Launch.path_join base;
     Launch.TextEncoder_encode := Launch.TextEncoder_encode base;
     Launch.env := environment;
     Launch.Number_toString := Launch.Number_toString base;
     Launch.ZodError_message := Launch.ZodError_message base;
     Launch.JSON_parse := Launch.JSON_parse base;
     Launch.Keypair_fromSecretKey := Launch.Keypair_fromSecretKey base;
     Launch.toSuiAddress := Launch.toSuiAddress base;
     Launch.inquirer_prompt := Launch.inquirer_prompt base;
     Launch.fs_access := Launch.fs_access base;
     Launch.fs_mkdir := Launch.fs_mkdir base;
     Launch.fs_readFile := Launch.fs_readFile base;
     Launch.fs_writeFile := Launch.fs_writeFile base;
     Launch.axios_post := Launch.axios_post base;
     Launch.execSync_run := fun _ _ _ => build;
     Launch.rpc_signAndExecute := Launch.rpc_signAndExecute base |}.

(** No variable is set. *)
Definition empty_env (key : string) : option string := None.

(** An object with display data and an empty name. *)
Definition displayed_object : Nft.SuiObjectData (MoveValue := string) :=
  {| Nft.data_type := Some "0x2::devnet_nft::DevNetNFT";
     Nft.data_display :=
       Some {| Nft.display_data :=
                 Some (<["name" := EmptyString]> (<["creator" := "0xartist"]> ∅)) |};
     Nft.data_content := Some (Nft.MoveObject [("_id", "0x1"); ("_version", "3")]) |}.

End Scenarios.

(* ===================================================================== *)
(** ** Facts about the string operations                                 *)
(* ===================================================================== *)

#[local] Arguments String.append !_ _ / : simpl nomatch.

Section StringFacts.

Lemma startsWith_spec (s p : string) :
  startsWith s p = true <-> exists rest, s = p +:+ rest.
Proof.
  revert s; induction p as [|c p IH]; intros s; simpl.
  - split; [intros _; exists s; reflexivity | reflexivity].
  - destruct s as [|d s]; simpl.
    + split; [discriminate | intros [rest H]; discriminate].
    + destruct (Ascii.eqb_spec c d) as [->|Hne].
      * rewrite IH. split; intros [rest H]; exists rest; simpl in *; congruence.
      * split; [discriminate | intros [rest H]; simpl in H; congruence].
Qed.

Lemma includes_here (p rest : string) : includes (p +:+ rest) p = true.
Proof.
  assert (H : startsWith (p +:+ rest) p = true)
    by (apply startsWith_spec; exists rest; reflexivity).
  destruct (p +:+ rest); simpl; rewrite H; reflexivity.
Qed.

Lemma includes_cons (c : ascii) (s p : string) :
  includes s p = true -> includes (String c s) p = true.
Proof. intros H; simpl; rewrite H; apply orb_true_r. Qed.

Lemma includes_app_r (a b p : string) :
  includes b p = true -> includes (a +:+ b) p = true.
Proof.
  intros H; induction a as [|c a IH]; simpl in *; [exact H|].
  rewrite IH; apply orb_true_r.
Qed.

Lemma includes_spec (s p : string) :
  includes s p = true <-> exists pre post, s = pre +:+ p +:+ post.
Proof.
  split.
  - induction s as [|c s IH]; simpl; rewrite orb_true_iff; intros [H|H].
    + apply startsWith_spec in H as [rest ->]. exists EmptyString, rest; reflexivity.
    + discriminate.
    + apply startsWith_spec in H as [rest ->]. exists EmptyString, rest; reflexivity.
    + destruct (IH H) as (pre & post & ->). exists (String c pre), post; reflexivity.
  - intros (pre & post & ->). apply includes_app_r, includes_here.
Qed.

Lemma includes_app_l (a b p : string) :
  includes a p = true -> includes (a +:+ b) p = true.
Proof.
  rewrite !includes_spec. intros (pre & post & ->).
  exists pre, (post +:+ b).
  induction pre as [|c pre IH]; simpl.
  - induction p as [|d p IHp]; simpl; [reflexivity | f_equal; exact IHp].
  - f_equal; exact IH.
Qed.

Lemma string_app_assoc (a b c : string) : (a +:+ b) +:+ c = a +:+ (b +:+ c).
Proof. induction a as [|x a IH]; simpl; [reflexivity | f_equal; exact IH]. Qed.

Lemma includes_refl (p : string) : includes p p = true.
Proof.
  apply includes_spec. exists EmptyString, EmptyString. simpl.
  induction p as [|c p IH]; simpl; [reflexivity | f_equal; exact IH].
Qed.

Lemma endsWith_unfold (s p : string) :
  endsWith s p =
  String.eqb s p || match s with EmptyString => false | String _ s' => endsWith s' p end.
Proof. destruct s; reflexivity. Qed.

Lemma endsWith_spec (s p : string) :
  endsWith s p = true <-> exists pre, s = pre +:+ p.
Proof.
  split.
  - induction s as [|c s IH]; rewrite endsWith_unfold, orb_true_iff; intros [H|H].
    + apply String.eqb_eq in H as <-. exists EmptyString; reflexivity.
    + discriminate.
    + apply String.eqb_eq in H as <-. exists EmptyString; reflexivity.
    + destruct (IH H) as [pre ->]. exists (String c pre); reflexivity.
  - intros [pre ->]. induction pre as [|c pre IH].
    + rewrite endsWith_unfold. change (EmptyString +:+ p) with p.
      rewrite String.eqb_refl; reflexivity.
    + change (String c pre +:+ p) with (String c (pre +:+ p)).
      rewrite endsWith_unfold, IH; apply orb_true_r.
Qed.

Lemma endsWith_includes (s p : string) :
  endsWith s p = true -> includes s p = true.
Proof.
  rewrite endsWith_spec, includes_spec. intros [pre ->].
  exists pre, EmptyString. f_equal.
  induction p as [|c p IH]; simpl; [reflexivity | f_equal; exact IH].
Qed.

(** A line of a text occurs in the text. *)
Lemma includes_concat (sep l : string) (ls : list string) :
  In l ls -> includes (String.concat sep ls) l = true.
Proof.
  induction ls as [|x [|y ls] IH]; simpl; intros H.
  - destruct H.
  - destruct H as [->|[]]. apply includes_refl.
  - destruct H as [->|H].
    + apply includes_here.
    + apply includes_app_r, includes_app_r. apply IH. exact H.
Qed.

Lemma includes_trans (s m p : string) :
  includes s m = true -> includes m p = true -> includes s p = true.
Proof.
  rewrite !includes_spec. intros (a & b & ->) (c & d & ->).
  apply includes_spec. apply includes_app_r, includes_app_l, includes_app_r, includes_here.
Qed.

End StringFacts.

(* ===================================================================== *)
(** ** Computations that only write to the trace                         *)
(* ===================================================================== *)

Section OutputFacts.
Context {Event : Type}.

Lemma only_outputs_ret : only_outputs (ret tt : Async Event unit) [].
Proof. intros log. unfold ret. rewrite app_nil_r. reflexivity. Qed.

Lemma only_outputs_emit (ev : Event) : only_outputs (emit ev) [ev].
Proof. intros log. reflexivity. Qed.

Lemma only_outputs_seq (m k : Async Event unit) (o1 o2 : list Event) :
  only_outputs m o1 -> only_outputs k o2 -> only_outputs (bind m (fun _ => k)) (o1 ++ o2).
Proof.
  intros Hm Hk log. unfold bind. rewrite Hm, Hk, app_assoc. reflexivity.
Qed.

End OutputFacts.

(* ===================================================================== *)
(** ** The network detector and the name resolver                        *)
(* ===================================================================== *)

Section CliProperties.
Context {Obj : Type} (w : Cli.World Obj).

Lemma cli_events_of_app {A} (m : Async (Cli.Event Obj) A) (log tr : list (Cli.Event Obj)) :
  snd (m log) = log ++ tr -> Cli.events_of m log = tr.
Proof. unfold Cli.events_of. intros ->. apply drop_app_length. Qed.

(** One probe, by the answer of the balance query. *)
Lemma detect_probe_unfold (addr : string) (n : Cli.NetworkName) (log : list (Cli.Event Obj)) :
  Cli.detect_probe w addr n log =
  let answer := Cli.rpc_getAllBalances w log (Cli.client_of w n) addr in
  let ev := Cli.GetAllBalances (Cli.client_of w n) addr answer in
  match answer with
  | Fulfilled (_ :: _) => (Fulfilled (Some (n, Cli.client_of w n)), log ++ [ev])
  | Fulfilled [] => (Fulfilled None, log ++ [ev])
  | Rejected e =>
      (Fulfilled None,
       (log ++ [ev]) ++
       [Cli.ConsoleDebug ("Network " +:+ Cli.NetworkName_to_string n +:+ " check failed:") e])
  end.
Proof.
  unfold Cli.detect_probe, try_catch, bind, Cli.getAllBalances, call, Cli.client_of; simpl.
  destruct (Cli.rpc_getAllBalances w log _ addr) as [[|b bs]|e]; reflexivity.
Qed.

Lemma detect_loop_cons (addr : string) (n : Cli.NetworkName) (rest : list Cli.NetworkName)
      (log : list (Cli.Event Obj)) :
  Cli.detect_loop w addr (n :: rest) log =
  let answer := Cli.rpc_getAllBalances w log (Cli.client_of w n) addr in
  let ev := Cli.GetAllBalances (Cli.client_of w n) addr answer in
  match answer with
  | Fulfilled (_ :: _) => (Fulfilled (n, Cli.client_of w n), log ++ [ev])
  | Fulfilled [] => Cli.detect_loop w addr rest (log ++ [ev])
  | Rejected e =>
      Cli.detect_loop w addr rest
        ((log ++ [ev]) ++
         [Cli.ConsoleDebug ("Network " +:+ Cli.NetworkName_to_string n +:+ " check failed:") e])
  end.
Proof.
  cbn [Cli.detect_loop]; unfold bind. rewrite detect_probe_unfold; cbv zeta.
  destruct (Cli.rpc_getAllBalances w log (Cli.client_of w n) addr) as [[|b bs]|e]; reflexivity.
Qed.

(** The probing loop over any list of candidates: the balance queries of
    the run are those of a prefix of the candidates, in order; the run
    returns at the first query that matches, and fails with the
    aggregate error when the candidates are exhausted. *)
Lemma detect_loop_trace (addr : string) (cands : list Cli.NetworkName) (log : list (Cli.Event Obj)) :
  exists (tr : list (Cli.Event Obj)) (k : nat),
    snd (Cli.detect_loop w addr cands log) = log ++ tr /\
    map fst (Cli.balance_probes tr) = map (fun n => (Cli.client_of w n, addr)) (take k cands) /\
    match fst (Cli.detect_loop w addr cands log) with
    | Fulfilled (n, c) =>
        exists j, k = S j /\ cands !! j = Some n /\ c = Cli.client_of w n /\
                  map Cli.is_match (map snd (Cli.balance_probes tr)) = replicate j false ++ [true]
    | Rejected e =>
        e = JsError "Address not found on any supported network" /\
        k = length cands /\
        map Cli.is_match (map snd (Cli.balance_probes tr)) = replicate k false
    end.
Proof.
  revert log; induction cands as [|n rest IH]; intros log.
  - exists [], 0. simpl. rewrite app_nil_r. repeat split; reflexivity.
  - rewrite detect_loop_cons; cbv zeta.
    destruct (Cli.rpc_getAllBalances w log (Cli.client_of w n) addr) as [[|b bs]|e].
    + destruct (IH (log ++ [Cli.GetAllBalances (Cli.client_of w n) addr (Fulfilled [])]))
        as (tr & k & Hlog & Hprobes & Hres).
      exists (Cli.GetAllBalances (Cli.client_of w n) addr (Fulfilled []) :: tr), (S k).
      split; [rewrite Hlog, <- app_assoc; reflexivity|].
      split; [simpl; f_equal; exact Hprobes|].
      destruct (fst (Cli.detect_loop w addr rest _)) as [[m c]|e'].
      * destruct Hres as (j & -> & Hj & Hc & Hm).
        exists (S j). split; [reflexivity|]. split; [exact Hj|]. split; [exact Hc|].
        simpl. f_equal. exact Hm.
      * destruct Hres as (He & Hk & Hm). split; [exact He|]. subst k.
        split; [reflexivity|]. simpl. f_equal. exact Hm.
    + exists [Cli.GetAllBalances (Cli.client_of w n) addr (Fulfilled (b :: bs))], 1.
      simpl. split; [reflexivity|]. split; [reflexivity|].
      exists 0. repeat split; reflexivity.
    + set (ev := Cli.GetAllBalances (Cli.client_of w n) addr (Rejected e)).
      set (dbg := Cli.ConsoleDebug _ e).
      destruct (IH ((log ++ [ev]) ++ [dbg])) as (tr & k & Hlog & Hprobes & Hres).
      exists (ev :: dbg :: tr), (S k).
      split; [rewrite Hlog, <- !app_assoc; reflexivity|].
      split; [simpl; f_equal; exact Hprobes|].
      destruct (fst (Cli.detect_loop w addr rest _)) as [[m c]|e'].
      * destruct Hres as (j & -> & Hj & Hc & Hm).
        exists (S j). split; [reflexivity|]. split; [exact Hj|]. split; [exact Hc|].
        simpl. f_equal. exact Hm.
      * destruct Hres as (He & Hk & Hm). split; [exact He|]. subst k.
        split; [reflexivity|]. simpl. f_equal. exact Hm.
Qed.

(** C1: for every address, detection probes mainnet, testnet, devnet in
    this order (the balance queries of a run are those of a prefix of the
    list, each made with the client bound to the network's endpoint and
    for the given address).  When the run returns, it returns the network
    of the last query made together with the client bound to it; that
    query succeeded with at least one balance entry, and every earlier
    one failed or was empty, so nothing is queried after a match and a
    failed query does not stop the scan.  When the run fails, all three
    candidates were queried without a match and the error is 'Address not
    found on any supported network'.  localnet is not among the networks
    probed. *)
Theorem detectNetworkForAddress_scan (addr : string) (log : list (Cli.Event Obj)) :
  exists (tr : list (Cli.Event Obj)) (k : nat),
    snd (Cli.detectNetworkForAddress w addr log) = log ++ tr /\
    map fst (Cli.balance_probes tr) =
      map (fun n => (Cli.client_of w n, addr)) (take k [Cli.mainnet; Cli.testnet; Cli.devnet]) /\
    forallb (fun n => negb (Cli.NetworkName_eqb n Cli.localnet))
            (take k [Cli.mainnet; Cli.testnet; Cli.devnet]) = true /\
    match fst (Cli.detectNetworkForAddress w addr log) with
    | Fulfilled (n, c) =>
        exists j, k = S j /\ [Cli.mainnet; Cli.testnet; Cli.devnet] !! j = Some n /\
                  c = Cli.client_of w n /\
                  map Cli.is_match (map snd (Cli.balance_probes tr)) = replicate j false ++ [true]
    | Rejected e =>
        e = JsError "Address not found on any supported network" /\
        k = 3 /\
        map Cli.is_match (map snd (Cli.balance_probes tr)) = [false; false; false]
    end.
Proof.
  unfold Cli.detectNetworkForAddress, Cli.networksToCheck.
  destruct (detect_loop_trace addr [Cli.mainnet; Cli.testnet; Cli.devnet] log)
    as (tr & k & Hlog & Hprobes & Hres).
  exists tr, k. split; [exact Hlog|]. split; [exact Hprobes|]. split.
  - destruct k as [|[|[|[|k]]]]; reflexivity.
  - destruct (fst (Cli.detect_loop w addr _ log)) as [[n c]|e].
    + exact Hres.
    + destruct Hres as (He & -> & Hm). repeat split; assumption.
Qed.

(** *** The name resolver *)

(** The error a failed lookup is wrapped in by [resolveSuiName]. *)
Lemma resolve_probe_unfold (nm : string) (n : Cli.NetworkName) (log : list (Cli.Event Obj)) :
  Cli.resolve_probe w nm n log =
  let answer := Cli.axios_get w log (Cli.resolve_target w nm n) in
  let ev := Cli.AxiosGet (Cli.resolve_target w nm n) answer in
  match Cli.yields answer with
  | Some a => (Fulfilled (Some a), log ++ [ev])
  | None =>
      (Fulfilled None,
       (log ++ [ev]) ++
       [Cli.ConsoleDebug
          ("SuiNS resolution failed on " +:+ Cli.NetworkName_to_string n +:+ ":")
          (JsError ("Failed to resolve name: " +:+
                    match answer with
                    | Rejected e => message_or_unknown e
                    | Fulfilled _ => "No address returned"
                    end))])
  end.
Proof.
  unfold Cli.resolve_probe, Cli.resolveSuiName, try_catch, bind, Cli.axios_get_call, call,
    Cli.resolve_target, throw, ret, emit; cbv zeta.
  destruct (Cli.axios_get w log _) as [[[[a|] nm']|]|e]; simpl; try reflexivity.
  destruct a; reflexivity.
Qed.

Lemma resolve_loop_cons (nm : string) (n : Cli.NetworkName) (rest : list Cli.NetworkName)
      (log : list (Cli.Event Obj)) :
  Cli.resolve_loop w nm (n :: rest) log =
  match Cli.resolve_probe w nm n log with
  | (Fulfilled (Some a), log') => (Fulfilled a, log')
  | (Fulfilled None, log') => Cli.resolve_loop w nm rest log'
  | (Rejected e, log') => (Rejected e, log')
  end.
Proof.
  cbn [Cli.resolve_loop]; unfold bind.
  destruct (Cli.resolve_probe w nm n log) as [[[a|]|e] log']; reflexivity.
Qed.

(** The resolution loop over any list of networks: one lookup per network
    of a prefix of the list, in order; the run returns the address of the
    first lookup that yields one, and fails with the aggregate error when
    the list is exhausted. *)
Lemma resolve_loop_trace (nm : string) (nets : list Cli.NetworkName) (log : list (Cli.Event Obj)) :
  exists (tr : list (Cli.Event Obj)) (k : nat),
    snd (Cli.resolve_loop w nm nets log) = log ++ tr /\
    Cli.balance_probes tr = [] /\
    map fst (Cli.http_requests tr) = map (Cli.resolve_target w nm) (take k nets) /\
    match fst (Cli.resolve_loop w nm nets log) with
    | Fulfilled a =>
        exists j, k = S j /\ j < length nets /\
                  map Cli.yields (map snd (Cli.http_requests tr)) = replicate j None ++ [Some a]
    | Rejected e =>
        e = JsError ("SuiNS name " +:+ dq +:+ nm +:+ dq +:+ " not found on any network") /\
        k = length nets /\
        map Cli.yields (map snd (Cli.http_requests tr)) = replicate k None
    end.
Proof.
  revert log; induction nets as [|n rest IH]; intros log.
  - exists [], 0. simpl. rewrite app_nil_r. repeat split; reflexivity.
  - rewrite resolve_loop_cons, resolve_probe_unfold; cbv zeta.
    set (target := Cli.resolve_target w nm n).
    destruct (Cli.yields (Cli.axios_get w log target)) as [a|] eqn:Hy.
    + exists [Cli.AxiosGet target (Cli.axios_get w log target)], 1.
      simpl. split; [reflexivity|]. split; [reflexivity|]. split; [reflexivity|].
      exists 0. split; [reflexivity|]. split; [lia|]. rewrite Hy. reflexivity.
    + set (ev := Cli.AxiosGet target _). set (dbg := Cli.ConsoleDebug _ _).
      destruct (IH ((log ++ [ev]) ++ [dbg])) as (tr & k & Hlog & Hnone & Hreqs & Hres).
      exists (ev :: dbg :: tr), (S k).
      split; [rewrite Hlog, <- !app_assoc; reflexivity|].
      split; [exact Hnone|].
      split; [simpl; f_equal; exact Hreqs|].
      destruct (fst (Cli.resolve_loop w nm rest _)) as [a|e'].
      * destruct Hres as (j & -> & Hj & Hm).
        exists (S j). split; [reflexivity|]. split; [simpl; lia|].
        simpl. rewrite Hy. f_equal. exact Hm.
      * destruct Hres as (He & Hk & Hm). split; [exact He|]. subst k.
        split; [reflexivity|]. simpl. rewrite Hy. f_equal. exact Hm.
Qed.

Lemma yields_truthy (answer : Settled (option Cli.SuiNameResponse)) (a : string) :
  Cli.yields answer = Some a -> truthy a = true.
Proof.
  destruct answer as [[[[b|] nm']|]|e]; simpl; try discriminate.
  destruct (truthy b) eqn:Hb; [|discriminate]. intros [= <-]. exact Hb.
Qed.

(** C2: for every name, resolution issues one lookup per network, for a
    prefix of the table mainnet, testnet, devnet, localnet, in this
    order.  When it returns, it returns the non-empty address yielded by
    the last lookup made, and no earlier lookup yielded an address
    (whether it failed or answered without one).  The only error it
    reports is the aggregate one, naming the name as 'not found on any
    network', and it reports it only after all four networks were tried
    without yielding an address. *)
Theorem resolveSuiNameOnAllNetworks_scan (nm : string) (log : list (Cli.Event Obj)) :
  exists (tr : list (Cli.Event Obj)) (k : nat),
    snd (Cli.resolveSuiNameOnAllNetworks w nm log) = log ++ tr /\
    map fst (Cli.http_requests tr) =
      map (Cli.resolve_target w nm)
          (take k [Cli.mainnet; Cli.testnet; Cli.devnet; Cli.localnet]) /\
    match fst (Cli.resolveSuiNameOnAllNetworks w nm log) with
    | Fulfilled a =>
        truthy a = true /\
        exists j, k = S j /\ j < 4 /\
                  map Cli.yields (map snd (Cli.http_requests tr)) = replicate j None ++ [Some a]
    | Rejected e =>
        e = JsError ("SuiNS name " +:+ dq +:+ nm +:+ dq +:+ " not found on any network") /\
        k = 4 /\
        map Cli.yields (map snd (Cli.http_requests tr)) = [None; None; None; None]
    end.
Proof.
  unfold Cli.resolveSuiNameOnAllNetworks, Cli.NETWORKS_keys.
  destruct (resolve_loop_trace nm [Cli.mainnet; Cli.testnet; Cli.devnet; Cli.localnet] log)
    as (tr & k & Hlog & _ & Hreqs & Hres).
  exists tr, k. split; [exact Hlog|]. split; [exact Hreqs|].
  destruct (fst (Cli.resolve_loop w nm _ log)) as [a|e].
  - destruct Hres as (j & -> & Hj & Hm). split.
    + assert (Hin : In (Some a) (map Cli.yields (map snd (Cli.http_requests tr))))
        by (rewrite Hm; apply in_or_app; right; left; reflexivity).
      apply in_map_iff in Hin as (answer & Hy & _). exact (yields_truthy _ _ Hy).
    + exists j. repeat split; assumption.
  - destruct Hres as (He & -> & Hm). repeat split; assumption.
Qed.

(** C10: the name-resolution scan goes through the four networks of the
    table, mainnet, testnet, devnet, then localnet: a resolution that
    finds the name nowhere has sent one lookup to each of the four
    naming-service endpoints, localnet's included, in this order.  The
    detection scan goes through mainnet, testnet and devnet only: a
    detection that finds the address nowhere has made exactly these three
    balance queries. *)
Theorem name_resolution_includes_localnet (nm addr : string) (log : list (Cli.Event Obj)) :
  Cli.NETWORKS_keys = [Cli.mainnet; Cli.testnet; Cli.devnet; Cli.localnet] /\
  Cli.networksToCheck = [Cli.mainnet; Cli.testnet; Cli.devnet] /\
  (is_fulfilled (fst (Cli.resolveSuiNameOnAllNetworks w nm log)) = false ->
   map fst (Cli.http_requests (Cli.events_of (Cli.resolveSuiNameOnAllNetworks w nm) log)) =
     [ "https://api.suins.io/mainnet/resolve?name=" +:+ Cli.encodeURIComponent w nm;
       "https://api.suins.io/testnet/resolve?name=" +:+ Cli.encodeURIComponent w nm;
       "https://api.suins.io/devnet/resolve?name=" +:+ Cli.encodeURIComponent w nm;
       "http://localhost:3000/api/resolve?name=" +:+ Cli.encodeURIComponent w nm ]) /\
  (is_fulfilled (fst (Cli.detectNetworkForAddress w addr log)) = false ->
   map fst (Cli.balance_probes (Cli.events_of (Cli.detectNetworkForAddress w addr) log)) =
     [ ({| Cli.client_url := Cli.getFullnodeUrl w Cli.mainnet |}, addr);
       ({| Cli.client_url := Cli.getFullnodeUrl w Cli.testnet |}, addr);
       ({| Cli.client_url := Cli.getFullnodeUrl w Cli.devnet |}, addr) ]).
Proof.
  split; [reflexivity|]. split; [reflexivity|]. split.
  - intros Hfail.
    unfold Cli.resolveSuiNameOnAllNetworks, Cli.NETWORKS_keys in *.
    destruct (resolve_loop_trace nm [Cli.mainnet; Cli.testnet; Cli.devnet; Cli.localnet] log)
      as (tr & k & Hlog & _ & Hreqs & Hres).
    rewrite (cli_events_of_app _ _ _ Hlog), Hreqs.
    destruct (fst (Cli.resolve_loop w nm _ log)) as [a|e]; [discriminate|].
    destruct Hres as (_ & -> & _). reflexivity.
  - intros Hfail.
    unfold Cli.detectNetworkForAddress, Cli.networksToCheck in *.
    destruct (detect_loop_trace addr [Cli.mainnet; Cli.testnet; Cli.devnet] log)
      as (tr & k & Hlog & Hprobes & Hres).
    rewrite (cli_events_of_app _ _ _ Hlog), Hprobes.
    destruct (fst (Cli.detect_loop w addr _ log)) as [[n c]|e]; [discriminate|].
    destruct Hres as (_ & -> & _). reflexivity.
Qed.

(** *** The account inspector *)

Lemma print_balances_outputs (balances : list Cli.Balance) :
  only_outputs (Cli.print_balances balances : Async (Cli.Event Obj) unit)
    (map (fun b => Cli.ConsoleLog (Cli.coinType b +:+ ": " +:+ Cli.totalBalance b)) balances).
Proof.
  induction balances as [|b rest IH]; cbn [Cli.print_balances map].
  - apply only_outputs_ret.
  - apply (only_outputs_seq _ _ [_] _ (only_outputs_emit _) IH).
Qed.

(** The report writes to the console and does nothing else. *)
Lemma print_account_report_outputs (addr : string) (network : Cli.NetworkName)
      (accountInfo : Obj) (balances : list Cli.Balance) (reverseLookup : option string) :
  exists out,
    only_outputs (Cli.print_account_report w addr network accountInfo balances reverseLookup) out /\
    forallb Cli.is_output out = true.
Proof.
  unfold Cli.print_account_report.
  assert (Hrev : exists o, only_outputs
                   (if truthy_opt reverseLookup
                    then emit (Cli.ConsoleLog ("SuiNS Name: " +:+ or_else reverseLookup EmptyString))
                    else ret tt : Async (Cli.Event Obj) unit) o /\ forallb Cli.is_output o = true).
  { destruct (truthy_opt reverseLookup);
      [eexists; split; [apply only_outputs_emit|reflexivity]
      |eexists; split; [apply only_outputs_ret|reflexivity]]. }
  assert (Hbal : exists o, only_outputs
                   (match balances with
                    | [] => emit (Cli.ConsoleLog "No coins found")
                    | _ :: _ => Cli.print_balances balances
                    end : Async (Cli.Event Obj) unit) o /\ forallb Cli.is_output o = true).
  { destruct balances as [|b bs].
    - eexists; split; [apply only_outputs_emit|reflexivity].
    - eexists; split; [apply print_balances_outputs|].
      apply forallb_forall. intros ev Hin. apply in_map_iff in Hin as (b' & <- & _). reflexivity. }
  destruct Hrev as (o1 & H1 & F1), Hbal as (o2 & H2 & F2).
  eexists. split.
  - repeat first [ apply only_outputs_seq | apply only_outputs_emit | exact H1 | exact H2 ].
  - rewrite !forallb_app, F1, F2. reflexivity.
Qed.

Lemma outputs_no_calls (out : list (Cli.Event Obj)) :
  forallb Cli.is_output out = true ->
  Cli.balance_probes out = [] /\ Cli.http_requests out = [].
Proof.
  induction out as [|ev out IH]; [split; reflexivity|].
  cbn [forallb]. rewrite andb_true_iff. intros [Hev Hout].
  destruct (IH Hout) as [Hb Hh]. destruct ev; try discriminate; split; assumption.
Qed.

(** The reverse lookup, by the answer of the endpoint: it never rejects. *)
Lemma checkForSuiNsName_unfold (addr : string) (n : Cli.NetworkName) (log : list (Cli.Event Obj)) :
  Cli.checkForSuiNsName w addr n log =
  let answer := Cli.axios_get w log (Cli.reverse_target w addr n) in
  let ev := Cli.AxiosGet (Cli.reverse_target w addr n) answer in
  match answer with
  | Fulfilled data =>
      (Fulfilled match data with
                 | Some {| Cli.name := Some nm |} => if truthy nm then Some nm else None
                 | _ => None
                 end, log ++ [ev])
  | Rejected e => (Fulfilled None, (log ++ [ev]) ++ [Cli.ConsoleDebug "Reverse lookup failed:" e])
  end.
Proof.
  unfold Cli.checkForSuiNsName, try_catch, bind, Cli.axios_get_call, call, Cli.reverse_target,
    ret, emit; cbv zeta.
  destruct (Cli.axios_get w log _) as [[[a [nm|]]|]|e]; try reflexivity.
  destruct (truthy nm); reflexivity.
Qed.

(** The three fetches and the report: the object and the balances are
    requested, in this order, for the given address; the naming service
    is asked only when the identifier was not a name; and the outcome is
    decided by the first two answers alone. *)
Lemma fetch_and_print_outcome (identifier addr : string) (n : Cli.NetworkName) (c : Cli.SuiClient)
      (log : list (Cli.Event Obj)) :
  let log0 := log ++ [Cli.Spinner (Cli.SpinnerText
                        ("Found account on " +:+ Cli.NetworkName_to_string n +:+ " network"))] in
  let r1 := Cli.rpc_getObject w log0 c addr in
  let log1 := log0 ++ [Cli.GetObject c addr r1] in
  let r2 := Cli.rpc_getAllBalances w log1 c addr in
  let log2 := log1 ++ [Cli.GetAllBalances c addr r2] in
  exists rest,
    snd (Cli.fetch_and_print w identifier addr n c log) = log2 ++ rest /\
    Cli.balance_probes rest = [] /\
    map fst (Cli.http_requests rest) =
      (if Cli.isSuiNsName identifier then [] else [Cli.reverse_target w addr n]) /\
    is_fulfilled (fst (Cli.fetch_and_print w identifier addr n c log)) =
      is_fulfilled r1 && is_fulfilled r2.
Proof.
  cbv zeta. unfold Cli.fetch_and_print, bind, emit, Cli.Promise_all3, Cli.getObject,
    Cli.getAllBalances, call.
  set (log0 := log ++ [_]).
  set (r1 := Cli.rpc_getObject w log0 c addr).
  set (log1 := log0 ++ [_]).
  set (r2 := Cli.rpc_getAllBalances w log1 c addr).
  set (log2 := log1 ++ [_]).
  destruct (Cli.isSuiNsName identifier).
  - unfold ret.
    destruct r1 as [info|e1], r2 as [bals|e2]; cbn [is_fulfilled andb fst snd];
      try (exists []; rewrite app_nil_r; repeat split; reflexivity).
    destruct (print_account_report_outputs addr n info bals (Some identifier)) as (out & Hout & Fout).
    rewrite Hout. exists out. destruct (outputs_no_calls _ Fout) as [Hb Hh].
    cbn [fst snd]. rewrite Hb, Hh. repeat split; reflexivity.
  - rewrite checkForSuiNsName_unfold; cbv zeta.
    set (target := Cli.reverse_target w addr n).
    destruct (Cli.axios_get w log2 target) as [data|e3].
    + set (ev := Cli.AxiosGet target _).
      destruct r1 as [info|e1], r2 as [bals|e2]; cbn [is_fulfilled andb fst snd];
        try (exists [ev]; repeat split; reflexivity).
      match goal with |- context [Cli.print_account_report w addr n info bals ?rl] =>
        destruct (print_account_report_outputs addr n info bals rl) as (out & Hout & Fout) end.
      rewrite Hout. exists (ev :: out). destruct (outputs_no_calls _ Fout) as [Hb Hh].
      cbn [fst snd]. rewrite <- app_assoc. split; [reflexivity|].
      split; [change (Cli.balance_probes out = []); exact Hb|].
      split; [|reflexivity].
      change (target :: map fst (Cli.http_requests out) = [target]). rewrite Hh. reflexivity.
    + set (ev := Cli.AxiosGet target _). set (dbg := Cli.ConsoleDebug _ e3).
      destruct r1 as [info|e1], r2 as [bals|e2]; cbn [is_fulfilled andb fst snd];
        try (exists [ev; dbg]; rewrite <- app_assoc; repeat split; reflexivity).
      destruct (print_account_report_outputs addr n info bals None) as (out & Hout & Fout).
      rewrite Hout. exists (ev :: dbg :: out). destruct (outputs_no_calls _ Fout) as [Hb Hh].
      cbn [fst snd]. rewrite <- !app_assoc. split; [reflexivity|].
      split; [change (Cli.balance_probes out = []); exact Hb|].
      split; [|reflexivity].
      change (target :: map fst (Cli.http_requests out) = [target]). rewrite Hh. reflexivity.
Qed.

Lemma balance_probes_app (l1 l2 : list (Cli.Event Obj)) :
  Cli.balance_probes (l1 ++ l2) = Cli.balance_probes l1 ++ Cli.balance_probes l2.
Proof. apply omap_app. Qed.

Lemma probes_owner (addr : string) (nets : list Cli.NetworkName)
      (probes : list (Cli.SuiClient * string * Settled (list Cli.Balance))) :
  map fst probes = map (fun n => (Cli.client_of w n, addr)) nets ->
  Forall (fun p => snd (fst p) = addr) probes.
Proof.
  revert nets; induction probes as [|p probes IH]; intros nets H; [constructor|].
  destruct nets as [|n nets]; [discriminate|]. injection H as Hp Hrest.
  constructor; [rewrite Hp; reflexivity | exact (IH _ Hrest)].
Qed.

(** Detection followed by the fetches: every balance query is about the
    address detection was given. *)
Lemma detect_then_fetch_probes (identifier addr : string) (log : list (Cli.Event Obj)) :
  exists tr,
    snd ((let* detected := Cli.detectNetworkForAddress w addr in
          let '(network, client) := detected in
          Cli.fetch_and_print w identifier addr network client)%async log) = log ++ tr /\
    Forall (fun p => snd (fst p) = addr) (Cli.balance_probes tr).
Proof.
  unfold bind, Cli.detectNetworkForAddress.
  destruct (detect_loop_trace addr Cli.networksToCheck log) as (tr1 & k & Hlog & Hprobes & _).
  apply probes_owner in Hprobes.
  destruct (Cli.detect_loop w addr Cli.networksToCheck log) as [[[n c]|e] log'];
    cbn [fst snd] in *; subst log'.
  - destruct (fetch_and_print_outcome identifier addr n c (log ++ tr1))
      as (rest & Hsnd & Hnone & _).
    cbv zeta in Hsnd. rewrite Hsnd.
    eexists. split; [rewrite <- !app_assoc; reflexivity|].
    rewrite !balance_probes_app, Hnone, app_nil_r.
    apply Forall_app. split; [exact Hprobes|].
    repeat constructor.
  - exists tr1. split; [reflexivity | exact Hprobes].
Qed.

(** C3 (amended): an identifier is treated as a name exactly when '.sui'
    occurs somewhere in it, which is the case whenever it ends in '.sui'.
    A name is first resolved by the name resolver: if the resolution
    fails the command fails without a single balance query; otherwise
    detection and the fetches run on the resolved address.  Any other
    identifier goes to detection unchanged, and every balance query is
    about the identifier itself. *)
Theorem account_identifier_dispatch (identifier : string) (log : list (Cli.Event Obj)) :
  (Cli.isSuiNsName identifier = true <->
   exists pre post, identifier = pre +:+ ".sui" +:+ post) /\
  (endsWith identifier ".sui" = true -> Cli.isSuiNsName identifier = true) /\
  (Cli.isSuiNsName identifier = true ->
   let resolving := Cli.Spinner (Cli.SpinnerText ("Resolving SuiNS name: " +:+ identifier)) in
   match Cli.resolveSuiNameOnAllNetworks w identifier (log ++ [resolving]) with
   | (Fulfilled a, log1) =>
       Cli.getAccountInfo_body w identifier log =
       (let* detected := Cli.detectNetworkForAddress w a in
        let '(network, client) := detected in
        Cli.fetch_and_print w identifier a network client)%async
         (log1 ++ [Cli.Spinner (Cli.SpinnerText ("Resolved " +:+ identifier +:+ " to " +:+ a))]) /\
       Forall (fun p => snd (fst p) = a)
              (Cli.balance_probes (Cli.events_of (Cli.getAccountInfo_body w identifier) log))
   | (Rejected e, log1) =>
       Cli.getAccountInfo_body w identifier log = (Rejected e, log1) /\
       Cli.balance_probes (Cli.events_of (Cli.getAccountInfo_body w identifier) log) = []
   end) /\
  (Cli.isSuiNsName identifier = false ->
   Cli.getAccountInfo_body w identifier log =
   (let* detected := Cli.detectNetworkForAddress w identifier in
    let '(network, client) := detected in
    Cli.fetch_and_print w identifier identifier network client)%async log /\
   Forall (fun p => snd (fst p) = identifier)
          (Cli.balance_probes (Cli.events_of (Cli.getAccountInfo_body w identifier) log))).
Proof.
  split; [apply includes_spec|]. split; [apply endsWith_includes|]. split.
  - intros Hname. cbv zeta.
    set (resolving := Cli.Spinner _).
    assert (Hbody : Cli.getAccountInfo_body w identifier log =
                    match Cli.resolveSuiNameOnAllNetworks w identifier (log ++ [resolving]) with
                    | (Fulfilled a, log1) =>
                        (let* detected := Cli.detectNetworkForAddress w a in
                         let '(network, client) := detected in
                         Cli.fetch_and_print w identifier a network client)%async
                          (log1 ++ [Cli.Spinner (Cli.SpinnerText
                                      ("Resolved " +:+ identifier +:+ " to " +:+ a))])
                    | (Rejected e, log1) => (Rejected e, log1)
                    end).
    { unfold Cli.getAccountInfo_body, Cli.resolve_identifier. rewrite Hname.
      unfold bind at 1 2 3. unfold emit at 1. fold resolving.
      destruct (Cli.resolveSuiNameOnAllNetworks w identifier (log ++ [resolving]))
        as [[a|e] log1]; reflexivity. }
    unfold Cli.resolveSuiNameOnAllNetworks in *.
    destruct (resolve_loop_trace identifier Cli.NETWORKS_keys (log ++ [resolving]))
      as (tr & k & Hlog & Hnone & _).
    destruct (Cli.resolve_loop w identifier Cli.NETWORKS_keys (log ++ [resolving]))
      as [[a|e] log1]; cbn [snd] in Hlog; subst log1.
    + split; [exact Hbody|].
      destruct (detect_then_fetch_probes identifier a
                  (((log ++ [resolving]) ++ tr) ++
                   [Cli.Spinner (Cli.SpinnerText ("Resolved " +:+ identifier +:+ " to " +:+ a))]))
        as (tr2 & Hsnd & Hall).
      rewrite <- Hbody in Hsnd.
      rewrite <- !app_assoc in Hsnd.
      rewrite (cli_events_of_app _ _ _ Hsnd).
      rewrite !balance_probes_app, Hnone. exact Hall.
    + split; [exact Hbody|].
      assert (Hsnd : snd (Cli.getAccountInfo_body w identifier log) = log ++ ([resolving] ++ tr))
        by (rewrite Hbody, <- app_assoc; reflexivity).
      rewrite (cli_events_of_app _ _ _ Hsnd), balance_probes_app, Hnone. reflexivity.
  - intros Hraw.
    assert (Hbody : Cli.getAccountInfo_body w identifier log =
                    (let* detected := Cli.detectNetworkForAddress w identifier in
                     let '(network, client) := detected in
                     Cli.fetch_and_print w identifier identifier network client)%async log).
    { unfold Cli.getAccountInfo_body, Cli.resolve_identifier. rewrite Hraw. reflexivity. }
    split; [exact Hbody|].
    destruct (detect_then_fetch_probes identifier identifier log) as (tr & Hsnd & Hall).
    rewrite <- Hbody in Hsnd. rewrite (cli_events_of_app _ _ _ Hsnd). exact Hall.
Qed.

End CliProperties.

(* ===================================================================== *)
(** ** The NFT inspector                                                 *)
(* ===================================================================== *)

Section NftProperties.
Context {MV : Type} (v : Nft.World MV).

Lemma nft_events_of_app {A} (m : Async (Nft.Event MV) A) (log tr : list (Nft.Event MV)) :
  snd (m log) = log ++ tr -> Nft.events_of m log = tr.
Proof. unfold Nft.events_of. intros ->. apply drop_app_length. Qed.

Lemma printed_app (l1 l2 : list (Nft.Event MV)) :
  Nft.printed (l1 ++ l2) = Nft.printed l1 ++ Nft.printed l2.
Proof. apply omap_app. Qed.

Lemma print_attributes_outputs (attrs : list (string * string)) :
  only_outputs (Nft.print_attributes attrs : Async (Nft.Event MV) unit)
    (map (fun kv => Nft.ConsoleLog ("  " +:+ fst kv +:+ ": " +:+ snd kv)) attrs).
Proof.
  induction attrs as [|[key value] rest IH]; cbn [Nft.print_attributes map].
  - apply only_outputs_ret.
  - apply (only_outputs_seq _ _ [_] _ (only_outputs_emit _) IH).
Qed.

(** The report only writes to the console; it starts with the five
    labelled lines, whatever the record holds. *)
Lemma print_details_outputs (m : Nft.NftMetadata) :
  exists rest,
    only_outputs (Nft.print_details m : Async (Nft.Event MV) unit)
      ([ Nft.ConsoleLog (nl +:+ "NFT Details:");
         Nft.ConsoleLog "----------------------------------";
         Nft.ConsoleLog ("Name: " +:+ or_else (Nft.name m) "Not available");
         Nft.ConsoleLog ("Type: " +:+ or_else (Nft.type m) "Not available");
         Nft.ConsoleLog ("Creator: " +:+ or_else (Nft.creator m) "Not available");
         Nft.ConsoleLog ("Tag: " +:+ or_else (Nft.tag m) "Not available");
         Nft.ConsoleLog ("All Time Floor Price: " +:+
                         or_else (Nft.allTimeFloorPrice m) "Not available") ] ++ rest).
Proof.
  unfold Nft.print_details.
  assert (Hopt : forall (b : bool) (ev : Nft.Event MV),
             exists o, only_outputs (if b then emit ev else ret tt) o).
  { intros [|] ev; eexists; [apply only_outputs_emit | apply only_outputs_ret]. }
  destruct (Hopt (truthy_opt (Nft.description m))
                 (Nft.ConsoleLog (nl +:+ "Description: " +:+ or_else (Nft.description m) EmptyString)))
    as (o1 & H1).
  destruct (Hopt (truthy_opt (Nft.imageUrl m))
                 (Nft.ConsoleLog (nl +:+ "Image URL: " +:+ or_else (Nft.imageUrl m) EmptyString)))
    as (o2 & H2).
  assert (H3 : exists o, only_outputs
                 (match Nft.attributes m with
                  | Some (a :: attrs) =>
                      bind (emit (Nft.ConsoleLog (nl +:+ "Attributes:")))
                           (fun _ => Nft.print_attributes (a :: attrs))
                  | _ => ret tt
                  end : Async (Nft.Event MV) unit) o).
  { destruct (Nft.attributes m) as [[|a attrs]|].
    - eexists; apply only_outputs_ret.
    - eexists. eapply only_outputs_seq; [apply only_outputs_emit | apply print_attributes_outputs].
    - eexists; apply only_outputs_ret. }
  destruct H3 as (o3 & H3).
  exists (o1 ++ o2 ++ o3 ++ [Nft.ConsoleLog ("----------------------------------" +:+ nl)]).
  repeat (apply (only_outputs_seq _ _ [_] _ (only_outputs_emit _))).
  apply (only_outputs_seq _ _ _ _ H1).
  apply (only_outputs_seq _ _ _ _ H2).
  apply (only_outputs_seq _ _ _ _ H3).
  apply only_outputs_emit.
Qed.

(** The marketplace step, by the answer of the endpoint: it never
    rejects. *)
Lemma enrich_floor_price_unfold (nftObjectId : string) (m : Nft.NftMetadata)
      (log : list (Nft.Event MV)) :
  Nft.enrich_floor_price v nftObjectId m log =
  let answer := Nft.axios_get v log (Nft.stats_target nftObjectId) in
  let ev := Nft.AxiosGet (Nft.stats_target nftObjectId) answer in
  match answer with
  | Fulfilled response =>
      (Fulfilled (Nft.with_floor_price m (Nft.stats_allTimeFloorPrice response)), log ++ [ev])
  | Rejected e =>
      (Fulfilled m,
       (log ++ [ev]) ++
       [Nft.ConsoleLog match e with
                       | JsError msg => "Could not fetch floor price data: " +:+ msg
                       | NonError => "Could not fetch floor price data"
                       end])
  end.
Proof.
  unfold Nft.enrich_floor_price, try_catch, bind, call, ret, emit, Nft.stats_target; cbv zeta.
  destruct (Nft.axios_get v log _) as [response|[msg|]]; reflexivity.
Qed.

Lemma getNftDetails_unfold (nftObjectId : string) (log : list (Nft.Event MV)) :
  Nft.getNftDetails v nftObjectId log =
  let log0 := log ++ [Nft.ConsoleLog (nl +:+ "Fetching details for NFT: " +:+ nftObjectId +:+ "...")] in
  let rpc := Nft.getFullnodeUrl v "mainnet" in
  let answer := Nft.rpc_getObject v log0 rpc nftObjectId in
  let log1 := log0 ++ [Nft.GetObject rpc nftObjectId answer] in
  match answer with
  | Rejected e => (Rejected e, log1)
  | Fulfilled nftObject =>
      match Nft.data nftObject with
      | None => (Rejected (JsError "NFT not found or data unavailable"), log1)
      | Some d =>
          match Nft.enrich_floor_price v nftObjectId (Nft.onchain_metadata v d) log1 with
          | (Fulfilled m, log2) => Nft.print_details m log2
          | (Rejected e, log2) => (Rejected e, log2)
          end
      end
  end.
Proof.
  unfold Nft.getNftDetails, bind, emit, call; cbv zeta.
  destruct (Nft.rpc_getObject v _ _ nftObjectId) as [[[d|]]|e]; reflexivity.
Qed.

Lemma print_details_events (m : Nft.NftMetadata) (out : list (Nft.Event MV)) :
  only_outputs (Nft.print_details m) out -> Nft.events_of (Nft.print_details m) [] = out.
Proof. intros H. apply nft_events_of_app. rewrite H. reflexivity. Qed.

(** An object that carries data is always reported, whatever the
    marketplace answers: the lines printed are the announcement, a notice
    when the marketplace request failed, and the report of the record,
    in which only the floor price depends on the marketplace. *)
Lemma getNftDetails_with_data (nftObjectId : string) (log : list (Nft.Event MV))
      (nftObject : Nft.SuiObjectResponse) (d : Nft.SuiObjectData) :
  let fetching := Nft.ConsoleLog (nl +:+ "Fetching details for NFT: " +:+ nftObjectId +:+ "...") in
  let rpc := Nft.getFullnodeUrl v "mainnet" in
  let stats := Nft.axios_get v ((log ++ [fetching]) ++ [Nft.GetObject rpc nftObjectId (Fulfilled nftObject)])
                             (Nft.stats_target nftObjectId) in
  Nft.rpc_getObject v (log ++ [fetching]) rpc nftObjectId = Fulfilled nftObject ->
  Nft.data nftObject = Some d ->
  fst (Nft.getNftDetails v nftObjectId log) = Fulfilled tt /\
  exists (notice : list string) (p : option string),
    Nft.printed (Nft.events_of (Nft.getNftDetails v nftObjectId) log) =
      (nl +:+ "Fetching details for NFT: " +:+ nftObjectId +:+ "...") :: notice ++
      Nft.printed (Nft.events_of
                     (Nft.print_details (Nft.with_floor_price (Nft.onchain_metadata v d) p)
                      : Async (Nft.Event MV) unit) []) /\
    match stats with
    | Fulfilled response => notice = [] /\ p = Nft.stats_allTimeFloorPrice response
    | Rejected e => length notice = 1 /\ p = None
    end.
Proof.
  cbv zeta. intros Hobj Hdata.
  pose proof (getNftDetails_unfold nftObjectId log) as Hrun; cbv zeta in Hrun.
  rewrite Hobj, Hdata, enrich_floor_price_unfold in Hrun; cbv zeta in Hrun.
  revert Hrun.
  set (fetching := Nft.ConsoleLog _).
  set (got := Nft.GetObject _ nftObjectId _).
  set (m := Nft.onchain_metadata v d).
  intros Hrun.
  destruct (Nft.axios_get v ((log ++ [fetching]) ++ [got]) (Nft.stats_target nftObjectId))
    as [response|e].
  - destruct (print_details_outputs (Nft.with_floor_price m (Nft.stats_allTimeFloorPrice response)))
      as (rest & Hout).
    rewrite Hout in Hrun. split; [rewrite Hrun; reflexivity|].
    exists [], (Nft.stats_allTimeFloorPrice response).
    split; [|split; reflexivity].
    assert (Hsnd : snd (Nft.getNftDetails v nftObjectId log) =
                   log ++ ([fetching; got;
                            Nft.AxiosGet (Nft.stats_target nftObjectId) (Fulfilled response)] ++ _))
      by (rewrite Hrun; cbn [snd]; rewrite <- !app_assoc; reflexivity).
    rewrite (nft_events_of_app _ _ _ Hsnd), (print_details_events _ _ Hout), printed_app.
    reflexivity.
  - destruct (print_details_outputs m) as (rest & Hout).
    rewrite Hout in Hrun. split; [rewrite Hrun; reflexivity|].
    eexists [_], None.
    split; [|split; reflexivity].
    assert (Hsnd : snd (Nft.getNftDetails v nftObjectId log) =
                   log ++ ([fetching; got;
                            Nft.AxiosGet (Nft.stats_target nftObjectId) (Rejected e);
                            Nft.ConsoleLog match e with
                                           | JsError msg => "Could not fetch floor price data: " +:+ msg
                                           | NonError => "Could not fetch floor price data"
                                           end] ++ _))
      by (rewrite Hrun; cbn [snd]; rewrite <- !app_assoc; reflexivity).
    rewrite (nft_events_of_app _ _ _ Hsnd).
    change (Nft.with_floor_price m None) with m.
    rewrite (print_details_events _ _ Hout), printed_app.
    reflexivity.
Qed.

(** C8: once the object has been fetched, the inspection fails exactly
    when the response carries no data, and it fails at once, with 'NFT
    not found or data unavailable' and without asking the marketplace.
    An object that carries data but no display data is reported, and the
    report has the lines 'Name: Not available', 'Creator: Not available'
    and 'Tag: Not available'. *)
Theorem nft_inspection_fails_only_without_data
        (nftObjectId : string) (log : list (Nft.Event MV)) (nftObject : Nft.SuiObjectResponse) :
  let fetching := Nft.ConsoleLog (nl +:+ "Fetching details for NFT: " +:+ nftObjectId +:+ "...") in
  let rpc := Nft.getFullnodeUrl v "mainnet" in
  Nft.rpc_getObject v (log ++ [fetching]) rpc nftObjectId = Fulfilled nftObject ->
  (is_fulfilled (fst (Nft.getNftDetails v nftObjectId log)) = false <-> Nft.data nftObject = None) /\
  (Nft.data nftObject = None ->
   Nft.getNftDetails v nftObjectId log =
     (Rejected (JsError "NFT not found or data unavailable"),
      log ++ [fetching; Nft.GetObject rpc nftObjectId (Fulfilled nftObject)])) /\
  (forall d, Nft.data nftObject = Some d -> Nft.display_of d = None ->
     fst (Nft.getNftDetails v nftObjectId log) = Fulfilled tt /\
     In "Name: Not available" (Nft.printed (Nft.events_of (Nft.getNftDetails v nftObjectId) log)) /\
     In "Creator: Not available" (Nft.printed (Nft.events_of (Nft.getNftDetails v nftObjectId) log)) /\
     In "Tag: Not available" (Nft.printed (Nft.events_of (Nft.getNftDetails v nftObjectId) log))).
Proof.
  cbv zeta. intros Hobj.
  assert (Hnone : Nft.data nftObject = None ->
                  Nft.getNftDetails v nftObjectId log =
                  (Rejected (JsError "NFT not found or data unavailable"),
                   log ++ [Nft.ConsoleLog (nl +:+ "Fetching details for NFT: " +:+ nftObjectId +:+ "...");
                           Nft.GetObject (Nft.getFullnodeUrl v "mainnet") nftObjectId
                             (Fulfilled nftObject)])).
  { intros Hdata. rewrite getNftDetails_unfold; cbv zeta. rewrite Hobj, Hdata, <- app_assoc.
    reflexivity. }
  split; [|split; [exact Hnone|]].
  - split.
    + intros Hfail. destruct (Nft.data nftObject) as [d|] eqn:Hdata; [|reflexivity].
      destruct (getNftDetails_with_data nftObjectId log nftObject d Hobj Hdata) as [Hok _].
      rewrite Hok in Hfail. discriminate.
    + intros Hdata. rewrite (Hnone Hdata). reflexivity.
  - intros d Hdata Hdisplay.
    destruct (getNftDetails_with_data nftObjectId log nftObject d Hobj Hdata)
      as (Hok & notice & p & Hprinted & _).
    split; [exact Hok|].
    rewrite Hprinted.
    destruct (print_details_outputs (Nft.with_floor_price (Nft.onchain_metadata v d) p))
      as (rest & Hout).
    rewrite (print_details_events _ _ Hout), printed_app.
    unfold Nft.onchain_metadata. rewrite Hdisplay. cbn.
    repeat split; right; apply in_or_app; right; cbn; tauto.
Qed.

End NftProperties.

(* ===================================================================== *)
(** ** Best-effort enrichment                                            *)
(* ===================================================================== *)

Section BestEffortEnrichment.
Context {Obj : Type} (w : Cli.World Obj) {MV : Type} (v : Nft.World MV).

Lemma with_floor_price_same (m : Nft.NftMetadata) :
  Nft.with_floor_price m (Nft.allTimeFloorPrice m) = m.
Proof. destruct m; reflexivity. Qed.

(** C4: a failed enrichment call never ends an inspection.  The reverse
    name lookup never rejects, and gives null when the request fails.
    In the account inspection it is not even made when the identifier was
    a name, and whether the inspection succeeds is decided by the object
    and balance fetches alone.  In the NFT inspection the marketplace
    step never rejects and touches no field but the floor price; when the
    request fails, the inspection still succeeds and prints, after a
    one-line notice, the report of the record built from the on-chain
    object, with the floor price 'Not available'. *)
Theorem enrichment_failure_is_never_fatal :
  (forall (addr : string) (n : Cli.NetworkName) (log : list (Cli.Event Obj)),
      exists r, fst (Cli.checkForSuiNsName w addr n log) = Fulfilled r /\
                (is_fulfilled (Cli.axios_get w log (Cli.reverse_target w addr n)) = false ->
                 r = None)) /\
  (forall (identifier addr : string) (n : Cli.NetworkName) (c : Cli.SuiClient)
          (log : list (Cli.Event Obj)),
      let log0 := log ++ [Cli.Spinner (Cli.SpinnerText
                            ("Found account on " +:+ Cli.NetworkName_to_string n +:+ " network"))] in
      let r1 := Cli.rpc_getObject w log0 c addr in
      let r2 := Cli.rpc_getAllBalances w (log0 ++ [Cli.GetObject c addr r1]) c addr in
      is_fulfilled (fst (Cli.fetch_and_print w identifier addr n c log)) =
        is_fulfilled r1 && is_fulfilled r2 /\
      map fst (Cli.http_requests (Cli.events_of (Cli.fetch_and_print w identifier addr n c) log)) =
        (if Cli.isSuiNsName identifier then [] else [Cli.reverse_target w addr n])) /\
  (forall (nftObjectId : string) (m : Nft.NftMetadata) (log : list (Nft.Event MV)),
      exists p, fst (Nft.enrich_floor_price v nftObjectId m log) =
                  Fulfilled (Nft.with_floor_price m p) /\
                (is_fulfilled (Nft.axios_get v log (Nft.stats_target nftObjectId)) = false ->
                 p = Nft.allTimeFloorPrice m)) /\
  (forall (nftObjectId : string) (log : list (Nft.Event MV))
          (nftObject : Nft.SuiObjectResponse) (d : Nft.SuiObjectData),
      let fetching := Nft.ConsoleLog (nl +:+ "Fetching details for NFT: " +:+ nftObjectId +:+ "...") in
      let rpc := Nft.getFullnodeUrl v "mainnet" in
      Nft.rpc_getObject v (log ++ [fetching]) rpc nftObjectId = Fulfilled nftObject ->
      Nft.data nftObject = Some d ->
      is_fulfilled (Nft.axios_get v ((log ++ [fetching]) ++
                                     [Nft.GetObject rpc nftObjectId (Fulfilled nftObject)])
                                  (Nft.stats_target nftObjectId)) = false ->
      fst (Nft.getNftDetails v nftObjectId log) = Fulfilled tt /\
      (exists notice,
          Nft.printed (Nft.events_of (Nft.getNftDetails v nftObjectId) log) =
          [nl +:+ "Fetching details for NFT: " +:+ nftObjectId +:+ "..."; notice] ++
          Nft.printed (Nft.events_of (Nft.print_details (Nft.onchain_metadata v d)
                                      : Async (Nft.Event MV) unit) [])) /\
      In "All Time Floor Price: Not available"
         (Nft.printed (Nft.events_of (Nft.getNftDetails v nftObjectId) log))).
Proof.
  split; [|split; [|split]].
  - intros addr n log. rewrite checkForSuiNsName_unfold; cbv zeta.
    destruct (Cli.axios_get w log (Cli.reverse_target w addr n)) as [data|e].
    + eexists; split; [reflexivity | discriminate].
    + exists None; split; reflexivity.
  - intros identifier addr n c log; cbv zeta.
    destruct (fetch_and_print_outcome w identifier addr n c log)
      as (rest & Hsnd & _ & Hreqs & Hout).
    cbv zeta in Hsnd, Hout. split; [exact Hout|].
    rewrite <- !app_assoc in Hsnd.
    rewrite (cli_events_of_app _ _ _ Hsnd). exact Hreqs.
  - intros nftObjectId m log. rewrite enrich_floor_price_unfold; cbv zeta.
    destruct (Nft.axios_get v log (Nft.stats_target nftObjectId)) as [response|e].
    + eexists; split; [reflexivity | discriminate].
    + exists (Nft.allTimeFloorPrice m). rewrite with_floor_price_same. split; reflexivity.
  - intros nftObjectId log nftObject d; cbv zeta. intros Hobj Hdata Hfail.
    destruct (getNftDetails_with_data v nftObjectId log nftObject d Hobj Hdata)
      as (Hok & notice & p & Hprinted & Hstats).
    destruct (Nft.axios_get v _ (Nft.stats_target nftObjectId)) as [response|e];
      [discriminate|].
    destruct Hstats as [Hlen ->].
    change (Nft.with_floor_price (Nft.onchain_metadata v d) None)
      with (Nft.onchain_metadata v d) in Hprinted.
    destruct notice as [|line [|]]; try discriminate.
    split; [exact Hok|]. split; [exists line; exact Hprinted|].
    rewrite Hprinted.
    destruct (print_details_outputs (MV := MV) (Nft.onchain_metadata v d)) as (rest & Hout).
    rewrite (print_details_events _ _ Hout), printed_app.
    right; right. cbn [app]. apply in_or_app; left. unfold Nft.onchain_metadata. cbn. tauto.
Qed.

End BestEffortEnrichment.

(* ===================================================================== *)
(** ** The launch orchestrator                                           *)
(* ===================================================================== *)

Section SchemaFacts.

Lemma number_between_spec (field : string) (lo hi : Q) (n : Launch.JsNumber) :
  Launch.number_between field lo hi n = [] <->
  exists q, n = Launch.Finite q /\ (lo <= q)%Q /\ (q <= hi)%Q.
Proof.
  destruct n as [q| | |]; unfold Launch.number_between, Launch.num_lt, Launch.num_gt.
  - destruct (Qle_bool lo q) eqn:Hlo, (Qle_bool q hi) eqn:Hhi; cbn [negb app].
    + apply Qle_bool_iff in Hlo, Hhi. split; [intros _; exists q; auto | reflexivity].
    + split; [discriminate|]. intros (q' & Hq & _ & H). injection Hq as <-.
      apply Qle_bool_iff in H. congruence.
    + split; [discriminate|]. intros (q' & Hq & H & _). injection Hq as <-.
      apply Qle_bool_iff in H. congruence.
    + split; [discriminate|]. intros (q' & Hq & H & _). injection Hq as <-.
      apply Qle_bool_iff in H. congruence.
  - split; [discriminate | intros (q & H & _); discriminate].
  - split; [discriminate | intros (q & H & _); discriminate].
  - split; [discriminate | intros (q & H & _); discriminate].
Qed.

Lemma all_upper_spec (s : string) :
  Launch.all_upper s = true <->
  Forall (fun c => 65 <= nat_of_ascii c <= 90) (list_ascii_of_string s).
Proof.
  induction s as [|c s IH]; cbn [Launch.all_upper list_ascii_of_string].
  - split; [constructor | reflexivity].
  - rewrite andb_true_iff, IH. unfold is_upper; cbv zeta.
    rewrite andb_true_iff, !Nat.leb_le. split.
    + intros [Hc Hs]. constructor; assumption.
    + intros H. inversion H; subst. split; assumption.
Qed.

(** The pattern: three to five characters, each an upper-case letter. *)
Lemma symbol_regex_spec (s : string) :
  Launch.symbol_regex s = true <->
  3 <= String.length s <= 5 /\
  Forall (fun c => 65 <= nat_of_ascii c <= 90) (list_ascii_of_string s).
Proof.
  unfold Launch.symbol_regex. rewrite !andb_true_iff, !Nat.leb_le, all_upper_spec. tauto.
Qed.

Lemma shape_name_spec (s : string) : Launch.shape_name s = [] <-> s <> EmptyString.
Proof. destruct s; cbn; split; congruence. Qed.

Lemma shape_symbol_spec (s : string) :
  Launch.shape_symbol s = [] <-> Launch.symbol_regex s = true.
Proof. unfold Launch.shape_symbol. destruct (Launch.symbol_regex s); split; congruence. Qed.

Lemma imagePath_issue_spec (b : bool) : Launch.imagePath_issue b = [] <-> b = true.
Proof. destruct b; cbn; split; congruence. Qed.

Lemma app_nil_iff {A} (l1 l2 : list A) : l1 ++ l2 = [] <-> l1 = [] /\ l2 = [].
Proof.
  split; [apply app_eq_nil | intros [-> ->]; reflexivity].
Qed.

End SchemaFacts.

Section LaunchProperties.
Context {K : Type} (w : Launch.World K).

Lemma launch_events_of_app {A} (m : Async Launch.Event A) (log tr : list Launch.Event) :
  snd (m log) = log ++ tr -> Launch.events_of m log = tr.
Proof. unfold Launch.events_of. intros ->. apply drop_app_length. Qed.

(** The schema applied to a record: one access check on the image path,
    then all the issues together. *)
Lemma MemeSchema_parseAsync_unfold (raw : Launch.RawAnswers) (log : list Launch.Event) :
  Launch.MemeSchema_parseAsync w raw log =
  let answer := Launch.fs_access w log (Launch.raw_imagePath raw) in
  let log' := log ++ [Launch.FsAccess (Launch.raw_imagePath raw) answer] in
  let issues :=
    Launch.shape_name (Launch.raw_name raw) ++ Launch.shape_symbol (Launch.raw_symbol raw)
    ++ Launch.shape_totalSupply (Launch.raw_totalSupply raw)
    ++ Launch.shape_royaltyBps (Launch.raw_royaltyBps raw)
    ++ Launch.imagePath_issue (is_fulfilled answer) in
  match issues with
  | [] => (Fulfilled (Launch.apply_defaults raw), log')
  | _ :: _ => (Rejected (JsError (Launch.ZodError_message w issues)), log')
  end.
Proof.
  unfold Launch.MemeSchema_parseAsync, Launch.shape_imagePath, Launch.imagePath_refine,
    try_catch, bind, call, ret, throw; cbv zeta.
  destruct (Launch.fs_access w log (Launch.raw_imagePath raw)) as [[]|e]; cbn [is_fulfilled];
    destruct (_ ++ _); reflexivity.
Qed.

Lemma parse_accepts_iff (raw : Launch.RawAnswers) (log : list Launch.Event) :
  is_fulfilled (fst (Launch.MemeSchema_parseAsync w raw log)) = true <->
  Launch.shape_name (Launch.raw_name raw) = [] /\
  Launch.shape_symbol (Launch.raw_symbol raw) = [] /\
  is_fulfilled (Launch.fs_access w log (Launch.raw_imagePath raw)) = true /\
  Launch.shape_totalSupply (Launch.raw_totalSupply raw) = [] /\
  Launch.shape_royaltyBps (Launch.raw_royaltyBps raw) = [].
Proof.
  rewrite MemeSchema_parseAsync_unfold; cbv zeta.
  set (answer := Launch.fs_access w log (Launch.raw_imagePath raw)).
  rewrite <- (imagePath_issue_spec (is_fulfilled answer)).
  match goal with
  | |- context [match ?issues with [] => _ | _ :: _ => _ end] =>
      assert (Hnil : issues = [] <->
                     Launch.shape_name (Launch.raw_name raw) = [] /\
                     Launch.shape_symbol (Launch.raw_symbol raw) = [] /\
                     Launch.imagePath_issue (is_fulfilled answer) = [] /\
                     Launch.shape_totalSupply (Launch.raw_totalSupply raw) = [] /\
                     Launch.shape_royaltyBps (Launch.raw_royaltyBps raw) = [])
        by (rewrite !app_nil_iff; tauto);
      destruct issues
  end; cbn [fst is_fulfilled]; rewrite <- Hnil; split; congruence.
Qed.

(** Case analysis on the answers of the collaborators, in the order in
    which the workflow asks for them. *)
Ltac run_cases :=
  repeat match goal with
         | |- context [match ?x with _ => _ end] => destruct x
         end.

Ltac close_trace :=
  cbn [fst snd]; eexists; split; [rewrite <- ?app_assoc; reflexivity | reflexivity].

(** The upload, by the answers of the file system and of the storage
    service. *)
Lemma uploadToWalrus_unfold (filePath : string) (log : list Launch.Event) :
  Launch.uploadToWalrus w filePath log =
  let r := Launch.fs_readFile w log filePath in
  let log1 := log ++ [Launch.FsReadFile filePath r] in
  match r with
  | Rejected e => (Rejected e, log1)
  | Fulfilled data =>
      let target := "https://api.walrus.gg/upload" in
      let authorization :=
        "Bearer " +:+ Launch.with_default "undefined" (Launch.env w "WALRUS_API_KEY") in
      let r2 := Launch.axios_post w log1 target data authorization in
      (match r2 with
       | Fulfilled res => Fulfilled (Launch.walrus_url res)
       | Rejected e => Rejected e
       end, log1 ++ [Launch.AxiosPost target data authorization r2])
  end.
Proof.
  unfold Launch.uploadToWalrus, bind, call, ret; cbv zeta.
  destruct (Launch.fs_readFile w log filePath) as [data|e]; [|reflexivity].
  destruct (Launch.axios_post w _ _ data _) as [res|e]; reflexivity.
Qed.

(** Writing the generated files involves no upload. *)
Lemma generateMoveFiles_trace (projectDir : string) (config : Launch.MemeConfig)
      (imageUrl : string) (log : list Launch.Event) :
  exists tr,
    snd (Launch.generateMoveFiles w projectDir config imageUrl log) = log ++ tr /\
    existsb Launch.is_upload_failure tr = false.
Proof.
  unfold Launch.generateMoveFiles, Launch.mkdir, Launch.writeFile, bind, call.
  run_cases; close_trace.
Qed.

(** Reading the key makes no call. *)
Lemma getKeypair_pure (log : list Launch.Event) :
  exists r, Launch.getKeypair w log = (r, log).
Proof.
  unfold Launch.getKeypair, ret, throw.
  destruct (Launch.env w "SUI_PRIVATE_KEY") as [key|]; [|eexists; reflexivity].
  destruct (truthy key); [|eexists; reflexivity].
  destruct (Launch.Keypair_fromSecretKey w key); eexists; reflexivity.
Qed.

(** The deployment runs the compiler a second time, submits the
    transaction and reports. *)
Lemma deployCollection_trace (projectDir : string) (net : Launch.Network)
      (log : list Launch.Event) :
  exists tr,
    snd (Launch.deployCollection w projectDir net log) = log ++ tr /\
    forallb Launch.is_deploy_step tr = true.
Proof.
  unfold Launch.deployCollection, bind.
  destruct (getKeypair_pure log) as [r ->].
  unfold Launch.execSync, call, emit, ret, throw.
  run_cases; try close_trace;
    cbn [fst snd]; exists []; rewrite app_nil_r; split; reflexivity.
Qed.

Lemma deploy_steps_facts (tr : list Launch.Event) :
  forallb Launch.is_deploy_step tr = true ->
  existsb Launch.is_upload_failure tr = false /\
  Launch.created_dirs tr = [] /\
  Launch.written_files tr = [] /\
  (forall ev, In ev tr -> Launch.is_deploy_step ev = true).
Proof.
  induction tr as [|ev tr IH]; cbn [forallb].
  - intros _. repeat split. intros ev [].
  - rewrite andb_true_iff. intros [Hev Htr].
    destruct (IH Htr) as (H1 & H2 & H3 & H4).
    repeat split.
    + cbn [existsb]. rewrite H1. destruct ev; try discriminate; reflexivity.
    + destruct ev; try discriminate; exact H2.
    + destruct ev; try discriminate; exact H3.
    + intros ev' [<-|Hin]; [exact Hev | exact (H4 _ Hin)].
Qed.

Lemma upload_failure_app (l1 l2 : list Launch.Event) :
  existsb Launch.is_upload_failure (l1 ++ l2) =
  existsb Launch.is_upload_failure l1 || existsb Launch.is_upload_failure l2.
Proof. apply existsb_app. Qed.

(** What follows the upload: no event of it is an upload; and if the
    compiler was run on the project and succeeded, then the directory of
    the sources was created and the manifest and the contract source
    were written into the project, with the content rendered from the
    record and the URL of the image. *)
Lemma generate_build_deploy_trace (projectDir : string) (config : Launch.MemeConfig)
      (imageUrl : string) (log : list Launch.Event) :
  exists tr,
    snd (Launch.generate_build_deploy w projectDir config imageUrl log) = log ++ tr /\
    existsb Launch.is_upload_failure tr = false /\
    (forall dir out, In (Launch.ExecSync "sui move build" dir (Fulfilled out)) tr ->
       dir = projectDir /\
       Launch.created_dirs tr = [Launch.path_join w [projectDir; "sources"]] /\
       Launch.written_files tr =
         [ (Launch.path_join w [projectDir; "Move.toml"], Launch.Move_toml config);
           (Launch.path_join w [projectDir; "sources"; "meme.move"],
            Launch.generateMoveCode w config imageUrl) ]).
Proof.
  unfold Launch.generate_build_deploy, Launch.generateMoveFiles, Launch.mkdir, Launch.writeFile,
    Launch.execSync, bind, call, emit.
  set (sources := Launch.path_join w [projectDir; "sources"]).
  destruct (Launch.fs_mkdir w log sources) as [[]|e1].
  2:{ eexists; split; [reflexivity|]. split; [reflexivity|].
      intros dir out [H|[]]; discriminate. }
  destruct (Launch.fs_writeFile w _ _ (Launch.Move_toml config)) as [[]|e2].
  2:{ cbn [fst snd]. eexists; split; [rewrite <- !app_assoc; reflexivity|].
      split; [reflexivity|]. intros dir out [H|[H|[]]]; discriminate. }
  destruct (Launch.fs_writeFile w _ _ (Launch.generateMoveCode w config imageUrl)) as [[]|e3].
  2:{ cbn [fst snd]. eexists; split; [rewrite <- !app_assoc; reflexivity|].
      split; [reflexivity|]. intros dir out [H|[H|[H|[]]]]; discriminate. }
  destruct (Launch.execSync_run w _ "sui move build" projectDir) as [out0|e4].
  2:{ cbn [fst snd]. eexists; split; [rewrite <- !app_assoc; reflexivity|].
      split; [reflexivity|]. intros dir out [H|[H|[H|[H|[H|[]]]]]]; discriminate. }
  match goal with
  | |- context [Launch.deployCollection w projectDir ?net ?l] =>
      destruct (deployCollection_trace projectDir net l) as (trd & Hsnd & Hsteps);
      destruct (Launch.deployCollection w projectDir net l) as [[[]|e5] logd];
      cbn [snd] in Hsnd; subst logd
  end.
  - destruct (deploy_steps_facts _ Hsteps) as (Hup & Hdirs & Hfiles & Hall).
    cbn [fst snd]. eexists. split; [rewrite <- !app_assoc; reflexivity|].
    split.
    + cbn [app existsb Launch.is_upload_failure orb]. rewrite upload_failure_app, Hup. reflexivity.
    + intros dir out Hin. split.
      * cbn [app In] in Hin.
        destruct Hin as [H|[H|[H|[H|[H|[H|Hin]]]]]]; try discriminate.
        -- injection H as Hdir _. symmetry; exact Hdir.
        -- apply in_app_or in Hin as [Hin|[H|[H|[]]]]; try discriminate.
           apply Hall in Hin. discriminate.
      * unfold Launch.created_dirs, Launch.written_files.
        cbn [app omap list_omap Launch.created_dir Launch.written_file].
        rewrite !omap_app.
        fold (Launch.created_dirs trd). fold (Launch.written_files trd).
        rewrite Hdirs, Hfiles. split; reflexivity.
  - destruct (deploy_steps_facts _ Hsteps) as (Hup & Hdirs & Hfiles & Hall).
    cbn [fst snd]. eexists. split; [rewrite <- !app_assoc; reflexivity|].
    split.
    + cbn [app existsb Launch.is_upload_failure orb]. rewrite Hup. reflexivity.
    + intros dir out Hin. split.
      * cbn [app In] in Hin.
        destruct Hin as [H|[H|[H|[H|[H|[H|Hin]]]]]]; try discriminate.
        -- injection H as Hdir _. symmetry; exact Hdir.
        -- apply Hall in Hin. discriminate.
      * unfold Launch.created_dirs, Launch.written_files.
        cbn [app omap list_omap Launch.created_dir Launch.written_file].
        fold (Launch.created_dirs trd). fold (Launch.written_files trd).
        rewrite Hdirs, Hfiles. split; reflexivity.
Qed.

(** The workflow up to the upload, by the answers received. *)
Lemma launchMeme_unfold (log : list Launch.Event) :
  Launch.launchMeme w log =
  let r0 := Launch.inquirer_prompt w log in
  let log0 := log ++ [Launch.Prompt r0] in
  match r0 with
  | Rejected e => (Rejected e, log0)
  | Fulfilled raw =>
      match Launch.MemeSchema_parseAsync w raw log0 with
      | (Rejected e, log1) => (Rejected e, log1)
      | (Fulfilled answers, log1) =>
          let projectDir :=
            Launch.path_join w [Launch.cwd w; "meme-" +:+ toLowerCase (Launch.symbol answers)] in
          let r2 := Launch.fs_mkdir w log1 projectDir in
          let log2 := log1 ++ [Launch.FsMkdir projectDir r2] in
          match r2 with
          | Rejected e => (Rejected e, log2)
          | Fulfilled _ =>
              match Launch.uploadToWalrus w (Launch.imagePath answers)
                      ((log2 ++ [Launch.ConsoleLog "🚀 Initializing Sui NFT project..."])
                       ++ [Launch.ConsoleLog "📤 Uploading meme to Walrus..."]) with
              | (Rejected e, log4) => (Rejected e, log4)
              | (Fulfilled imageUrl, log4) =>
                  Launch.generate_build_deploy w projectDir answers imageUrl log4
              end
          end
      end
  end.
Proof.
  unfold Launch.launchMeme, bind at 1 2. unfold call at 1; cbv zeta.
  destruct (Launch.inquirer_prompt w log) as [raw|e]; [|reflexivity].
  destruct (Launch.MemeSchema_parseAsync w raw _) as [[answers|e] log1]; [|reflexivity].
  unfold bind, Launch.mkdir, call, emit; cbv zeta.
  destruct (Launch.fs_mkdir w log1 _) as [[]|e]; reflexivity.
Qed.

(** C5: the schema accepts a record exactly when the name is not empty,
    the symbol is made of three to five upper-case letters, the total
    supply is a number between 1 and 10000, the royalty (the default 5
    when absent) is a number between 0 and 100, and the image path can be
    accessed on disk.  So 'btc' and 'toolongname' are rejected and 'DOGE'
    accepted; 0 and 10001 are rejected and 1 and 10000 accepted for the
    supply; 101 is rejected and 0 and 100 accepted for the royalty.  The
    launch workflow applies the schema to the whole record of answers
    before anything else: when the record is rejected, the workflow fails
    having only asked the questions and checked the image path. *)
Theorem launch_input_validation (raw : Launch.RawAnswers) (log : list Launch.Event) :
  (is_fulfilled (fst (Launch.MemeSchema_parseAsync w raw log)) = true <->
   Launch.raw_name raw <> EmptyString /\
   (3 <= String.length (Launch.raw_symbol raw) <= 5 /\
    Forall (fun c => 65 <= nat_of_ascii c <= 90) (list_ascii_of_string (Launch.raw_symbol raw))) /\
   (exists q, Launch.raw_totalSupply raw = Launch.Finite q /\ (1 <= q)%Q /\ (q <= 10000)%Q) /\
   (exists q, Launch.with_default Launch.royaltyBps_default (Launch.raw_royaltyBps raw)
              = Launch.Finite q /\ (0 <= q)%Q /\ (q <= 100)%Q) /\
   is_fulfilled (Launch.fs_access w log (Launch.raw_imagePath raw)) = true) /\
  (Launch.symbol_regex "btc" = false /\
   Launch.symbol_regex "toolongname" = false /\
   Launch.symbol_regex "DOGE" = true) /\
  (Launch.shape_totalSupply (Launch.Finite 0) =
     [{| Launch.path := "totalSupply"; Launch.code := Launch.too_small; Launch.message := None |}] /\
   Launch.shape_totalSupply (Launch.Finite 10001) =
     [{| Launch.path := "totalSupply"; Launch.code := Launch.too_big; Launch.message := None |}] /\
   Launch.shape_totalSupply (Launch.Finite 1) = [] /\
   Launch.shape_totalSupply (Launch.Finite 10000) = []) /\
  (Launch.shape_royaltyBps (Some (Launch.Finite 101)) =
     [{| Launch.path := "royaltyBps"; Launch.code := Launch.too_big; Launch.message := None |}] /\
   Launch.shape_royaltyBps (Some (Launch.Finite 0)) = [] /\
   Launch.shape_royaltyBps (Some (Launch.Finite 100)) = []) /\
  (Launch.inquirer_prompt w log = Fulfilled raw ->
   is_fulfilled (fst (Launch.MemeSchema_parseAsync w raw (log ++ [Launch.Prompt (Fulfilled raw)])))
     = false ->
   is_fulfilled (fst (Launch.launchMeme w log)) = false /\
   Launch.events_of (Launch.launchMeme w) log =
     [ Launch.Prompt (Fulfilled raw);
       Launch.FsAccess (Launch.raw_imagePath raw)
         (Launch.fs_access w (log ++ [Launch.Prompt (Fulfilled raw)]) (Launch.raw_imagePath raw)) ]).
Proof.
  split; [|split; [|split; [|split]]].
  - rewrite parse_accepts_iff, shape_name_spec, shape_symbol_spec, symbol_regex_spec.
    unfold Launch.shape_totalSupply, Launch.shape_royaltyBps.
    rewrite !number_between_spec. tauto.
  - repeat split; reflexivity.
  - repeat split; reflexivity.
  - repeat split; reflexivity.
  - intros Hprompt Hrejected.
    pose proof (launchMeme_unfold log) as Hrun; cbv zeta in Hrun.
    rewrite Hprompt in Hrun.
    pose proof (MemeSchema_parseAsync_unfold raw (log ++ [Launch.Prompt (Fulfilled raw)])) as Hparse;
      cbv zeta in Hparse.
    rewrite Hparse in Hrun, Hrejected.
    match type of Hparse with
    | context [match ?issues with [] => _ | _ :: _ => _ end] => destruct issues
    end; [discriminate|].
    split; [rewrite Hrun; reflexivity|].
    apply launch_events_of_app. rewrite Hrun. cbn [snd]. rewrite <- app_assoc. reflexivity.
Qed.

(** C9: the schema gives the absent optional fields their defaults:
    'A meme NFT collection' for the description, testnet for the network
    and 5 for the royalty, and the default royalty passes the check of
    its field.  Hence a record accepted by the schema carries these
    values for the fields the input left out, and the record so
    completed is accepted again as it is, as long as the image can still
    be accessed. *)
Theorem schema_defaults (raw : Launch.RawAnswers) (config : Launch.MemeConfig)
        (log log' : list Launch.Event) :
  Launch.description_default = "A meme NFT collection" /\
  Launch.network_default = Launch.testnet /\
  Launch.royaltyBps_default = Launch.Finite 5 /\
  Launch.shape_royaltyBps None = [] /\
  (fst (Launch.MemeSchema_parseAsync w raw log) = Fulfilled config ->
   (Launch.raw_description raw = None -> Launch.description config = "A meme NFT collection") /\
   (Launch.raw_network raw = None -> Launch.network config = Launch.testnet) /\
   (Launch.raw_royaltyBps raw = None -> Launch.royaltyBps config = Launch.Finite 5) /\
   (is_fulfilled (Launch.fs_access w log' (Launch.imagePath config)) = true ->
    fst (Launch.MemeSchema_parseAsync w (Launch.to_raw config) log') = Fulfilled config)).
Proof.
  split; [reflexivity|]. split; [reflexivity|]. split; [reflexivity|]. split; [reflexivity|].
  intros Hparsed.
  assert (Hacc : is_fulfilled (fst (Launch.MemeSchema_parseAsync w raw log)) = true)
    by (rewrite Hparsed; reflexivity).
  apply parse_accepts_iff in Hacc as (Hname & Hsymbol & _ & Hsupply & Hroyalty).
  rewrite MemeSchema_parseAsync_unfold in Hparsed; cbv zeta in Hparsed.
  match type of Hparsed with
  | context [match ?issues with [] => _ | _ :: _ => _ end] => destruct issues
  end; [|discriminate].
  injection Hparsed as <-.
  split; [intros H; unfold Launch.apply_defaults; cbn; rewrite H; reflexivity|].
  split; [intros H; unfold Launch.apply_defaults; cbn; rewrite H; reflexivity|].
  split; [intros H; unfold Launch.apply_defaults; cbn; rewrite H; reflexivity|].
  intros Hfile.
  assert (Hagain : is_fulfilled (fst (Launch.MemeSchema_parseAsync w
                      (Launch.to_raw (Launch.apply_defaults raw)) log')) = true).
  { apply parse_accepts_iff. cbn [Launch.to_raw Launch.apply_defaults Launch.raw_name
      Launch.raw_symbol Launch.raw_imagePath Launch.raw_totalSupply Launch.raw_royaltyBps
      Launch.name Launch.symbol Launch.imagePath Launch.totalSupply Launch.royaltyBps] in *.
    repeat split; try assumption;
      destruct (Launch.raw_royaltyBps raw); exact Hroyalty. }
  rewrite MemeSchema_parseAsync_unfold in Hagain |- *; cbv zeta in Hagain |- *.
  match type of Hagain with
  | context [match ?issues with [] => _ | _ :: _ => _ end] => destruct issues
  end; [|discriminate].
  reflexivity.
Qed.

(** The events of a run, and what a failed upload entails. *)
Lemma launch_upload_failure_cases (log : list Launch.Event) :
  exists tr,
    snd (Launch.launchMeme w log) = log ++ tr /\
    (existsb Launch.is_upload_failure tr = true ->
     is_fulfilled (fst (Launch.launchMeme w log)) = false /\
     existsb Launch.is_later_step tr = false /\
     exists pre ev, tr = pre ++ [ev] /\ Launch.is_upload_failure ev = true).
Proof.
  rewrite launchMeme_unfold; cbv zeta.
  destruct (Launch.inquirer_prompt w log) as [raw|e0].
  2:{ eexists; split; [reflexivity|]. discriminate. }
  rewrite MemeSchema_parseAsync_unfold; cbv zeta.
  match goal with
  | |- context [match ?issues with [] => _ | _ :: _ => _ end] => destruct issues
  end.
  2:{ cbn [fst snd]. eexists; split; [rewrite <- !app_assoc; reflexivity|]. discriminate. }
  destruct (Launch.fs_mkdir w _ _) as [[]|e2].
  2:{ cbn [fst snd]. eexists; split; [rewrite <- !app_assoc; reflexivity|]. discriminate. }
  rewrite uploadToWalrus_unfold; cbv zeta.
  destruct (Launch.fs_readFile w _ _) as [data|e3].
  2:{ cbn [fst snd]. eexists; split; [rewrite <- !app_assoc; reflexivity|].
      intros _. split; [reflexivity|]. split; [reflexivity|].
      eexists [_; _; _; _; _], _. split; reflexivity. }
  destruct (Launch.axios_post w _ _ data _) as [res|e4].
  2:{ cbn [fst snd]. eexists; split; [rewrite <- !app_assoc; reflexivity|].
      intros _. split; [reflexivity|]. split; [reflexivity|].
      eexists [_; _; _; _; _; _], _. split; reflexivity. }
  match goal with
  | |- context [Launch.generate_build_deploy w ?dir ?cfg ?u ?l] =>
      destruct (generate_build_deploy_trace dir cfg u l) as (tr' & Hsnd & Hup & _)
  end.
  rewrite Hsnd. eexists. split; [rewrite <- !app_assoc; reflexivity|].
  cbn [app existsb Launch.is_upload_failure orb]. rewrite Hup. discriminate.
Qed.

(** C6: if the upload fails (reading the image or posting it is
    rejected), the workflow fails, the failed call is the last thing it
    did, and no file was written, no compiler run and no transaction
    submitted. *)
Theorem upload_failure_aborts_launch (log : list Launch.Event) :
  existsb Launch.is_upload_failure (Launch.events_of (Launch.launchMeme w) log) = true ->
  is_fulfilled (fst (Launch.launchMeme w log)) = false /\
  existsb Launch.is_later_step (Launch.events_of (Launch.launchMeme w) log) = false /\
  exists pre ev,
    Launch.events_of (Launch.launchMeme w) log = pre ++ [ev] /\
    Launch.is_upload_failure ev = true.
Proof.
  destruct (launch_upload_failure_cases log) as (tr & Hsnd & Hcases).
  rewrite (launch_events_of_app _ _ _ Hsnd). exact Hcases.
Qed.

(** The texts rendered from a record contain the lower-cased symbol, the
    name, the description and the URL of the image as they are. *)
Lemma rendered_texts_embed (config : Launch.MemeConfig) (imageUrl : string) :
  includes (Launch.Move_toml config) ("meme_" +:+ toLowerCase (Launch.symbol config)) = true /\
  In ("                (" +:+ dq +:+ "name" +:+ dq +:+ ", " +:+ dq +:+
      Launch.name config +:+ dq +:+ "),") (Launch.Move_code_lines w config imageUrl) /\
  In ("                (" +:+ dq +:+ "description" +:+ dq +:+ ", " +:+ dq +:+
      Launch.description config +:+ dq +:+ "),") (Launch.Move_code_lines w config imageUrl) /\
  In ("                (" +:+ dq +:+ "image_url" +:+ dq +:+ ", " +:+ dq +:+
      imageUrl +:+ dq +:+ "),") (Launch.Move_code_lines w config imageUrl) /\
  includes (Launch.generateMoveCode w config imageUrl) (Launch.name config) = true /\
  includes (Launch.generateMoveCode w config imageUrl) (Launch.description config) = true /\
  includes (Launch.generateMoveCode w config imageUrl) imageUrl = true.
Proof.
  assert (Hname : In ("                (" +:+ dq +:+ "name" +:+ dq +:+ ", " +:+ dq +:+
                      Launch.name config +:+ dq +:+ "),") (Launch.Move_code_lines w config imageUrl))
    by (unfold Launch.Move_code_lines; cbn [In]; do 19 right; left; reflexivity).
  assert (Hdesc : In ("                (" +:+ dq +:+ "description" +:+ dq +:+ ", " +:+ dq +:+
                      Launch.description config +:+ dq +:+ "),")
                     (Launch.Move_code_lines w config imageUrl))
    by (unfold Launch.Move_code_lines; cbn [In]; do 20 right; left; reflexivity).
  assert (Hurl : In ("                (" +:+ dq +:+ "image_url" +:+ dq +:+ ", " +:+ dq +:+
                     imageUrl +:+ dq +:+ "),") (Launch.Move_code_lines w config imageUrl))
    by (unfold Launch.Move_code_lines; cbn [In]; do 21 right; left; reflexivity).
  split; [|repeat split; try assumption].
  - unfold Launch.Move_toml, Launch.unlines.
    eapply includes_trans; [apply includes_concat; right; left; reflexivity|].
    apply includes_spec. exists ("name = " +:+ dq), dq.
    rewrite !string_app_assoc. reflexivity.
  - unfold Launch.generateMoveCode, Launch.unlines.
    eapply includes_trans; [apply includes_concat; exact Hname|].
    repeat first [apply includes_here | apply includes_app_r].
  - unfold Launch.generateMoveCode, Launch.unlines.
    eapply includes_trans; [apply includes_concat; exact Hdesc|].
    repeat first [apply includes_here | apply includes_app_r].
  - unfold Launch.generateMoveCode, Launch.unlines.
    eapply includes_trans; [apply includes_concat; exact Hurl|].
    repeat first [apply includes_here | apply includes_app_r].
Qed.

(** What follows the upload when the file system accepts every
    operation: the directory of the sources, the manifest, the contract
    source, then the compiler on the project. *)
Lemma generate_build_deploy_forward (projectDir : string) (config : Launch.MemeConfig)
      (imageUrl : string) (log : list Launch.Event) :
  (forall h d, is_fulfilled (Launch.fs_mkdir w h d) = true) ->
  (forall h f c, is_fulfilled (Launch.fs_writeFile w h f c) = true) ->
  exists r tr,
    snd (Launch.generate_build_deploy w projectDir config imageUrl log) =
      log ++
      [ Launch.FsMkdir (Launch.path_join w [projectDir; "sources"]) (Fulfilled tt);
        Launch.FsWriteFile (Launch.path_join w [projectDir; "Move.toml"]) (Launch.Move_toml config)
          (Fulfilled tt);
        Launch.FsWriteFile (Launch.path_join w [projectDir; "sources"; "meme.move"])
          (Launch.generateMoveCode w config imageUrl) (Fulfilled tt);
        Launch.ConsoleLog "🏗 Building Move package...";
        Launch.ExecSync "sui move build" projectDir r ] ++ tr /\
    Launch.created_dirs tr = [] /\
    Launch.written_files tr = [].
Proof.
  intros Hmkdir Hwrite.
  unfold Launch.generate_build_deploy, Launch.generateMoveFiles, Launch.mkdir, Launch.writeFile,
    Launch.execSync, bind, call, emit.
  set (sources := Launch.path_join w [projectDir; "sources"]).
  pose proof (Hmkdir log sources) as H1.
  destruct (Launch.fs_mkdir w log sources) as [[]|e1]; [clear H1 | discriminate H1].
  match goal with
  | |- context [Launch.fs_writeFile w ?h ?f (Launch.Move_toml config)] =>
      pose proof (Hwrite h f (Launch.Move_toml config)) as H2;
      destruct (Launch.fs_writeFile w h f (Launch.Move_toml config)) as [[]|e2];
      [clear H2 | discriminate H2]
  end.
  match goal with
  | |- context [Launch.fs_writeFile w ?h ?f (Launch.generateMoveCode w config imageUrl)] =>
      pose proof (Hwrite h f (Launch.generateMoveCode w config imageUrl)) as H3;
      destruct (Launch.fs_writeFile w h f (Launch.generateMoveCode w config imageUrl)) as [[]|e3];
      [clear H3 | discriminate H3]
  end.
  destruct (Launch.execSync_run w _ "sui move build" projectDir) as [out0|e4].
  2:{ cbn [fst snd]. eexists _, []. split; [rewrite <- !app_assoc; reflexivity|].
      split; reflexivity. }
  match goal with
  | |- context [Launch.deployCollection w projectDir ?net ?l] =>
      destruct (deployCollection_trace projectDir net l) as (trd & Hsnd & Hsteps);
      destruct (Launch.deployCollection w projectDir net l) as [[[]|e5] logd];
      cbn [snd] in Hsnd; subst logd
  end;
    destruct (deploy_steps_facts _ Hsteps) as (_ & Hdirs & Hfiles & _);
    cbn [fst snd]; eexists _, _; (split; [rewrite <- !app_assoc; reflexivity|]).
  - unfold Launch.created_dirs, Launch.written_files.
    cbn [app omap list_omap Launch.created_dir Launch.written_file].
    rewrite !omap_app.
    fold (Launch.created_dirs trd). fold (Launch.written_files trd).
    rewrite Hdirs, Hfiles. split; reflexivity.
  - unfold Launch.created_dirs, Launch.written_files.
    cbn [app omap list_omap Launch.created_dir Launch.written_file].
    fold (Launch.created_dirs trd). fold (Launch.written_files trd).
    rewrite Hdirs, Hfiles. split; reflexivity.
Qed.

(** C7: take the answers of the user; the project directory is what
    [path.join] makes of the working directory and of 'meme-' followed by
    the lower-cased symbol.  When the answers are valid, the file system
    accepts every operation and the upload succeeds, the workflow creates
    this directory and its 'sources', writes exactly two files, the
    manifest 'Move.toml' and the contract source 'sources/meme.move', both
    inside it, and runs the compiler on it.  Conversely a successful run
    of the compiler is always on this directory and preceded by all of
    this.  The manifest mentions 'meme_' followed by the lower-cased
    symbol, and the source has the name that was answered, the
    description that was answered ('A meme NFT collection' when none was)
    and the URL returned by the upload spliced in between quotes as they
    are. *)
Theorem launch_generates_project (log : list Launch.Event) (raw : Launch.RawAnswers) :
  Launch.inquirer_prompt w log = Fulfilled raw ->
  let config := Launch.apply_defaults raw in
  let lower := toLowerCase (Launch.raw_symbol raw) in
  let supplied_description :=
    match Launch.raw_description raw with
    | Some text => text
    | None => "A meme NFT collection"
    end in
  let dir := Launch.path_join w [Launch.cwd w; "meme-" +:+ lower] in
  let events := Launch.events_of (Launch.launchMeme w) log in
  let project (url : string) :=
    Launch.created_dirs events = [dir; Launch.path_join w [dir; "sources"]] /\
    Launch.written_files events =
      [ (Launch.path_join w [dir; "Move.toml"], Launch.Move_toml config);
        (Launch.path_join w [dir; "sources"; "meme.move"],
         Launch.generateMoveCode w config url) ] in
  (forall data res,
      is_fulfilled (fst (Launch.MemeSchema_parseAsync w raw (log ++ [Launch.Prompt (Fulfilled raw)])))
        = true ->
      (forall h d, is_fulfilled (Launch.fs_mkdir w h d) = true) ->
      (forall h f c, is_fulfilled (Launch.fs_writeFile w h f c) = true) ->
      (forall h, Launch.fs_readFile w h (Launch.raw_imagePath raw) = Fulfilled data) ->
      (forall h d a, Launch.axios_post w h "https://api.walrus.gg/upload" d a = Fulfilled res) ->
      project (Launch.walrus_url res) /\
      exists r, In (Launch.ExecSync "sui move build" dir r) events) /\
  (forall built out,
      In (Launch.ExecSync "sui move build" built (Fulfilled out)) events ->
      built = dir /\
      is_fulfilled (fst (Launch.MemeSchema_parseAsync w raw (log ++ [Launch.Prompt (Fulfilled raw)])))
        = true /\
      exists data authorization res,
        In (Launch.AxiosPost "https://api.walrus.gg/upload" data authorization (Fulfilled res)) events /\
        project (Launch.walrus_url res)) /\
  (forall url,
      includes (Launch.Move_toml config) ("meme_" +:+ lower) = true /\
      In ("                (" +:+ dq +:+ "name" +:+ dq +:+ ", " +:+ dq +:+
          Launch.raw_name raw +:+ dq +:+ "),") (Launch.Move_code_lines w config url) /\
      In ("                (" +:+ dq +:+ "description" +:+ dq +:+ ", " +:+ dq +:+
          supplied_description +:+ dq +:+ "),") (Launch.Move_code_lines w config url) /\
      In ("                (" +:+ dq +:+ "image_url" +:+ dq +:+ ", " +:+ dq +:+
          url +:+ dq +:+ "),") (Launch.Move_code_lines w config url) /\
      includes (Launch.generateMoveCode w config url) (Launch.raw_name raw) = true /\
      includes (Launch.generateMoveCode w config url) supplied_description = true /\
      includes (Launch.generateMoveCode w config url) url = true).
Proof.
  intros Hprompt; cbv zeta.
  pose proof (launchMeme_unfold log) as Hrun; cbv zeta in Hrun.
  rewrite Hprompt in Hrun.
  pose proof (MemeSchema_parseAsync_unfold raw (log ++ [Launch.Prompt (Fulfilled raw)])) as Hparse;
    cbv zeta in Hparse.
  split; [|split].
  - (* with working collaborators *)
    intros data res Hvalid Hmkdir Hwrite Hread Hpost.
    rewrite Hparse in Hrun, Hvalid.
    match type of Hparse with
    | context [match ?issues with [] => _ | _ :: _ => _ end] => destruct issues
    end; [|discriminate Hvalid].
    clear Hparse Hvalid.
    change (Launch.imagePath (Launch.apply_defaults raw)) with (Launch.raw_imagePath raw) in Hrun.
    change (Launch.symbol (Launch.apply_defaults raw)) with (Launch.raw_symbol raw) in Hrun.
    match type of Hrun with
    | context [Launch.fs_mkdir w ?h ?d] =>
        pose proof (Hmkdir h d) as H1;
        destruct (Launch.fs_mkdir w h d) as [[]|e1]; [clear H1 | discriminate H1]
    end.
    rewrite uploadToWalrus_unfold in Hrun; cbv zeta in Hrun.
    rewrite Hread, Hpost in Hrun.
    match type of Hrun with
    | context [Launch.generate_build_deploy w ?d ?cfg ?u ?l] =>
        destruct (generate_build_deploy_forward d cfg u l Hmkdir Hwrite)
          as (r & tr' & Hsnd & Hdirs & Hfiles)
    end.
    assert (Hevents : snd (Launch.launchMeme w log) =
                      log ++ ([_; _; _; _; _; _; _] ++ [_; _; _; _; _] ++ tr'))
      by (rewrite Hrun, Hsnd, <- !app_assoc; reflexivity).
    rewrite (launch_events_of_app _ _ _ Hevents).
    split; [split|].
    + unfold Launch.created_dirs in *.
      cbn [app omap list_omap Launch.created_dir]. rewrite Hdirs. reflexivity.
    + unfold Launch.written_files in *.
      cbn [app omap list_omap Launch.written_file]. rewrite Hfiles. reflexivity.
    + exists r. do 11 right. left. reflexivity.
  - (* from a successful run of the compiler *)
    intros built out Hbuilt.
    rewrite Hparse in Hrun |- *.
    match type of Hparse with
    | context [match ?issues with [] => _ | _ :: _ => _ end] => destruct issues
    end.
    2:{ exfalso. revert Hbuilt.
        erewrite launch_events_of_app by (rewrite Hrun; cbn [snd]; rewrite <- !app_assoc; reflexivity).
        intros [H|[H|[]]]; discriminate. }
    clear Hparse.
    change (Launch.imagePath (Launch.apply_defaults raw)) with (Launch.raw_imagePath raw) in Hrun.
    change (Launch.symbol (Launch.apply_defaults raw)) with (Launch.raw_symbol raw) in Hrun.
    destruct (Launch.fs_mkdir w _ _) as [[]|e2].
    2:{ exfalso. revert Hbuilt.
        erewrite launch_events_of_app by (rewrite Hrun; cbn [snd]; rewrite <- !app_assoc; reflexivity).
        intros [H|[H|[H|[]]]]; discriminate. }
    rewrite uploadToWalrus_unfold in Hrun; cbv zeta in Hrun.
    destruct (Launch.fs_readFile w _ _) as [data|e3].
    2:{ exfalso. revert Hbuilt.
        erewrite launch_events_of_app by (rewrite Hrun; cbn [snd]; rewrite <- !app_assoc; reflexivity).
        intros [H|[H|[H|[H|[H|[H|[]]]]]]]; discriminate. }
    destruct (Launch.axios_post w _ _ data _) as [res|e4].
    2:{ exfalso. revert Hbuilt.
        erewrite launch_events_of_app by (rewrite Hrun; cbn [snd]; rewrite <- !app_assoc; reflexivity).
        intros [H|[H|[H|[H|[H|[H|[H|[]]]]]]]]; discriminate. }
    match type of Hrun with
    | context [Launch.generate_build_deploy w ?d ?cfg ?u ?l] =>
        destruct (generate_build_deploy_trace d cfg u l) as (tr' & Hsnd & _ & Hfiles)
    end.
    assert (Hevents : snd (Launch.launchMeme w log) = log ++ ([_; _; _; _; _; _; _] ++ tr'))
      by (rewrite Hrun, Hsnd, <- !app_assoc; reflexivity).
    rewrite (launch_events_of_app _ _ _ Hevents) in Hbuilt |- *.
    cbn [app In] in Hbuilt.
    destruct Hbuilt as [H|[H|[H|[H|[H|[H|[H|Hbuilt]]]]]]]; try discriminate.
    destruct (Hfiles _ _ Hbuilt) as (-> & Hdirs & Hwritten).
    split; [reflexivity|]. split; [reflexivity|].
    eexists data, _, res.
    split; [do 6 right; left; reflexivity|].
    split.
    + unfold Launch.created_dirs in *. cbn [app omap list_omap Launch.created_dir].
      rewrite Hdirs. reflexivity.
    + unfold Launch.written_files in *. cbn [app omap list_omap Launch.written_file].
      rewrite Hwritten. reflexivity.
  - intros url. exact (rendered_texts_embed (Launch.apply_defaults raw) url).
Qed.

End LaunchProperties.

(* ===================================================================== *)
(** ** The theorems at work on concrete worlds                           *)
(* ===================================================================== *)

Section Runs.

(** 'wallet.suix' does not end in '.sui', yet it is resolved as a name:
    the naming service is asked for it, and the balance queries are about
    the address it resolves to, not about the identifier. *)
Lemma name_suffix_counterexample :
  endsWith "wallet.suix" ".sui" = false /\
  Cli.isSuiNsName "wallet.suix" = true /\
  map fst (Cli.http_requests
             (Cli.events_of
                (Cli.getAccountInfo_body (Scenarios.account_world "wallet.suix" "0xabc") "wallet.suix")
                [])) =
    ["https://api.suins.io/mainnet/resolve?name=wallet.suix"] /\
  map (fun p => snd (fst p))
      (Cli.balance_probes
         (Cli.events_of
            (Cli.getAccountInfo_body (Scenarios.account_world "wallet.suix" "0xabc") "wallet.suix")
            [])) =
    ["0xabc"; "0xabc"] /\
  ~ (forall identifier, Cli.isSuiNsName identifier = endsWith identifier ".sui").
Proof.
  split; [reflexivity|]. split; [reflexivity|].
  split; [vm_compute; reflexivity|]. split; [vm_compute; reflexivity|].
  intros H. specialize (H "wallet.suix"). discriminate H.
Qed.

Lemma account_identifier_dispatch_witness :
  (endsWith "wallet.sui" ".sui" = true /\
   Cli.isSuiNsName "wallet.sui" = true /\
   Forall (fun p => snd (fst p) = "0xabc")
          (Cli.balance_probes
             (Cli.events_of
                (Cli.getAccountInfo_body (Scenarios.account_world "wallet.sui" "0xabc") "wallet.sui")
                []))) /\
  (Cli.isSuiNsName "0xabc" = false /\
   Forall (fun p => snd (fst p) = "0xabc")
          (Cli.balance_probes
             (Cli.events_of
                (Cli.getAccountInfo_body (Scenarios.account_world "wallet.sui" "0xabc") "0xabc")
                []))).
Proof.
  pose proof (account_identifier_dispatch
                (Scenarios.account_world "wallet.sui" "0xabc") "wallet.sui" [])
    as (_ & Hsuffix & Hname & _).
  pose proof (account_identifier_dispatch
                (Scenarios.account_world "wallet.sui" "0xabc") "0xabc" [])
    as (_ & _ & _ & Hraw).
  split.
  - split; [reflexivity|]. split; [exact (Hsuffix eq_refl)|].
    exact (proj2 (Hname (Hsuffix eq_refl))).
  - split; [reflexivity|]. exact (proj2 (Hraw eq_refl)).
Defined.

Lemma name_resolution_includes_localnet_witness :
  (is_fulfilled (fst (Cli.resolveSuiNameOnAllNetworks Scenarios.offline_world "wallet.sui" []))
     = false /\
   is_fulfilled (fst (Cli.detectNetworkForAddress Scenarios.offline_world "0xabc" [])) = false) /\
  In "http://localhost:3000/api/resolve?name=wallet.sui"
     (map fst (Cli.http_requests
                 (Cli.events_of (Cli.resolveSuiNameOnAllNetworks Scenarios.offline_world "wallet.sui")
                                []))) /\
  length (Cli.balance_probes
            (Cli.events_of (Cli.detectNetworkForAddress Scenarios.offline_world "0xabc") [])) = 3.
Proof.
  pose proof (name_resolution_includes_localnet Scenarios.offline_world "wallet.sui" "0xabc" [])
    as (_ & _ & Hresolve & Hdetect).
  split; [split; reflexivity|]. split.
  - rewrite (Hresolve eq_refl). do 3 right. left. reflexivity.
  - rewrite <- (length_map fst), (Hdetect eq_refl). reflexivity.
Defined.

Lemma enrichment_failure_is_never_fatal_witness :
  (is_fulfilled (Cli.axios_get (Scenarios.account_world "wallet.sui" "0xabc") []
                   (Cli.reverse_target (Scenarios.account_world "wallet.sui" "0xabc")
                                       "0xabc" Cli.mainnet)) = false /\
   fst (Cli.checkForSuiNsName (Scenarios.account_world "wallet.sui" "0xabc") "0xabc" Cli.mainnet [])
     = Fulfilled None) /\
  (is_fulfilled (Nft.axios_get
                   (Scenarios.nft_world {| Nft.data := Some Scenarios.bare_object |}
                                        Scenarios.not_found)
                   [] (Nft.stats_target "0x1")) = false /\
   fst (Nft.enrich_floor_price
          (Scenarios.nft_world {| Nft.data := Some Scenarios.bare_object |} Scenarios.not_found)
          "0x1" (Nft.onchain_metadata
                   (Scenarios.nft_world {| Nft.data := Some Scenarios.bare_object |}
                                        Scenarios.not_found)
                   Scenarios.bare_object) [])
     = Fulfilled (Nft.onchain_metadata
                    (Scenarios.nft_world {| Nft.data := Some Scenarios.bare_object |}
                                         Scenarios.not_found)
                    Scenarios.bare_object)) /\
  (fst (Nft.getNftDetails
          (Scenarios.nft_world {| Nft.data := Some Scenarios.bare_object |} Scenarios.not_found)
          "0x1" []) = Fulfilled tt /\
   In "All Time Floor Price: Not available"
      (Nft.printed
         (Nft.events_of
            (Nft.getNftDetails
               (Scenarios.nft_world {| Nft.data := Some Scenarios.bare_object |}
                                    Scenarios.not_found) "0x1") []))).
Proof.
  pose proof (enrichment_failure_is_never_fatal
                (Scenarios.account_world "wallet.sui" "0xabc")
                (Scenarios.nft_world {| Nft.data := Some Scenarios.bare_object |}
                                     Scenarios.not_found))
    as (Hreverse & _ & Hfloor & Hnft).
  split; [|split].
  - split; [reflexivity|].
    destruct (Hreverse "0xabc" Cli.mainnet []) as (r & Hr & Hnull).
    rewrite Hr, (Hnull eq_refl). reflexivity.
  - split; [reflexivity|].
    destruct (Hfloor "0x1" (Nft.onchain_metadata
                              (Scenarios.nft_world {| Nft.data := Some Scenarios.bare_object |}
                                                   Scenarios.not_found)
                              Scenarios.bare_object) []) as (p & Hp & Hsame).
    rewrite Hp, (Hsame eq_refl). reflexivity.
  - destruct (Hnft "0x1" [] {| Nft.data := Some Scenarios.bare_object |} Scenarios.bare_object
                   eq_refl eq_refl eq_refl) as (Hok & _ & Hline).
    split; [exact Hok | exact Hline].
Defined.

Lemma nft_inspection_fails_only_without_data_witness :
  (Nft.rpc_getObject (Scenarios.nft_world {| Nft.data := None |} Scenarios.not_found)
     [Nft.ConsoleLog (nl +:+ "Fetching details for NFT: " +:+ "0x1" +:+ "...")]
     "https://fullnode.mainnet.sui.io:443" "0x1" = Fulfilled {| Nft.data := None |} /\
   is_fulfilled (fst (Nft.getNftDetails
                        (Scenarios.nft_world {| Nft.data := None |} Scenarios.not_found) "0x1" []))
     = false) /\
  (Nft.display_of Scenarios.bare_object = None /\
   fst (Nft.getNftDetails
          (Scenarios.nft_world {| Nft.data := Some Scenarios.bare_object |} Scenarios.not_found)
          "0x1" []) = Fulfilled tt /\
   In "Name: Not available"
      (Nft.printed
         (Nft.events_of
            (Nft.getNftDetails
               (Scenarios.nft_world {| Nft.data := Some Scenarios.bare_object |}
                                    Scenarios.not_found) "0x1") []))).
Proof.
  split.
  - split; [reflexivity|].
    destruct (nft_inspection_fails_only_without_data
                (Scenarios.nft_world {| Nft.data := None |} Scenarios.not_found)
                "0x1" [] {| Nft.data := None |} eq_refl) as (Hiff & _ & _).
    exact (proj2 Hiff eq_refl).
  - split; [reflexivity|].
    destruct (nft_inspection_fails_only_without_data
                (Scenarios.nft_world {| Nft.data := Some Scenarios.bare_object |} Scenarios.not_found)
                "0x1" [] {| Nft.data := Some Scenarios.bare_object |} eq_refl)
      as (_ & _ & Hreport).
    destruct (Hreport Scenarios.bare_object eq_refl eq_refl) as (Hok & Hname & _).
    split; [exact Hok | exact Hname].
Defined.

Lemma launch_input_validation_witness :
  (Launch.inquirer_prompt
     (Scenarios.launch_world (Launch.with_symbol Scenarios.doge_answers "btc") ["doge.png"]
                             Scenarios.uploaded) []
   = Fulfilled (Launch.with_symbol Scenarios.doge_answers "btc") /\
   is_fulfilled
     (fst (Launch.MemeSchema_parseAsync
             (Scenarios.launch_world (Launch.with_symbol Scenarios.doge_answers "btc") ["doge.png"]
                                     Scenarios.uploaded)
             (Launch.with_symbol Scenarios.doge_answers "btc")
             [Launch.Prompt (Fulfilled (Launch.with_symbol Scenarios.doge_answers "btc"))]))
   = false) /\
  length (Launch.events_of
            (Launch.launchMeme
               (Scenarios.launch_world (Launch.with_symbol Scenarios.doge_answers "btc") ["doge.png"]
                                       Scenarios.uploaded)) []) = 2 /\
  is_fulfilled
    (fst (Launch.MemeSchema_parseAsync
            (Scenarios.launch_world Scenarios.doge_answers ["doge.png"] Scenarios.uploaded)
            Scenarios.doge_answers [])) = true.
Proof.
  split; [split; reflexivity|]. split.
  - destruct (launch_input_validation
                (Scenarios.launch_world (Launch.with_symbol Scenarios.doge_answers "btc")
                                        ["doge.png"] Scenarios.uploaded)
                (Launch.with_symbol Scenarios.doge_answers "btc") [])
      as (_ & _ & _ & _ & Hgate).
    destruct (Hgate eq_refl eq_refl) as (_ & Hevents).
    rewrite Hevents. reflexivity.
  - destruct (launch_input_validation
                (Scenarios.launch_world Scenarios.doge_answers ["doge.png"] Scenarios.uploaded)
                Scenarios.doge_answers [])
      as (Hiff & _).
    apply Hiff. split; [discriminate|]. split.
    + split; [cbn; lia|]. cbn. repeat constructor; cbn; lia.
    + split; [exists 1000%Q; repeat split; unfold Qle; cbn; lia|].
      split; [exists 5%Q; repeat split; unfold Qle; cbn; lia|]. reflexivity.
Defined.

Lemma schema_defaults_witness :
  fst (Launch.MemeSchema_parseAsync
         (Scenarios.launch_world Scenarios.doge_answers ["doge.png"] Scenarios.uploaded)
         Scenarios.doge_answers [])
    = Fulfilled (Launch.apply_defaults Scenarios.doge_answers) /\
  Launch.description (Launch.apply_defaults Scenarios.doge_answers) = "A meme NFT collection" /\
  Launch.network (Launch.apply_defaults Scenarios.doge_answers) = Launch.testnet /\
  Launch.royaltyBps (Launch.apply_defaults Scenarios.doge_answers) = Launch.Finite 5 /\
  fst (Launch.MemeSchema_parseAsync
         (Scenarios.launch_world Scenarios.doge_answers ["doge.png"] Scenarios.uploaded)
         (Launch.to_raw (Launch.apply_defaults Scenarios.doge_answers)) [])
    = Fulfilled (Launch.apply_defaults Scenarios.doge_answers).
Proof.
  destruct (schema_defaults
              (Scenarios.launch_world Scenarios.doge_answers ["doge.png"] Scenarios.uploaded)
              Scenarios.doge_answers (Launch.apply_defaults Scenarios.doge_answers) [] [])
    as (_ & _ & _ & _ & Hparsed).
  destruct (Hparsed eq_refl) as (Hd & Hn & Hr & Hagain).
  split; [reflexivity|].
  split; [exact (Hd eq_refl)|]. split; [exact (Hn eq_refl)|]. split; [exact (Hr eq_refl)|].
  exact (Hagain eq_refl).
Defined.

Lemma upload_failure_aborts_launch_witness :
  existsb Launch.is_upload_failure
    (Launch.events_of
       (Launch.launchMeme
          (Scenarios.launch_world Scenarios.doge_answers ["doge.png"] Scenarios.not_found)) [])
    = true /\
  is_fulfilled
    (fst (Launch.launchMeme
            (Scenarios.launch_world Scenarios.doge_answers ["doge.png"] Scenarios.not_found) []))
    = false /\
  existsb Launch.is_later_step
    (Launch.events_of
       (Launch.launchMeme
          (Scenarios.launch_world Scenarios.doge_answers ["doge.png"] Scenarios.not_found)) [])
    = false.
Proof.
  split; [reflexivity|].
  destruct (upload_failure_aborts_launch
              (Scenarios.launch_world Scenarios.doge_answers ["doge.png"] Scenarios.not_found)
              [] eq_refl) as (Hfail & Hnone & _).
  split; [exact Hfail | exact Hnone].
Defined.

Lemma launch_generates_project_witness :
  (Launch.inquirer_prompt
     (Scenarios.launch_world Scenarios.doge_answers ["doge.png"] Scenarios.uploaded) []
   = Fulfilled Scenarios.doge_answers /\
   In (Launch.ExecSync "sui move build" "/home/user/meme-doge" (Fulfilled "{}"))
      (Launch.events_of
         (Launch.launchMeme
            (Scenarios.launch_world Scenarios.doge_answers ["doge.png"] Scenarios.uploaded)) [])) /\
  map fst (Launch.written_files
             (Launch.events_of
                (Launch.launchMeme
                   (Scenarios.launch_world Scenarios.doge_answers ["doge.png"] Scenarios.uploaded))
                [])) =
    ["/home/user/meme-doge/Move.toml"; "/home/user/meme-doge/sources/meme.move"] /\
  Launch.created_dirs
    (Launch.events_of
       (Launch.launchMeme
          (Scenarios.launch_world Scenarios.doge_answers ["doge.png"] Scenarios.uploaded)) []) =
    ["/home/user/meme-doge"; "/home/user/meme-doge/sources"] /\
  includes (Launch.Move_toml (Launch.apply_defaults Scenarios.doge_answers)) "meme_doge" = true /\
  includes
    (Launch.generateMoveCode
       (Scenarios.launch_world Scenarios.doge_answers ["doge.png"] Scenarios.uploaded)
       (Launch.apply_defaults Scenarios.doge_answers) "https://walrus.gg/doge.png")
    "A meme NFT collection" = true /\
  In ("                (" +:+ dq +:+ "description" +:+ dq +:+ ", " +:+ dq +:+
      "Such wow, very 'coin'" +:+ dq +:+ "),")
     (Launch.Move_code_lines
        (Scenarios.launch_world Scenarios.described_answers ["doge.png"] Scenarios.uploaded)
        (Launch.apply_defaults Scenarios.described_answers) "https://walrus.gg/doge.png").
Proof.
  assert (Hbuilt : In (Launch.ExecSync "sui move build" "/home/user/meme-doge" (Fulfilled "{}"))
                      (Launch.events_of
                         (Launch.launchMeme
                            (Scenarios.launch_world Scenarios.doge_answers ["doge.png"]
                                                    Scenarios.uploaded)) []))
    by (do 11 right; left; reflexivity).
  split; [split; [reflexivity | exact Hbuilt]|].
  destruct (launch_generates_project
              (Scenarios.launch_world Scenarios.doge_answers ["doge.png"] Scenarios.uploaded)
              [] Scenarios.doge_answers eq_refl)
    as (Hforward & Hbackward & Htexts).
  destruct (Hbackward "/home/user/meme-doge" "{}" Hbuilt)
    as (_ & _ & data & authorization & res & _ & _ & Hwritten).
  destruct (Hforward "PNG" {| Launch.walrus_url := "https://walrus.gg/doge.png" |}
                     eq_refl (fun _ _ => eq_refl) (fun _ _ _ => eq_refl)
                     (fun _ => eq_refl) (fun _ _ _ => eq_refl))
    as ((Hdirs & _) & _).
  split; [rewrite Hwritten; reflexivity|].
  split; [exact Hdirs|].
  split; [exact (proj1 (Htexts EmptyString))|].
  destruct (Htexts "https://walrus.gg/doge.png") as (_ & _ & _ & _ & _ & Hdefault & _).
  split; [exact Hdefault|].
  destruct (launch_generates_project
              (Scenarios.launch_world Scenarios.described_answers ["doge.png"] Scenarios.uploaded)
              [] Scenarios.described_answers eq_refl)
    as (_ & _ & Htyped).
  destruct (Htyped "https://walrus.gg/doge.png") as (_ & _ & Hline & _).
  exact Hline.
Defined.

End Runs.

(* ===================================================================== *)
(** ** More on the account-inspection command                            *)
(* ===================================================================== *)

Section MoreCliProperties.
Context {Obj : Type} (w : Cli.World Obj).

(** X1: [resolveSuiName] sends exactly one request, to the resolve
    endpoint of the network.  It returns only a non-empty address, the one
    of the answer; everything else (a failed request, an answer without
    data or without an address, an empty address) is rejected as an
    [Error] whose message is 'Failed to resolve name: ' followed by the
    message of the cause, by 'No address returned' or by 'Unknown error':
    the cause itself is never rethrown. *)
Theorem resolveSuiName_outcome (nm : string) (n : Cli.NetworkName) (log : list (Cli.Event Obj)) :
  exists answer,
    answer = Cli.axios_get w log (Cli.resolve_target w nm n) /\
    snd (Cli.resolveSuiName w nm n log) =
      log ++ [Cli.AxiosGet (Cli.resolve_target w nm n) answer] /\
    match fst (Cli.resolveSuiName w nm n log) with
    | Fulfilled a =>
        truthy a = true /\
        exists other, answer = Fulfilled (Some {| Cli.address := Some a; Cli.name := other |})
    | Rejected e =>
        Cli.yields answer = None /\
        e = JsError ("Failed to resolve name: " +:+
                     match answer with
                     | Rejected (JsError m) => m
                     | Rejected NonError => "Unknown error"
                     | Fulfilled _ => "No address returned"
                     end)
    end.
Proof.
  eexists. split; [reflexivity|].
  unfold Cli.resolveSuiName, try_catch, bind, Cli.axios_get_call, call, Cli.resolve_target,
    throw, ret; cbv zeta.
  destruct (Cli.axios_get w log _) as [[[[a|] other]|]|[m|]]; cbn;
    try (split; [reflexivity|]; split; reflexivity).
  destruct a as [|c a]; cbn.
  - split; [reflexivity|]. split; reflexivity.
  - split; [reflexivity|]. split; [reflexivity|]. exists other. reflexivity.
Qed.

(** X2: an address that holds nothing anywhere is reported as not found:
    when the three balance queries succeed with an empty list, detection
    fails with 'Address not found on any supported network' after exactly
    these three queries, and writes no debug note, since no query
    failed. *)
Theorem detection_misses_empty_account (addr : string) (log : list (Cli.Event Obj)) :
  (forall h n, Cli.rpc_getAllBalances w h (Cli.client_of w n) addr = Fulfilled []) ->
  Cli.detectNetworkForAddress w addr log =
    (Rejected (JsError "Address not found on any supported network"),
     log ++ [ Cli.GetAllBalances (Cli.client_of w Cli.mainnet) addr (Fulfilled []);
              Cli.GetAllBalances (Cli.client_of w Cli.testnet) addr (Fulfilled []);
              Cli.GetAllBalances (Cli.client_of w Cli.devnet) addr (Fulfilled []) ]) /\
  Cli.debug_notes (Cli.events_of (Cli.detectNetworkForAddress w addr) log) = [].
Proof.
  intros Hempty.
  assert (Hrun : Cli.detectNetworkForAddress w addr log =
                 (Rejected (JsError "Address not found on any supported network"),
                  log ++ [ Cli.GetAllBalances (Cli.client_of w Cli.mainnet) addr (Fulfilled []);
                           Cli.GetAllBalances (Cli.client_of w Cli.testnet) addr (Fulfilled []);
                           Cli.GetAllBalances (Cli.client_of w Cli.devnet) addr (Fulfilled []) ])).
  { unfold Cli.detectNetworkForAddress, Cli.networksToCheck.
    rewrite detect_loop_cons; cbv zeta; rewrite Hempty.
    rewrite detect_loop_cons; cbv zeta; rewrite Hempty.
    rewrite detect_loop_cons; cbv zeta; rewrite Hempty.
    cbn [Cli.detect_loop]. unfold throw. rewrite <- !app_assoc. reflexivity. }
  split; [exact Hrun|].
  rewrite (cli_events_of_app _ _ _ (f_equal snd Hrun)). reflexivity.
Qed.

(** The events of a detection scan are balance queries and debug notes. *)
Lemma detect_loop_events (addr : string) (cands : list Cli.NetworkName) (log : list (Cli.Event Obj)) :
  exists tr,
    snd (Cli.detect_loop w addr cands log) = log ++ tr /\
    forallb Cli.is_detection_event tr = true.
Proof.
  revert log; induction cands as [|n rest IH]; intros log.
  - exists []. cbn. rewrite app_nil_r. split; reflexivity.
  - rewrite detect_loop_cons; cbv zeta.
    destruct (Cli.rpc_getAllBalances w log (Cli.client_of w n) addr) as [[|b bs]|e].
    + destruct (IH (log ++ [Cli.GetAllBalances (Cli.client_of w n) addr (Fulfilled [])]))
        as (tr & Hsnd & Hall).
      eexists (_ :: tr). rewrite Hsnd, <- app_assoc. split; [reflexivity|].
      cbn. exact Hall.
    + eexists [_]. split; reflexivity.
    + match goal with
      | |- context [Cli.detect_loop w addr rest ?l] => destruct (IH l) as (tr & Hsnd & Hall)
      end.
      eexists (_ :: _ :: tr). rewrite Hsnd, <- !app_assoc. split; [reflexivity|].
      cbn. exact Hall.
Qed.

(** The events of a resolution scan are requests and debug notes. *)
Lemma resolve_loop_events (nm : string) (nets : list Cli.NetworkName) (log : list (Cli.Event Obj)) :
  exists tr,
    snd (Cli.resolve_loop w nm nets log) = log ++ tr /\
    forallb Cli.is_resolution_event tr = true.
Proof.
  revert log; induction nets as [|n rest IH]; intros log.
  - exists []. cbn. rewrite app_nil_r. split; reflexivity.
  - rewrite resolve_loop_cons, resolve_probe_unfold; cbv zeta.
    destruct (Cli.yields _) as [a|].
    + eexists [_]. split; reflexivity.
    + match goal with
      | |- context [Cli.resolve_loop w nm rest ?l] => destruct (IH l) as (tr & Hsnd & Hall)
      end.
      eexists (_ :: _ :: tr). rewrite Hsnd, <- !app_assoc. split; [reflexivity|].
      cbn. exact Hall.
Qed.

Lemma report_lines_app (l1 l2 : list (Cli.Event Obj)) :
  Cli.report_lines (l1 ++ l2) = Cli.report_lines l1 ++ Cli.report_lines l2.
Proof. apply omap_app. Qed.

Lemma object_fetches_app (l1 l2 : list (Cli.Event Obj)) :
  Cli.object_fetches (l1 ++ l2) = Cli.object_fetches l1 ++ Cli.object_fetches l2.
Proof. apply omap_app. Qed.

Lemma http_requests_app (l1 l2 : list (Cli.Event Obj)) :
  Cli.http_requests (l1 ++ l2) = Cli.http_requests l1 ++ Cli.http_requests l2.
Proof. apply omap_app. Qed.

Lemma detection_events_quiet (tr : list (Cli.Event Obj)) :
  forallb Cli.is_detection_event tr = true ->
  Cli.report_lines tr = [] /\ Cli.object_fetches tr = [] /\ Cli.http_requests tr = [].
Proof.
  induction tr as [|ev tr IH]; [repeat split|].
  cbn [forallb]. rewrite andb_true_iff. intros [Hev Htr].
  destruct (IH Htr) as (H1 & H2 & H3).
  destruct ev; try discriminate; repeat split; assumption.
Qed.

Lemma resolution_events_quiet (tr : list (Cli.Event Obj)) :
  forallb Cli.is_resolution_event tr = true ->
  Cli.report_lines tr = [] /\ Cli.object_fetches tr = [] /\ Cli.balance_probes tr = [].
Proof.
  induction tr as [|ev tr IH]; [repeat split|].
  cbn [forallb]. rewrite andb_true_iff. intros [Hev Htr].
  destruct (IH Htr) as (H1 & H2 & H3).
  destruct ev; try discriminate; repeat split; assumption.
Qed.

(** The two first lines of the report are the network and the address. *)
Lemma print_account_report_lines (addr : string) (network : Cli.NetworkName)
      (accountInfo : Obj) (balances : list Cli.Balance) (reverseLookup : option string) :
  exists out rest,
    only_outputs (Cli.print_account_report w addr network accountInfo balances reverseLookup) out /\
    forallb Cli.is_output out = true /\
    Cli.report_lines out =
      (nl +:+ "Network: " +:+ Cli.NetworkName_to_string network) :: ("Address: " +:+ addr) :: rest.
Proof.
  unfold Cli.print_account_report.
  assert (Hrev : exists o, only_outputs
                   (if truthy_opt reverseLookup
                    then emit (Cli.ConsoleLog ("SuiNS Name: " +:+ or_else reverseLookup EmptyString))
                    else ret tt : Async (Cli.Event Obj) unit) o /\ forallb Cli.is_output o = true).
  { destruct (truthy_opt reverseLookup);
      [eexists; split; [apply only_outputs_emit|reflexivity]
      |eexists; split; [apply only_outputs_ret|reflexivity]]. }
  assert (Hbal : exists o, only_outputs
                   (match balances with
                    | [] => emit (Cli.ConsoleLog "No coins found")
                    | _ :: _ => Cli.print_balances balances
                    end : Async (Cli.Event Obj) unit) o /\ forallb Cli.is_output o = true).
  { destruct balances as [|b bs].
    - eexists; split; [apply only_outputs_emit|reflexivity].
    - eexists; split; [apply print_balances_outputs|].
      apply forallb_forall. intros ev Hin. apply in_map_iff in Hin as (b' & <- & _). reflexivity. }
  destruct Hrev as (o1 & H1 & F1), Hbal as (o2 & H2 & F2).
  eexists. eexists. split; [|split].
  - repeat first [ apply only_outputs_seq | apply only_outputs_emit | exact H1 | exact H2 ].
  - rewrite !forallb_app, F1, F2. reflexivity.
  - reflexivity.
Qed.

(** The name-resolution step: its events are those of a resolution scan;
    an identifier that is not a name is returned as it is, without any
    event. *)
Lemma resolve_identifier_events (identifier : string) (log : list (Cli.Event Obj)) :
  exists tr,
    snd (Cli.resolve_identifier w identifier log) = log ++ tr /\
    forallb Cli.is_resolution_event tr = true /\
    (Cli.isSuiNsName identifier = false ->
     tr = [] /\ fst (Cli.resolve_identifier w identifier log) = Fulfilled identifier).
Proof.
  unfold Cli.resolve_identifier.
  destruct (Cli.isSuiNsName identifier).
  - unfold bind, emit, ret, Cli.resolveSuiNameOnAllNetworks.
    match goal with
    | |- context [Cli.resolve_loop w identifier ?nets ?l] =>
        destruct (resolve_loop_events identifier nets l) as (tr & Hsnd & Hall);
        destruct (Cli.resolve_loop w identifier nets l) as [[a|e] l1]; cbn [snd] in Hsnd; subst l1
    end.
    + eexists. cbn [snd]. split; [rewrite <- !app_assoc; reflexivity|].
      split; [|discriminate].
      cbn [app forallb Cli.is_resolution_event andb]. rewrite forallb_app, Hall. reflexivity.
    + eexists. cbn [snd]. split; [rewrite <- !app_assoc; reflexivity|].
      split; [|discriminate]. cbn [app forallb Cli.is_resolution_event andb]. exact Hall.
  - exists []. unfold ret. cbn. rewrite app_nil_r. repeat split.
Qed.

(** The fetches and the report: lines are written to the console exactly
    when the three fetches succeed. *)
Lemma fetch_and_print_report (identifier addr : string) (n : Cli.NetworkName) (c : Cli.SuiClient)
      (log : list (Cli.Event Obj)) :
  exists tr,
    snd (Cli.fetch_and_print w identifier addr n c log) = log ++ tr /\
    match fst (Cli.fetch_and_print w identifier addr n c log) with
    | Fulfilled _ =>
        exists rest, Cli.report_lines tr =
                       (nl +:+ "Network: " +:+ Cli.NetworkName_to_string n)
                         :: ("Address: " +:+ addr) :: rest
    | Rejected _ => Cli.report_lines tr = []
    end.
Proof.
  unfold Cli.fetch_and_print, bind, emit, Cli.Promise_all3, Cli.getObject, Cli.getAllBalances, call.
  set (log0 := log ++ [_]).
  set (r1 := Cli.rpc_getObject w log0 c addr).
  set (log1 := log0 ++ [_]).
  set (r2 := Cli.rpc_getAllBalances w log1 c addr).
  set (log2 := log1 ++ [_]).
  assert (Hthird : exists r3 tr3,
             (if Cli.isSuiNsName identifier then ret (Some identifier)
              else Cli.checkForSuiNsName w addr n) log2 = (Fulfilled r3, log2 ++ tr3) /\
             Cli.report_lines tr3 = []).
  { destruct (Cli.isSuiNsName identifier).
    - exists (Some identifier), []. unfold ret. rewrite app_nil_r. split; reflexivity.
    - rewrite checkForSuiNsName_unfold; cbv zeta.
      destruct (Cli.axios_get w log2 _) as [data|e3].
      + eexists _, [_]. split; reflexivity.
      + eexists _, [_; _]. rewrite <- app_assoc. split; reflexivity. }
  destruct Hthird as (r3 & tr3 & -> & Hquiet).
  subst log2 log1 log0.
  destruct r1 as [info|e1], r2 as [bals|e2]; cbn [fst snd].
  2-4: eexists; (split; [rewrite <- !app_assoc; reflexivity|]);
       cbn [app]; unfold Cli.report_lines in *; cbn [omap list_omap Cli.report_line];
       exact Hquiet.
  destruct (print_account_report_lines addr n info bals r3) as (out & rest & Hout & _ & Hlines).
  rewrite Hout. cbn [fst snd].
  eexists. split; [rewrite <- !app_assoc; reflexivity|].
  exists rest.
  cbn [app]. unfold Cli.report_lines in *. cbn [omap list_omap Cli.report_line].
  rewrite omap_app, Hquiet. exact Hlines.
Qed.

(** The body of the command: lines are written to the console exactly
    when it succeeds. *)
Lemma getAccountInfo_body_report (identifier : string) (log : list (Cli.Event Obj)) :
  exists tr,
    snd (Cli.getAccountInfo_body w identifier log) = log ++ tr /\
    match fst (Cli.getAccountInfo_body w identifier log) with
    | Fulfilled _ => Cli.report_lines tr <> []
    | Rejected _ => Cli.report_lines tr = []
    end.
Proof.
  unfold Cli.getAccountInfo_body, bind.
  destruct (resolve_identifier_events identifier log) as (tr1 & Hsnd1 & Hall1 & _).
  destruct (resolution_events_quiet _ Hall1) as (Hq1 & _ & _).
  destruct (Cli.resolve_identifier w identifier log) as [[addr|e] l1]; cbn [snd] in Hsnd1; subst l1.
  2:{ exists tr1. split; [reflexivity | exact Hq1]. }
  unfold Cli.detectNetworkForAddress.
  destruct (detect_loop_events addr Cli.networksToCheck (log ++ tr1)) as (tr2 & Hsnd2 & Hall2).
  destruct (detection_events_quiet _ Hall2) as (Hq2 & _ & _).
  destruct (Cli.detect_loop w addr Cli.networksToCheck (log ++ tr1)) as [[[n c]|e] l2];
    cbn [snd] in Hsnd2; subst l2.
  2:{ exists (tr1 ++ tr2). rewrite app_assoc. split; [reflexivity|].
      rewrite report_lines_app, Hq1, Hq2. reflexivity. }
  destruct (fetch_and_print_report identifier addr n c ((log ++ tr1) ++ tr2)) as (tr3 & Hsnd3 & Hrep).
  exists (tr1 ++ tr2 ++ tr3). split; [rewrite Hsnd3, <- !app_assoc; reflexivity|].
  rewrite !report_lines_app, Hq1, Hq2.
  destruct (fst (Cli.fetch_and_print w identifier addr n c _)).
  - destruct Hrep as (rest & ->). discriminate.
  - exact Hrep.
Qed.

Lemma getAccountInfo_unfold (identifier : string) (log : list (Cli.Event Obj)) :
  Cli.getAccountInfo w identifier log =
  match Cli.getAccountInfo_body w identifier
          (log ++ [Cli.Spinner (Cli.SpinnerStart "Detecting account information...")]) with
  | (Fulfilled _, log') => (0%Z, log')
  | (Rejected error, log') =>
      (1%Z, log' ++ [Cli.Spinner (Cli.SpinnerFail (message_or_unknown error)); Cli.ProcessExit 1])
  end.
Proof. reflexivity. Qed.

(** X3: [getAccountInfo] ends with exit code 0 or 1.  It is 0 exactly when
    the report was written to the console, starting with the network and
    the address; otherwise not a single line of the report was written,
    and the last two things the command did were to fail the spinner and
    to exit with code 1. *)
Theorem getAccountInfo_exit_code (identifier : string) (log : list (Cli.Event Obj)) :
  let run := Cli.getAccountInfo w identifier log in
  let lines := Cli.report_lines (drop (length log) (snd run)) in
  (fst run = 0%Z /\ lines <> []) \/
  (fst run = 1%Z /\ lines = [] /\
   exists pre text,
     drop (length log) (snd run) =
       pre ++ [Cli.Spinner (Cli.SpinnerFail text); Cli.ProcessExit 1]).
Proof.
  cbv zeta. rewrite getAccountInfo_unfold.
  destruct (getAccountInfo_body_report identifier
              (log ++ [Cli.Spinner (Cli.SpinnerStart "Detecting account information...")]))
    as (tr & Hsnd & Hrep).
  destruct (Cli.getAccountInfo_body w identifier _) as [[[]|e] l]; cbn [fst snd] in *; subst l.
  - left. split; [reflexivity|].
    rewrite <- app_assoc, drop_app_length.
    cbn [app]. unfold Cli.report_lines in *. cbn [omap list_omap Cli.report_line]. exact Hrep.
  - right. split; [reflexivity|].
    rewrite <- !app_assoc, drop_app_length. split.
    + cbn [app]. unfold Cli.report_lines in *. cbn [omap list_omap Cli.report_line].
      rewrite omap_app, Hrep. reflexivity.
    + eexists (_ :: tr), _. reflexivity.
Qed.

Lemma resolve_target_inj (nm : string) (n1 n2 : Cli.NetworkName) :
  Cli.resolve_target w nm n1 = Cli.resolve_target w nm n2 -> n1 = n2.
Proof.
  unfold Cli.resolve_target.
  destruct n1, n2; cbn; intros H; try reflexivity; discriminate H.
Qed.

Lemma resolve_targets_NoDup (nm : string) (nets : list Cli.NetworkName) :
  List.NoDup nets -> List.NoDup (map (Cli.resolve_target w nm) nets).
Proof.
  induction 1 as [|n l Hnotin Hnd IH]; cbn; [apply List.NoDup_nil|].
  apply List.NoDup_cons; [|exact IH].
  intros Hin. apply in_map_iff in Hin as (n' & Heq & Hin').
  apply resolve_target_inj in Heq. subst n'. exact (Hnotin Hin').
Qed.

(** X4: during one resolution no endpoint is asked twice: the requests go
    to pairwise different addresses, at most four of them, and exactly
    four when the name is found nowhere. *)
Theorem resolution_asks_each_endpoint_once (nm : string) (log : list (Cli.Event Obj)) :
  let requests := Cli.http_requests (Cli.events_of (Cli.resolveSuiNameOnAllNetworks w nm) log) in
  List.NoDup (map fst requests) /\
  length requests <= 4 /\
  (is_fulfilled (fst (Cli.resolveSuiNameOnAllNetworks w nm log)) = false -> length requests = 4).
Proof.
  cbv zeta. unfold Cli.resolveSuiNameOnAllNetworks, Cli.NETWORKS_keys.
  destruct (resolve_loop_trace w nm [Cli.mainnet; Cli.testnet; Cli.devnet; Cli.localnet] log)
    as (tr & k & Hlog & _ & Hreqs & Hres).
  rewrite (cli_events_of_app _ _ _ Hlog).
  assert (Hlen : length (Cli.http_requests tr) =
                 length (take k [Cli.mainnet; Cli.testnet; Cli.devnet; Cli.localnet]))
    by (rewrite <- (length_map fst), Hreqs, length_map; reflexivity).
  split; [|split].
  - rewrite Hreqs.
    assert (Hnd : List.NoDup (take k [Cli.mainnet; Cli.testnet; Cli.devnet; Cli.localnet])).
    { destruct k as [|[|[|[|[|k]]]]]; cbn;
        repeat (apply List.NoDup_cons;
                [cbn; intros H; repeat (destruct H as [H|H]; try discriminate H); exact H|]);
        apply List.NoDup_nil. }
    exact (resolve_targets_NoDup nm _ Hnd).
  - rewrite Hlen. destruct k as [|[|[|[|[|k]]]]]; cbn; lia.
  - intros Hfail.
    destruct (fst (Cli.resolve_loop w nm _ log)) as [a|e]; [discriminate|].
    destruct Hres as (_ & -> & _). rewrite Hlen. reflexivity.
Qed.

(** X5: when nothing is found, the command says so and stops.  For an
    identifier that is not a name and an address that no network knows, it
    exits with code 1 after the three balance queries, with 'Address not
    found on any supported network' on the spinner, and fetches no object
    and asks no naming service.  For a name that no naming service knows,
    it exits with code 1 after the four lookups, with the aggregate
    message naming the name, and makes no balance query and fetches no
    object. *)
Theorem getAccountInfo_not_found (identifier : string) (log : list (Cli.Event Obj)) :
  let start := Cli.Spinner (Cli.SpinnerStart "Detecting account information...") in
  let resolving := Cli.Spinner (Cli.SpinnerText ("Resolving SuiNS name: " +:+ identifier)) in
  (Cli.isSuiNsName identifier = false ->
   is_fulfilled (fst (Cli.detectNetworkForAddress w identifier (log ++ [start]))) = false ->
   exists tr,
     Cli.getAccountInfo w identifier log =
       (1%Z, log ++ [start] ++ tr ++
             [ Cli.Spinner (Cli.SpinnerFail "Address not found on any supported network");
               Cli.ProcessExit 1 ]) /\
     length (Cli.balance_probes tr) = 3 /\
     Cli.object_fetches tr = [] /\ Cli.http_requests tr = []) /\
  (Cli.isSuiNsName identifier = true ->
   is_fulfilled (fst (Cli.resolveSuiNameOnAllNetworks w identifier (log ++ [start; resolving])))
     = false ->
   exists tr,
     Cli.getAccountInfo w identifier log =
       (1%Z, log ++ [start; resolving] ++ tr ++
             [ Cli.Spinner (Cli.SpinnerFail
                              ("SuiNS name " +:+ dq +:+ identifier +:+ dq +:+
                               " not found on any network"));
               Cli.ProcessExit 1 ]) /\
     length (Cli.http_requests tr) = 4 /\
     Cli.balance_probes tr = [] /\ Cli.object_fetches tr = []).
Proof.
  cbv zeta. split.
  - intros Hraw Hfail.
    rewrite getAccountInfo_unfold.
    unfold Cli.getAccountInfo_body, Cli.resolve_identifier. rewrite Hraw.
    unfold bind at 1, ret at 1. unfold bind at 1.
    unfold Cli.detectNetworkForAddress in *.
    match goal with
    | |- context [Cli.detect_loop w identifier ?cands ?l] =>
        destruct (detect_loop_trace w identifier cands l) as (tr & k & Hlog & Hprobes & Hres);
        destruct (detect_loop_events identifier cands l) as (tr' & Hlog' & Hall);
        destruct (Cli.detect_loop w identifier cands l) as [[[n c]|e] l1];
        cbn [fst snd] in *; [discriminate Hfail|]
    end.
    subst l1. apply app_inv_head in Hlog'. subst tr'.
    destruct Hres as (-> & -> & _).
    destruct (detection_events_quiet _ Hall) as (_ & Hobj & Hreq).
    exists tr. split; [rewrite <- !app_assoc; reflexivity|].
    split; [|split; assumption].
    rewrite <- (length_map fst), Hprobes. reflexivity.
  - intros Hname Hfail.
    rewrite getAccountInfo_unfold.
    unfold Cli.getAccountInfo_body, Cli.resolve_identifier. rewrite Hname.
    unfold bind at 1 2 3, emit at 1.
    unfold Cli.resolveSuiNameOnAllNetworks in *.
    rewrite <- app_assoc. cbn [app].
    match goal with
    | |- context [Cli.resolve_loop w identifier ?nets ?l] =>
        destruct (resolve_loop_trace w identifier nets l) as (tr & k & Hlog & Hnone & Hreqs & Hres);
        destruct (resolve_loop_events identifier nets l) as (tr' & Hlog' & Hall);
        destruct (Cli.resolve_loop w identifier nets l) as [[a|e] l1];
        cbn [fst snd] in *; [discriminate Hfail|]
    end.
    subst l1. apply app_inv_head in Hlog'. subst tr'.
    destruct Hres as (-> & -> & _).
    destruct (resolution_events_quiet _ Hall) as (_ & Hobj & _).
    exists tr. split; [rewrite <- !app_assoc; reflexivity|].
    split; [|split; assumption].
    rewrite <- (length_map fst), Hreqs. reflexivity.
Qed.

End MoreCliProperties.

(* ===================================================================== *)
(** ** More on the NFT inspector                                         *)
(* ===================================================================== *)

Section MoreNftProperties.
Context {MV : Type} (v : Nft.World MV).

(** X6: the attributes are the content fields whose key does not start
    with an underscore, in the order of the fields, each with the text of
    its value: so no attribute key starts with an underscore, and there
    are as many attributes as such fields. *)
Theorem collect_attributes_keeps_visible_fields (fields : list (string * MV)) :
  Nft.collect_attributes v fields =
    map (fun kv => (fst kv, Nft.render_value v (snd kv)))
        (List.filter (fun kv => negb (startsWith (fst kv) "_")) fields) /\
  Forall (fun kv => startsWith (fst kv) "_" = false) (Nft.collect_attributes v fields) /\
  length (Nft.collect_attributes v fields) <= length fields.
Proof.
  induction fields as [|[key value] rest (IH1 & IH2 & IH3)]; cbn [Nft.collect_attributes].
  - repeat split; [constructor | reflexivity].
  - cbn [List.filter fst snd].
    destruct (startsWith key "_") eqn:Hkey; cbn [negb].
    + repeat split; [exact IH1 | exact IH2 | cbn; lia].
    + repeat split.
      * cbn [map fst snd]. rewrite IH1. reflexivity.
      * constructor; [exact Hkey | exact IH2].
      * cbn; lia.
Qed.

(** The report, as lines. *)
Lemma print_details_prints (m : Nft.NftMetadata) :
  only_outputs (Nft.print_details m : Async (Nft.Event MV) unit)
               (map Nft.ConsoleLog (Nft.details_lines m)).
Proof.
  unfold Nft.print_details, Nft.details_lines.
  rewrite !map_app. cbn [map app].
  repeat (apply (only_outputs_seq _ _ [_] _ (only_outputs_emit _))).
  apply only_outputs_seq.
  { destruct (truthy_opt (Nft.description m)); [apply only_outputs_emit | apply only_outputs_ret]. }
  apply only_outputs_seq.
  { destruct (truthy_opt (Nft.imageUrl m)); [apply only_outputs_emit | apply only_outputs_ret]. }
  apply only_outputs_seq; [|apply only_outputs_emit].
  destruct (Nft.attributes m) as [[|a attrs]|]; try apply only_outputs_ret.
  cbn [map]. apply (only_outputs_seq _ _ [_] _ (only_outputs_emit _)).
  rewrite map_map.
  pose proof (print_attributes_outputs (MV := MV) (a :: attrs)) as H.
  cbn [map] in H. exact H.
Qed.

Lemma printed_log_lines (lines : list string) :
  Nft.printed (map Nft.ConsoleLog lines : list (Nft.Event MV)) = lines.
Proof. induction lines as [|l lines IH]; [reflexivity|]. cbn. f_equal. exact IH. Qed.

Lemma printed_cons_log (line : string) (tr : list (Nft.Event MV)) :
  Nft.printed (Nft.ConsoleLog line :: tr) = line :: Nft.printed tr.
Proof. reflexivity. Qed.

Lemma log_lines_no_call (lines : list string) :
  List.filter Nft.is_call (map Nft.ConsoleLog lines : list (Nft.Event MV)) = [].
Proof. induction lines as [|l lines IH]; [reflexivity | exact IH]. Qed.

(** The whole run, for an object that carries data. *)
Lemma getNftDetails_run (nftObjectId : string) (log : list (Nft.Event MV))
      (nftObject : Nft.SuiObjectResponse) (d : Nft.SuiObjectData) :
  let fetching := Nft.ConsoleLog (nl +:+ "Fetching details for NFT: " +:+ nftObjectId +:+ "...") in
  let rpc := Nft.getFullnodeUrl v "mainnet" in
  let got := Nft.GetObject rpc nftObjectId (Fulfilled nftObject) in
  let stats := Nft.axios_get v ((log ++ [fetching]) ++ [got]) (Nft.stats_target nftObjectId) in
  let asked := Nft.AxiosGet (Nft.stats_target nftObjectId) stats in
  Nft.rpc_getObject v (log ++ [fetching]) rpc nftObjectId = Fulfilled nftObject ->
  Nft.data nftObject = Some d ->
  Nft.getNftDetails v nftObjectId log =
    (Fulfilled tt,
     log ++ [fetching; got; asked] ++
     match stats with
     | Fulfilled response =>
         map Nft.ConsoleLog
             (Nft.details_lines (Nft.with_floor_price (Nft.onchain_metadata v d)
                                                      (Nft.stats_allTimeFloorPrice response)))
     | Rejected e =>
         Nft.ConsoleLog match e with
                        | JsError msg => "Could not fetch floor price data: " +:+ msg
                        | NonError => "Could not fetch floor price data"
                        end
           :: map Nft.ConsoleLog (Nft.details_lines (Nft.onchain_metadata v d))
     end).
Proof.
  cbv zeta. intros Hobj Hdata.
  rewrite getNftDetails_unfold; cbv zeta. rewrite Hobj, Hdata.
  rewrite enrich_floor_price_unfold; cbv zeta.
  destruct (Nft.axios_get v _ (Nft.stats_target nftObjectId)) as [response|e].
  - rewrite print_details_prints, <- !app_assoc. reflexivity.
  - rewrite print_details_prints, <- !app_assoc. reflexivity.
Qed.

(** X7: the exit code of the command.  When the node answers with an
    object that carries data the command ends with code 0 and writes
    nothing to the error stream.  When the answer carries no data it
    writes 'Error: NFT not found or data unavailable' and exits with code
    1, having only asked the node.  When the request to the node fails it
    writes 'Error: ' followed by the message of the failure ('Unknown
    error' for a failure that is not an [Error]) and exits with code 1. *)
Theorem getNftDetails_action_exit (nftObjectId : string) (log : list (Nft.Event MV)) :
  let fetching := Nft.ConsoleLog (nl +:+ "Fetching details for NFT: " +:+ nftObjectId +:+ "...") in
  let rpc := Nft.getFullnodeUrl v "mainnet" in
  match Nft.rpc_getObject v (log ++ [fetching]) rpc nftObjectId with
  | Fulfilled {| Nft.data := Some d |} =>
      fst (Nft.getNftDetails_action v nftObjectId log) = 0%Z /\
      forallb (fun ev => match ev with
                         | Nft.ConsoleError _ | Nft.ProcessExit _ => false
                         | _ => true
                         end)
              (drop (length log) (snd (Nft.getNftDetails_action v nftObjectId log))) = true
  | Fulfilled {| Nft.data := None |} =>
      Nft.getNftDetails_action v nftObjectId log =
        (1%Z, log ++ [ fetching;
                       Nft.GetObject rpc nftObjectId (Fulfilled {| Nft.data := None |});
                       Nft.ConsoleError "Error: NFT not found or data unavailable";
                       Nft.ProcessExit 1 ])
  | Rejected e =>
      Nft.getNftDetails_action v nftObjectId log =
        (1%Z, log ++ [ fetching;
                       Nft.GetObject rpc nftObjectId (Rejected e);
                       Nft.ConsoleError ("Error: " +:+ match e with
                                                       | JsError msg => msg
                                                       | NonError => "Unknown error"
                                                       end);
                       Nft.ProcessExit 1 ])
  end.
Proof.
  cbv zeta. unfold Nft.getNftDetails_action.
  destruct (Nft.rpc_getObject v _ _ nftObjectId) as [[[d|]]|e] eqn:Hobj.
  - pose proof (getNftDetails_run nftObjectId log _ d Hobj eq_refl) as Hrun; cbv zeta in Hrun.
    rewrite Hrun. split; [reflexivity|]. cbn [snd].
    rewrite drop_app_length. cbn [app forallb andb].
    destruct (Nft.axios_get v _ _) as [response|e]; cbn [forallb andb];
      apply forallb_forall; intros ev Hin;
      apply in_map_iff in Hin as (l & <- & _); reflexivity.
  - rewrite getNftDetails_unfold; cbv zeta. rewrite Hobj. cbn [Nft.data].
    rewrite <- !app_assoc. reflexivity.
  - rewrite getNftDetails_unfold; cbv zeta. rewrite Hobj.
    rewrite <- !app_assoc. destruct e; reflexivity.
Qed.

(** X8: the inspector always asks the node of mainnet, once, for the
    object it was given, before anything else; it asks the marketplace at
    most once, for the statistics of the same object, and only when the
    object carries data.  It makes no other call. *)
Theorem getNftDetails_calls (nftObjectId : string) (log : list (Nft.Event MV)) :
  let fetching := Nft.ConsoleLog (nl +:+ "Fetching details for NFT: " +:+ nftObjectId +:+ "...") in
  let rpc := Nft.getFullnodeUrl v "mainnet" in
  let answer := Nft.rpc_getObject v (log ++ [fetching]) rpc nftObjectId in
  let got := Nft.GetObject rpc nftObjectId answer in
  List.filter Nft.is_call (Nft.events_of (Nft.getNftDetails v nftObjectId) log) =
    match answer with
    | Fulfilled {| Nft.data := Some _ |} =>
        [ got;
          Nft.AxiosGet (Nft.stats_target nftObjectId)
            (Nft.axios_get v ((log ++ [fetching]) ++ [got]) (Nft.stats_target nftObjectId)) ]
    | _ => [got]
    end.
Proof.
  cbv zeta.
  destruct (Nft.rpc_getObject v _ _ nftObjectId) as [[[d|]]|e] eqn:Hobj.
  - pose proof (getNftDetails_run nftObjectId log _ d Hobj eq_refl) as Hrun; cbv zeta in Hrun.
    rewrite (nft_events_of_app _ _ _ (f_equal snd Hrun)).
    cbn [app List.filter Nft.is_call]. do 2 f_equal.
    destruct (Nft.axios_get v _ _) as [response|e]; cbn [List.filter Nft.is_call];
      apply log_lines_no_call.
  - assert (Hrun : snd (Nft.getNftDetails v nftObjectId log) = log ++ [_; _])
      by (rewrite getNftDetails_unfold; cbv zeta; rewrite Hobj, <- app_assoc; reflexivity).
    rewrite (nft_events_of_app _ _ _ Hrun). reflexivity.
  - assert (Hrun : snd (Nft.getNftDetails v nftObjectId log) = log ++ [_; _])
      by (rewrite getNftDetails_unfold; cbv zeta; rewrite Hobj, <- app_assoc; reflexivity).
    rewrite (nft_events_of_app _ _ _ Hrun). reflexivity.
Qed.

(** X9: what the report says of the name and of the floor price.  For an
    object that carries data, the run prints 'Name: ' followed by the name
    of the display data when there is one and it is not empty, and
    'Name: Not available' when the object has no display data, no name in
    it, or an empty name.  It prints the floor price the marketplace gave
    when it gave a non-empty one, and 'All Time Floor Price: Not
    available' when the request failed or the answer had none. *)
Theorem inspection_reports_name_and_floor_price
        (nftObjectId : string) (log : list (Nft.Event MV))
        (nftObject : Nft.SuiObjectResponse) (d : Nft.SuiObjectData) :
  let fetching := Nft.ConsoleLog (nl +:+ "Fetching details for NFT: " +:+ nftObjectId +:+ "...") in
  let rpc := Nft.getFullnodeUrl v "mainnet" in
  let stats := Nft.axios_get v ((log ++ [fetching]) ++
                                [Nft.GetObject rpc nftObjectId (Fulfilled nftObject)])
                             (Nft.stats_target nftObjectId) in
  let lines := Nft.printed (Nft.events_of (Nft.getNftDetails v nftObjectId) log) in
  let display_name := match Nft.display_of d with Some fields => fields !! "name" | None => None end in
  let floor_price := match stats with
                     | Fulfilled response => Nft.stats_allTimeFloorPrice response
                     | Rejected _ => None
                     end in
  Nft.rpc_getObject v (log ++ [fetching]) rpc nftObjectId = Fulfilled nftObject ->
  Nft.data nftObject = Some d ->
  (forall n, display_name = Some n -> n <> EmptyString -> In ("Name: " +:+ n) lines) /\
  (display_name = None \/ display_name = Some EmptyString -> In "Name: Not available" lines) /\
  (forall p, floor_price = Some p -> p <> EmptyString -> In ("All Time Floor Price: " +:+ p) lines) /\
  (floor_price = None \/ floor_price = Some EmptyString ->
   In "All Time Floor Price: Not available" lines).
Proof.
  cbv zeta. intros Hobj Hdata.
  pose proof (getNftDetails_run nftObjectId log nftObject d Hobj Hdata) as Hrun; cbv zeta in Hrun.
  rewrite (nft_events_of_app _ _ _ (f_equal snd Hrun)).
  set (stats := Nft.axios_get v _ (Nft.stats_target nftObjectId)) in *.
  assert (Hlines : forall l p,
             In l (Nft.details_lines (Nft.with_floor_price (Nft.onchain_metadata v d) p)) ->
             (match stats with
              | Fulfilled response => Nft.stats_allTimeFloorPrice response
              | Rejected _ => None
              end = p) ->
             In l (Nft.printed
                     ([Nft.ConsoleLog (nl +:+ "Fetching details for NFT: " +:+ nftObjectId +:+ "...");
                       Nft.GetObject (Nft.getFullnodeUrl v "mainnet") nftObjectId (Fulfilled nftObject);
                       Nft.AxiosGet (Nft.stats_target nftObjectId) stats] ++
                      match stats with
                      | Fulfilled response =>
                          map Nft.ConsoleLog
                              (Nft.details_lines
                                 (Nft.with_floor_price (Nft.onchain_metadata v d)
                                                       (Nft.stats_allTimeFloorPrice response)))
                      | Rejected e =>
                          Nft.ConsoleLog match e with
                                         | JsError msg => "Could not fetch floor price data: " +:+ msg
                                         | NonError => "Could not fetch floor price data"
                                         end
                            :: map Nft.ConsoleLog (Nft.details_lines (Nft.onchain_metadata v d))
                      end))).
  { intros l p Hin Hp. rewrite printed_app. apply in_or_app. right.
    destruct stats as [response|e].
    - subst p. rewrite printed_log_lines. exact Hin.
    - subst p. right. rewrite printed_log_lines. exact Hin. }
  assert (Hname : forall p, Nft.name (Nft.with_floor_price (Nft.onchain_metadata v d) p) =
                            match Nft.display_of d with
                            | Some fields => fields !! "name"
                            | None => None
                            end) by reflexivity.
  assert (Hfloor : forall p, Nft.allTimeFloorPrice
                               (Nft.with_floor_price (Nft.onchain_metadata v d) p) = p)
    by reflexivity.
  repeat split.
  - intros n Hn Hne. eapply Hlines; [|reflexivity].
    unfold Nft.details_lines. rewrite Hname, Hn. do 2 right. left.
    destruct n; [contradiction|reflexivity].
  - intros Hn. eapply Hlines; [|reflexivity].
    unfold Nft.details_lines. rewrite Hname. do 2 right. left.
    destruct Hn as [-> | ->]; reflexivity.
  - intros p Hp Hne. eapply Hlines; [|exact Hp].
    unfold Nft.details_lines. rewrite Hfloor. do 6 right. left.
    destruct p; [contradiction|reflexivity].
  - intros Hp. destruct Hp as [Hp|Hp]; (eapply Hlines; [|exact Hp]);
      unfold Nft.details_lines; rewrite Hfloor; do 6 right; left; reflexivity.
Qed.

Lemma collect_attributes_In (fields : list (string * MV)) (key text : string) :
  In (key, text) (Nft.collect_attributes v fields) ->
  exists value, In (key, value) fields /\ startsWith key "_" = false.
Proof.
  induction fields as [|[k value] rest IH]; cbn [Nft.collect_attributes]; [intros []|].
  destruct (startsWith k "_") eqn:Hk.
  - intros Hin. destruct (IH Hin) as (value' & Hin' & Hkey).
    exists value'. split; [right; exact Hin' | exact Hkey].
  - intros [Heq|Hin].
    + injection Heq as <- _. exists value. split; [left; reflexivity | exact Hk].
    + destruct (IH Hin) as (value' & Hin' & Hkey).
      exists value'. split; [right; exact Hin' | exact Hkey].
Qed.

Lemma collect_attributes_visible (fields : list (string * MV)) (key : string) (value : MV) :
  In (key, value) fields -> startsWith key "_" = false ->
  In (key, Nft.render_value v value) (Nft.collect_attributes v fields).
Proof.
  induction fields as [|[k value'] rest IH]; cbn [Nft.collect_attributes]; [intros []|].
  intros [Heq|Hin] Hkey.
  - injection Heq as -> ->. rewrite Hkey. left. reflexivity.
  - destruct (startsWith k "_"); [|right]; exact (IH Hin Hkey).
Qed.

(** The heading of the attributes is among the lines of a report exactly
    when the metadata has at least one attribute. *)
Lemma attributes_heading_iff (m : Nft.NftMetadata) :
  In (nl +:+ "Attributes:") (Nft.details_lines m) <->
  exists a attrs, Nft.attributes m = Some (a :: attrs).
Proof.
  unfold Nft.details_lines.
  split.
  - intros Hin.
    apply in_app_or in Hin as [Hin|Hin].
    { cbn in Hin. repeat (destruct Hin as [Hin|Hin]; try discriminate Hin). destruct Hin. }
    apply in_app_or in Hin as [Hin|Hin].
    { destruct (truthy_opt _); cbn in Hin;
        repeat (destruct Hin as [Hin|Hin]; try discriminate Hin); destruct Hin. }
    apply in_app_or in Hin as [Hin|Hin].
    { destruct (truthy_opt _); cbn in Hin;
        repeat (destruct Hin as [Hin|Hin]; try discriminate Hin); destruct Hin. }
    apply in_app_or in Hin as [Hin|Hin].
    2:{ cbn in Hin. repeat (destruct Hin as [Hin|Hin]; try discriminate Hin). destruct Hin. }
    destruct (Nft.attributes m) as [[|a attrs]|]; [destruct Hin | | destruct Hin].
    exists a, attrs. reflexivity.
  - intros (a & attrs & ->).
    apply in_or_app; right. apply in_or_app; right. apply in_or_app; right.
    apply in_or_app; left. left. reflexivity.
Qed.

(** X10: the report of an object that carries data has an 'Attributes:'
    section exactly when the content of the object has a field whose key
    does not start with an underscore: an object whose fields are all
    hidden gets none, like a package or an object without content,
    whatever the marketplace answers. *)
Theorem attributes_section_iff_visible_field
        (nftObjectId : string) (log : list (Nft.Event MV))
        (nftObject : Nft.SuiObjectResponse) (d : Nft.SuiObjectData) :
  let fetching := Nft.ConsoleLog (nl +:+ "Fetching details for NFT: " +:+ nftObjectId +:+ "...") in
  let rpc := Nft.getFullnodeUrl v "mainnet" in
  let lines := Nft.printed (Nft.events_of (Nft.getNftDetails v nftObjectId) log) in
  Nft.rpc_getObject v (log ++ [fetching]) rpc nftObjectId = Fulfilled nftObject ->
  Nft.data nftObject = Some d ->
  (In (nl +:+ "Attributes:") lines <->
   exists fields key value,
     Nft.data_content d = Some (Nft.MoveObject fields) /\
     In (key, value) fields /\ startsWith key "_" = false).
Proof.
  cbv zeta. intros Hobj Hdata.
  pose proof (getNftDetails_run nftObjectId log nftObject d Hobj Hdata) as Hrun; cbv zeta in Hrun.
  rewrite (nft_events_of_app _ _ _ (f_equal snd Hrun)).
  assert (Hattr : forall p, Nft.attributes (Nft.with_floor_price (Nft.onchain_metadata v d) p) =
                            match Nft.data_content d with
                            | Some (Nft.MoveObject fields) =>
                                Some (Nft.collect_attributes v fields)
                            | _ => None
                            end) by reflexivity.
  assert (Hsame : Nft.attributes (Nft.onchain_metadata v d) =
                  match Nft.data_content d with
                  | Some (Nft.MoveObject fields) => Some (Nft.collect_attributes v fields)
                  | _ => None
                  end) by reflexivity.
  assert (Hheading : In (nl +:+ "Attributes:")
                        (Nft.printed
                           ([Nft.ConsoleLog (nl +:+ "Fetching details for NFT: " +:+
                                             nftObjectId +:+ "...");
                             Nft.GetObject (Nft.getFullnodeUrl v "mainnet") nftObjectId
                                           (Fulfilled nftObject);
                             Nft.AxiosGet (Nft.stats_target nftObjectId)
                               (Nft.axios_get v
                                  ((log ++ [Nft.ConsoleLog (nl +:+ "Fetching details for NFT: " +:+
                                                            nftObjectId +:+ "...")]) ++
                                   [Nft.GetObject (Nft.getFullnodeUrl v "mainnet") nftObjectId
                                                  (Fulfilled nftObject)])
                                  (Nft.stats_target nftObjectId))] ++
                            match Nft.axios_get v
                                    ((log ++ [Nft.ConsoleLog (nl +:+ "Fetching details for NFT: " +:+
                                                              nftObjectId +:+ "...")]) ++
                                     [Nft.GetObject (Nft.getFullnodeUrl v "mainnet") nftObjectId
                                                    (Fulfilled nftObject)])
                                    (Nft.stats_target nftObjectId) with
                            | Fulfilled response =>
                                map Nft.ConsoleLog
                                    (Nft.details_lines
                                       (Nft.with_floor_price (Nft.onchain_metadata v d)
                                          (Nft.stats_allTimeFloorPrice response)))
                            | Rejected e =>
                                Nft.ConsoleLog match e with
                                               | JsError msg =>
                                                   "Could not fetch floor price data: " +:+ msg
                                               | NonError => "Could not fetch floor price data"
                                               end
                                  :: map Nft.ConsoleLog
                                         (Nft.details_lines (Nft.onchain_metadata v d))
                            end)) <->
                     exists a attrs,
                       match Nft.data_content d with
                       | Some (Nft.MoveObject fields) => Some (Nft.collect_attributes v fields)
                       | _ => None
                       end = Some (a :: attrs)).
  { rewrite printed_app.
    destruct (Nft.axios_get v _ (Nft.stats_target nftObjectId)) as [response|e].
    - rewrite printed_log_lines, <- (Hattr (Nft.stats_allTimeFloorPrice response)),
        <- attributes_heading_iff.
      split; [|intros H; apply in_or_app; right; exact H].
      intros H. apply in_app_or in H as [H|H]; [|exact H].
      cbn in H. destruct H as [H|[]]. discriminate H.
    - rewrite <- Hsame, <- attributes_heading_iff.
      split.
      + intros H. apply in_app_or in H as [H|H].
        * cbn in H. destruct H as [H|[]]. discriminate H.
        * rewrite printed_cons_log, printed_log_lines in H.
          destruct H as [H|H]; [|exact H].
          destruct e; discriminate H.
      + intros H. apply in_or_app; right.
        rewrite printed_cons_log, printed_log_lines. right. exact H. }
  rewrite Hheading. clear Hheading Hrun.
  split.
  - intros (a & attrs & Hsome).
    destruct (Nft.data_content d) as [[fields|]|]; try discriminate Hsome.
    injection Hsome as Hcollect. destruct a as [key text].
    assert (Hfirst : In (key, text) (Nft.collect_attributes v fields))
      by (rewrite Hcollect; left; reflexivity).
    destruct (collect_attributes_In fields key text Hfirst) as (value & Hfield & Hkey).
    exists fields, key, value. repeat split; assumption.
  - intros (fields & key & value & -> & Hfield & Hkey).
    pose proof (collect_attributes_visible fields key value Hfield Hkey) as Hin.
    destruct (Nft.collect_attributes v fields) as [|a attrs]; [destruct Hin|].
    exists a, attrs. reflexivity.
Qed.

End MoreNftProperties.

(* ===================================================================== *)
(** ** More on the launch orchestrator                                   *)
(* ===================================================================== *)

Section LowerCaseFacts.

Lemma lower_ascii_upper (c : ascii) :
  is_upper c = true -> nat_of_ascii (lower_ascii c) = nat_of_ascii c + 32.
Proof.
  intros Hc. unfold lower_ascii. rewrite Hc.
  unfold is_upper in Hc; cbv zeta in Hc.
  apply andb_true_iff in Hc as [_ Hhi]. apply Nat.leb_le in Hhi.
  apply nat_ascii_embedding. lia.
Qed.

Lemma lower_ascii_idempotent (c : ascii) : lower_ascii (lower_ascii c) = lower_ascii c.
Proof.
  destruct (is_upper c) eqn:Hc.
  - pose proof (lower_ascii_upper c Hc) as Hn.
    unfold lower_ascii at 1.
    assert (Hlow : is_upper (lower_ascii c) = false).
    { unfold is_upper; cbv zeta. rewrite Hn.
      unfold is_upper in Hc; cbv zeta in Hc.
      apply andb_true_iff in Hc as [Hlo _]. apply Nat.leb_le in Hlo.
      apply andb_false_iff. right. apply Nat.leb_gt. lia. }
    rewrite Hlow. reflexivity.
  - unfold lower_ascii. rewrite Hc, Hc. reflexivity.
Qed.

(** X17: what lower-casing does to an accepted symbol.  A symbol that
    matches the pattern is made of three to five letters 'A' to 'Z';
    lower-casing it gives as many letters, each the lower-case form of the
    letter at the same place, so three to five letters 'a' to 'z', and
    lower-casing the result again changes nothing.  Two accepted symbols
    with the same lower-case form are the same symbol: different symbols
    never share a project directory 'meme-...' or a package name
    'meme_...'. *)
Theorem toLowerCase_of_symbol (s : string) :
  Launch.symbol_regex s = true ->
  String.length (toLowerCase s) = String.length s /\
  3 <= String.length (toLowerCase s) <= 5 /\
  Forall2 (fun upper lower => 65 <= nat_of_ascii upper <= 90 /\
                              nat_of_ascii lower = nat_of_ascii upper + 32)
          (list_ascii_of_string s) (list_ascii_of_string (toLowerCase s)) /\
  Forall (fun c => 97 <= nat_of_ascii c <= 122) (list_ascii_of_string (toLowerCase s)) /\
  toLowerCase (toLowerCase s) = toLowerCase s /\
  (forall s', Launch.symbol_regex s' = true -> toLowerCase s' = toLowerCase s -> s' = s).
Proof.
  intros Hregex.
  pose proof Hregex as Hs. apply symbol_regex_spec in Hs as [Hlen Hupper].
  assert (Hsame : forall t, String.length (toLowerCase t) = String.length t)
    by (intros t; induction t as [|c t IH]; cbn; [reflexivity | f_equal; exact IH]).
  assert (Hpairs : forall t,
             Forall (fun c => 65 <= nat_of_ascii c <= 90) (list_ascii_of_string t) ->
             Forall2 (fun upper lower => 65 <= nat_of_ascii upper <= 90 /\
                                         nat_of_ascii lower = nat_of_ascii upper + 32)
                     (list_ascii_of_string t) (list_ascii_of_string (toLowerCase t))).
  { intros t Ht. induction t as [|c t IH]; cbn; [constructor|].
    inversion Ht as [|c' l' Hc Hrest]; subst.
    constructor; [|exact (IH Hrest)].
    split; [exact Hc|].
    apply lower_ascii_upper.
    unfold is_upper; cbv zeta. apply andb_true_iff. split; apply Nat.leb_le; lia. }
  split; [apply Hsame|].
  split; [rewrite Hsame; exact Hlen|].
  split; [exact (Hpairs s Hupper)|].
  split.
  { clear -Hupper. induction s as [|c s IH]; cbn; [constructor|].
    inversion Hupper as [|c' l' Hc Hrest]; subst.
    constructor; [|exact (IH Hrest)].
    assert (Hup : is_upper c = true)
      by (unfold is_upper; cbv zeta; apply andb_true_iff; split; apply Nat.leb_le; lia).
    rewrite (lower_ascii_upper c Hup). lia. }
  split.
  { clear. induction s as [|c s IH]; cbn; [reflexivity|].
    rewrite lower_ascii_idempotent, IH. reflexivity. }
  intros s' Hregex' Heq.
  apply symbol_regex_spec in Hregex' as [_ Hupper'].
  clear -Hupper Hupper' Heq Hpairs.
  revert s' Hupper' Heq.
  induction s as [|c s IH]; intros [|c' s'] Hupper' Heq; cbn in Heq;
    try discriminate Heq; [reflexivity|].
  injection Heq as Hc Hrest.
  inversion Hupper as [|x l Hx Hl]; subst.
  inversion Hupper' as [|x' l' Hx' Hl']; subst.
  f_equal.
  - assert (Hup : forall a, 65 <= nat_of_ascii a <= 90 -> is_upper a = true)
      by (intros a Ha; unfold is_upper; cbv zeta; apply andb_true_iff;
          split; apply Nat.leb_le; lia).
    pose proof (lower_ascii_upper c (Hup c Hx)) as H1.
    pose proof (lower_ascii_upper c' (Hup c' Hx')) as H2.
    rewrite Hc in H2.
    assert (Hnat : nat_of_ascii c' = nat_of_ascii c) by lia.
    rewrite <- (ascii_nat_embedding c'), <- (ascii_nat_embedding c), Hnat. reflexivity.
  - exact (IH Hl s' Hl' Hrest).
Qed.

End LowerCaseFacts.

Section MoreLaunchProperties.
Context {K : Type} (w : Launch.World K).

(** The deployment, by the environment and the answers received. *)
Lemma deployCollection_unfold (projectDir : string) (net : Launch.Network)
      (log : list Launch.Event) :
  Launch.deployCollection w projectDir net log =
  let missing := (Rejected (JsError "Missing SUI_PRIVATE_KEY in environment"), log) in
  match Launch.env w "SUI_PRIVATE_KEY" with
  | None => missing
  | Some key =>
      if truthy key then
        match Launch.Keypair_fromSecretKey w key with
        | Rejected e => (Rejected e, log)
        | Fulfilled keypair =>
            let dump := "sui move build --dump-bytecode-as-base64" in
            let r1 := Launch.execSync_run w log dump projectDir in
            let log1 := log ++ [Launch.ExecSync dump projectDir r1] in
            match r1 with
            | Rejected e => (Rejected e, log1)
            | Fulfilled stdout =>
                match Launch.JSON_parse w stdout with
                | Rejected e => (Rejected e, log1)
                | Fulfilled buildOutput =>
                    let rpc := Launch.getFullnodeUrl w net in
                    let signer := Launch.toSuiAddress w keypair in
                    let txb := {| Launch.publish_modules := Launch.modules buildOutput;
                                  Launch.publish_dependencies := Launch.dependencies buildOutput;
                                  Launch.upgradeCap_recipient :=
                                    Launch.TextEncoder_encode w signer |} in
                    let r2 := Launch.rpc_signAndExecute w log1 rpc txb signer in
                    let log2 := log1 ++ [Launch.SignAndExecute rpc txb signer r2] in
                    match r2 with
                    | Rejected e => (Rejected e, log2)
                    | Fulfilled result =>
                        (Fulfilled tt,
                         log2 ++
                         [ Launch.ConsoleLog
                             ("📦 Package ID: " +:+
                              match match Launch.objectChanges result with
                                    | Some changes => List.find Launch.is_published changes
                                    | None => None
                                    end with
                              | Some change =>
                                  Launch.with_default "undefined" (Launch.packageId change)
                              | None => "Unknown"
                              end);
                           Launch.ConsoleLog
                             ("🔗 Explorer: https://suiexplorer.com/txblock/" +:+
                              Launch.digest result +:+ "?network=" +:+
                              Launch.Network_to_string net) ])
                    end
                end
            end
        end
      else missing
  end.
Proof.
  unfold Launch.deployCollection, Launch.getKeypair, bind at 1; cbv zeta.
  destruct (Launch.env w "SUI_PRIVATE_KEY") as [key|]; [|reflexivity].
  destruct (truthy key); [|reflexivity].
  destruct (Launch.Keypair_fromSecretKey w key) as [keypair|e]; [|reflexivity].
  unfold ret at 1, bind at 1, Launch.execSync, call at 1.
  destruct (Launch.execSync_run w log _ projectDir) as [stdout|e]; [|reflexivity].
  unfold bind at 1.
  destruct (Launch.JSON_parse w stdout) as [buildOutput|e]; [|reflexivity].
  unfold bind at 1, call at 1.
  destruct (Launch.rpc_signAndExecute w _ _ _ _) as [result|e]; [|reflexivity].
  unfold bind, emit. rewrite <- !app_assoc. reflexivity.
Qed.

(** X13: a transaction is submitted only for what the compiler has just
    dumped.  Every transaction of a deployment goes to the node of the
    chosen network, is signed by the key pair derived from
    SUI_PRIVATE_KEY, and publishes the modules and dependencies parsed
    from the output of a successful 'sui move build
    --dump-bytecode-as-base64' run in the project directory; and there is
    at most one.  What it names as the recipient of the upgrade
    capability is not an address: it is the pure value made of the bytes
    that [TextEncoder.encode] gives for the text of the signer's
    address. *)
Theorem deployCollection_transaction (projectDir : string) (net : Launch.Network)
        (log : list Launch.Event) :
  let events := Launch.events_of (Launch.deployCollection w projectDir net) log in
  length (List.filter Launch.is_transaction events) <= 1 /\
  forall rpc tx signer answer,
    In (Launch.SignAndExecute rpc tx signer answer) events ->
    rpc = Launch.getFullnodeUrl w net /\
    exists key keypair stdout buildOutput,
      Launch.env w "SUI_PRIVATE_KEY" = Some key /\
      Launch.Keypair_fromSecretKey w key = Fulfilled keypair /\
      signer = Launch.toSuiAddress w keypair /\
      Launch.upgradeCap_recipient tx =
        Launch.TextEncoder_encode w (Launch.toSuiAddress w keypair) /\
      In (Launch.ExecSync "sui move build --dump-bytecode-as-base64" projectDir (Fulfilled stdout))
         events /\
      Launch.JSON_parse w stdout = Fulfilled buildOutput /\
      Launch.publish_modules tx = Launch.modules buildOutput /\
      Launch.publish_dependencies tx = Launch.dependencies buildOutput.
Proof.
  cbv zeta.
  pose proof (deployCollection_unfold projectDir net log) as Hrun; cbv zeta in Hrun.
  destruct (Launch.env w "SUI_PRIVATE_KEY") as [key|] eqn:Hkey.
  2:{ rewrite (launch_events_of_app _ _ []) by (rewrite Hrun, app_nil_r; reflexivity).
      split; [cbn; lia | intros ? ? ? ? []]. }
  destruct (truthy key).
  2:{ rewrite (launch_events_of_app _ _ []) by (rewrite Hrun, app_nil_r; reflexivity).
      split; [cbn; lia | intros ? ? ? ? []]. }
  destruct (Launch.Keypair_fromSecretKey w key) as [keypair|e] eqn:Hpair.
  2:{ rewrite (launch_events_of_app _ _ []) by (rewrite Hrun, app_nil_r; reflexivity).
      split; [cbn; lia | intros ? ? ? ? []]. }
  destruct (Launch.execSync_run w log _ projectDir) as [stdout|e].
  2:{ rewrite (launch_events_of_app _ _ [_]) by (rewrite Hrun; reflexivity).
      split; [cbn; lia | intros ? ? ? ? [H|[]]; discriminate H]. }
  destruct (Launch.JSON_parse w stdout) as [buildOutput|e] eqn:Hparse.
  2:{ rewrite (launch_events_of_app _ _ [_]) by (rewrite Hrun; reflexivity).
      split; [cbn; lia | intros ? ? ? ? [H|[]]; discriminate H]. }
  destruct (Launch.rpc_signAndExecute w _ _ _ _) as [result|e].
  - rewrite (launch_events_of_app _ _ [_; _; _; _])
      by (rewrite Hrun; cbn [snd]; rewrite <- !app_assoc; reflexivity).
    split; [cbn; lia|].
    intros rpc tx signer answer [H|[H|[H|[H|[]]]]]; try discriminate H.
    injection H as <- <- <- _.
    split; [reflexivity|].
    exists key, keypair, stdout, buildOutput.
    repeat split; try assumption; try reflexivity. left. reflexivity.
  - rewrite (launch_events_of_app _ _ [_; _])
      by (rewrite Hrun; cbn [snd]; rewrite <- !app_assoc; reflexivity).
    split; [cbn; lia|].
    intros rpc tx signer answer [H|[H|[]]]; try discriminate H.
    injection H as <- <- <- _.
    split; [reflexivity|].
    exists key, keypair, stdout, buildOutput.
    repeat split; try assumption; try reflexivity. left. reflexivity.
Qed.

(** X14: once the transaction has been executed the deployment succeeds
    whatever the node reports, and prints the package identifier and the
    explorer link of the transaction on the chosen network.  The
    identifier is the one of the first object change that is of type
    'published' and carries a package identifier; when the node reports no
    object changes, or none of this kind, 'Unknown' is printed instead. *)
Theorem deployCollection_reports_package (projectDir : string) (net : Launch.Network)
        (log : list Launch.Event) (rpc : string) (tx : Launch.Transaction) (signer : string)
        (result : Launch.TransactionResult) :
  let events := Launch.events_of (Launch.deployCollection w projectDir net) log in
  In (Launch.SignAndExecute rpc tx signer (Fulfilled result)) events ->
  fst (Launch.deployCollection w projectDir net log) = Fulfilled tt /\
  In (Launch.ConsoleLog ("🔗 Explorer: https://suiexplorer.com/txblock/" +:+
                         Launch.digest result +:+ "?network=" +:+ Launch.Network_to_string net))
     events /\
  (Launch.objectChanges result = None ->
   In (Launch.ConsoleLog "📦 Package ID: Unknown") events) /\
  (forall changes,
      Launch.objectChanges result = Some changes ->
      forallb (fun change => negb (Launch.is_published change)) changes = true ->
      In (Launch.ConsoleLog "📦 Package ID: Unknown") events) /\
  (forall before change after package,
      Launch.objectChanges result = Some (before ++ change :: after) ->
      forallb (fun c => negb (Launch.is_published c)) before = true ->
      Launch.change_type change = "published" ->
      Launch.packageId change = Some package ->
      In (Launch.ConsoleLog ("📦 Package ID: " +:+ package)) events).
Proof.
  cbv zeta.
  pose proof (deployCollection_unfold projectDir net log) as Hrun; cbv zeta in Hrun.
  destruct (Launch.env w "SUI_PRIVATE_KEY") as [key|].
  2:{ rewrite (launch_events_of_app _ _ []) by (rewrite Hrun, app_nil_r; reflexivity).
      intros []. }
  destruct (truthy key).
  2:{ rewrite (launch_events_of_app _ _ []) by (rewrite Hrun, app_nil_r; reflexivity).
      intros []. }
  destruct (Launch.Keypair_fromSecretKey w key) as [keypair|e].
  2:{ rewrite (launch_events_of_app _ _ []) by (rewrite Hrun, app_nil_r; reflexivity).
      intros []. }
  destruct (Launch.execSync_run w log _ projectDir) as [stdout|e].
  2:{ rewrite (launch_events_of_app _ _ [_]) by (rewrite Hrun; reflexivity).
      intros [H|[]]; discriminate H. }
  destruct (Launch.JSON_parse w stdout) as [buildOutput|e].
  2:{ rewrite (launch_events_of_app _ _ [_]) by (rewrite Hrun; reflexivity).
      intros [H|[]]; discriminate H. }
  destruct (Launch.rpc_signAndExecute w _ _ _ _) as [result'|e].
  2:{ rewrite (launch_events_of_app _ _ [_; _])
        by (rewrite Hrun; cbn [snd]; rewrite <- !app_assoc; reflexivity).
      intros [H|[H|[]]]; discriminate H. }
  rewrite (launch_events_of_app _ _ [_; _; _; _])
    by (rewrite Hrun; cbn [snd]; rewrite <- !app_assoc; reflexivity).
  intros [H|[H|[H|[H|[]]]]]; try discriminate H.
  injection H as _ _ _ ->.
  split; [rewrite Hrun; reflexivity|].
  split; [do 3 right; left; reflexivity|].
  split; [|split].
  - intros Hnone. rewrite Hnone. do 2 right. left. reflexivity.
  - intros changes Hsome Hall. rewrite Hsome.
    assert (Hfind : List.find Launch.is_published changes = None).
    { clear Hsome. induction changes as [|c changes IH]; [reflexivity|].
      cbn [forallb] in Hall. apply andb_true_iff in Hall as [Hc Hrest].
      cbn [List.find]. destruct (Launch.is_published c); [discriminate Hc | exact (IH Hrest)]. }
    rewrite Hfind. do 2 right. left. reflexivity.
  - intros before change after package Hsome Hbefore Htype Hpackage. rewrite Hsome.
    assert (Hfind : List.find Launch.is_published (before ++ change :: after) = Some change).
    { clear Hsome. induction before as [|c before IH].
      - cbn [app List.find]. unfold Launch.is_published. rewrite Htype, Hpackage. reflexivity.
      - cbn [forallb] in Hbefore. apply andb_true_iff in Hbefore as [Hc Hrest].
        cbn [app List.find]. destruct (Launch.is_published c); [discriminate Hc | exact (IH Hrest)]. }
    rewrite Hfind, Hpackage. do 2 right. left. reflexivity.
Qed.

(** X11: the upload does not check its credential.  With
    WALRUS_API_KEY unset and the image readable, the bytes read are still
    posted to the storage service, under the header 'Bearer undefined',
    and the outcome of the upload is the outcome of that request: the URL
    of the answer, or the failure of the request. *)
Theorem upload_without_api_key (filePath : string) (log : list Launch.Event) (data : string) :
  Launch.env w "WALRUS_API_KEY" = None ->
  Launch.fs_readFile w log filePath = Fulfilled data ->
  let answer := Launch.axios_post w (log ++ [Launch.FsReadFile filePath (Fulfilled data)])
                                  "https://api.walrus.gg/upload" data "Bearer undefined" in
  Launch.uploadToWalrus w filePath log =
    (match answer with
     | Fulfilled res => Fulfilled (Launch.walrus_url res)
     | Rejected e => Rejected e
     end,
     log ++ [ Launch.FsReadFile filePath (Fulfilled data);
              Launch.AxiosPost "https://api.walrus.gg/upload" data "Bearer undefined" answer ]).
Proof.
  intros Hkey Hread; cbv zeta.
  rewrite uploadToWalrus_unfold; cbv zeta. rewrite Hread, Hkey.
  cbn [Launch.with_default]. rewrite <- app_assoc. reflexivity.
Qed.

(** Writing the generated files, by the answers of the file system. *)
Lemma generateMoveFiles_unfold (projectDir : string) (config : Launch.MemeConfig)
      (imageUrl : string) (log : list Launch.Event) :
  Launch.generateMoveFiles w projectDir config imageUrl log =
  let sources := Launch.path_join w [projectDir; "sources"] in
  let manifest := Launch.path_join w [projectDir; "Move.toml"] in
  let source := Launch.path_join w [projectDir; "sources"; "meme.move"] in
  let r1 := Launch.fs_mkdir w log sources in
  let log1 := log ++ [Launch.FsMkdir sources r1] in
  match r1 with
  | Rejected e => (Rejected e, log1)
  | Fulfilled _ =>
      let r2 := Launch.fs_writeFile w log1 manifest (Launch.Move_toml config) in
      let log2 := log ++ [Launch.FsMkdir sources r1;
                          Launch.FsWriteFile manifest (Launch.Move_toml config) r2] in
      match r2 with
      | Rejected e => (Rejected e, log2)
      | Fulfilled _ =>
          let code := Launch.generateMoveCode w config imageUrl in
          let r3 := Launch.fs_writeFile w (log1 ++ [Launch.FsWriteFile manifest
                                                      (Launch.Move_toml config) r2])
                                        source code in
          (r3, log ++ [Launch.FsMkdir sources r1;
                       Launch.FsWriteFile manifest (Launch.Move_toml config) r2;
                       Launch.FsWriteFile source code r3])
      end
  end.
Proof.
  unfold Launch.generateMoveFiles, Launch.mkdir, Launch.writeFile, bind, call; cbv zeta.
  destruct (Launch.fs_mkdir w log _) as [[]|e1]; [|reflexivity].
  destruct (Launch.fs_writeFile w _ _ (Launch.Move_toml config)) as [[]|e2];
    cbn [fst snd]; rewrite <- ?app_assoc; reflexivity.
Qed.

(** X19: [generateMoveFiles] creates the directory of the sources, then
    writes the manifest, then the contract source, and stops at the first
    operation that fails: the files written are none, the manifest alone,
    or the manifest followed by the source; the call succeeds exactly in
    the last case; and a file is written only when the directory of the
    sources was created. *)
Theorem generateMoveFiles_stops_at_first_failure (projectDir : string)
        (config : Launch.MemeConfig) (imageUrl : string) (log : list Launch.Event) :
  let events := Launch.events_of (Launch.generateMoveFiles w projectDir config imageUrl) log in
  let manifest := (Launch.path_join w [projectDir; "Move.toml"], Launch.Move_toml config) in
  let source := (Launch.path_join w [projectDir; "sources"; "meme.move"],
                 Launch.generateMoveCode w config imageUrl) in
  exists k,
    Launch.written_files events = take k [manifest; source] /\
    (is_fulfilled (fst (Launch.generateMoveFiles w projectDir config imageUrl log)) = true <-> k = 2) /\
    (k = 0 \/ Launch.created_dirs events = [Launch.path_join w [projectDir; "sources"]]) /\
    1 <= length events <= 3.
Proof.
  cbv zeta.
  pose proof (generateMoveFiles_unfold projectDir config imageUrl log) as Hrun; cbv zeta in Hrun.
  destruct (Launch.fs_mkdir w log _) as [[]|e1].
  2:{ exists 0. rewrite (launch_events_of_app _ _ [_]) by (rewrite Hrun; reflexivity).
      rewrite Hrun. cbn. repeat split; try lia; try discriminate; auto. }
  destruct (Launch.fs_writeFile w _ _ (Launch.Move_toml config)) as [[]|e2].
  2:{ exists 0. rewrite (launch_events_of_app _ _ [_; _]) by (rewrite Hrun; reflexivity).
      rewrite Hrun. cbn. repeat split; try lia; try discriminate; auto. }
  rewrite (launch_events_of_app _ _ [_; _; _]) by (rewrite Hrun; reflexivity).
  rewrite Hrun. cbn [fst].
  destruct (Launch.fs_writeFile w _ _ (Launch.generateMoveCode w config imageUrl)) as [[]|e3].
  - exists 2. cbn. repeat split; try lia; try discriminate; auto.
  - exists 1. cbn. repeat split; try lia; try discriminate; auto.
Qed.

(** X18: the validators of the questions never throw and agree with the
    schema.  An empty name is answered with 'Name cannot be empty', a
    symbol that does not match the pattern with 'Must be 3-5 uppercase
    letters', and a path that cannot be accessed with 'File not found',
    after exactly one access check.  A record is accepted by the schema
    exactly when each of its fields passes the validator of its question,
    the access check being made again at that moment. *)
Theorem question_validators_agree_with_schema
        (default_message : Launch.ZodIssue -> string)
        (raw : Launch.RawAnswers) (log : list Launch.Event) :
  (Launch.validate_name default_message (Launch.raw_name raw) =
     if String.eqb (Launch.raw_name raw) EmptyString
     then Launch.Invalid "Name cannot be empty" else Launch.Valid) /\
  (Launch.validate_symbol default_message (Launch.raw_symbol raw) =
     if Launch.symbol_regex (Launch.raw_symbol raw)
     then Launch.Valid else Launch.Invalid "Must be 3-5 uppercase letters") /\
  (Launch.validate_imagePath w default_message (Launch.raw_imagePath raw) log =
     (Fulfilled (if is_fulfilled (Launch.fs_access w log (Launch.raw_imagePath raw))
                 then Launch.Valid else Launch.Invalid "File not found"),
      log ++ [Launch.FsAccess (Launch.raw_imagePath raw)
                (Launch.fs_access w log (Launch.raw_imagePath raw))])) /\
  (is_fulfilled (fst (Launch.MemeSchema_parseAsync w raw log)) = true <->
   Launch.validate_name default_message (Launch.raw_name raw) = Launch.Valid /\
   Launch.validate_symbol default_message (Launch.raw_symbol raw) = Launch.Valid /\
   fst (Launch.validate_imagePath w default_message (Launch.raw_imagePath raw) log)
     = Fulfilled Launch.Valid /\
   Launch.validate_totalSupply default_message (Launch.raw_totalSupply raw) = Launch.Valid /\
   Launch.validate_royaltyBps default_message
     (Launch.with_default Launch.royaltyBps_default (Launch.raw_royaltyBps raw)) = Launch.Valid).
Proof.
  assert (Hfirst : forall issues, Launch.first_error default_message issues = Launch.Valid <->
                                  issues = []).
  { intros [|i issues]; cbn; split; congruence. }
  assert (Himage : Launch.validate_imagePath w default_message (Launch.raw_imagePath raw) log =
                   (Fulfilled (if is_fulfilled (Launch.fs_access w log (Launch.raw_imagePath raw))
                               then Launch.Valid else Launch.Invalid "File not found"),
                    log ++ [Launch.FsAccess (Launch.raw_imagePath raw)
                              (Launch.fs_access w log (Launch.raw_imagePath raw))])).
  { unfold Launch.validate_imagePath, Launch.shape_imagePath, Launch.imagePath_refine,
      try_catch, bind, call, ret.
    destruct (Launch.fs_access w log (Launch.raw_imagePath raw)) as [[]|e]; reflexivity. }
  split; [|split; [|split; [exact Himage|]]].
  - unfold Launch.validate_name, Launch.shape_name.
    destruct (Launch.raw_name raw); reflexivity.
  - unfold Launch.validate_symbol, Launch.shape_symbol.
    destruct (Launch.symbol_regex (Launch.raw_symbol raw)); reflexivity.
  - rewrite parse_accepts_iff, Himage.
    unfold Launch.validate_name, Launch.validate_symbol, Launch.validate_totalSupply,
      Launch.validate_royaltyBps.
    rewrite !Hfirst. cbn [fst].
    assert (Hroyalty : Launch.shape_royaltyBps
                         (Some (Launch.with_default Launch.royaltyBps_default
                                                    (Launch.raw_royaltyBps raw))) =
                       Launch.shape_royaltyBps (Launch.raw_royaltyBps raw))
      by (destruct (Launch.raw_royaltyBps raw); reflexivity).
    rewrite Hroyalty.
    destruct (is_fulfilled (Launch.fs_access w log (Launch.raw_imagePath raw)));
      intuition congruence.
Qed.

Lemma compiler_runs_app (l1 l2 : list Launch.Event) :
  Launch.compiler_runs (l1 ++ l2) = Launch.compiler_runs l1 ++ Launch.compiler_runs l2.
Proof. apply omap_app. Qed.

Lemma transaction_outcomes_app (l1 l2 : list Launch.Event) :
  Launch.transaction_outcomes (l1 ++ l2) =
  Launch.transaction_outcomes l1 ++ Launch.transaction_outcomes l2.
Proof. apply omap_app. Qed.

Lemma created_dirs_app (l1 l2 : list Launch.Event) :
  Launch.created_dirs (l1 ++ l2) = Launch.created_dirs l1 ++ Launch.created_dirs l2.
Proof. apply omap_app. Qed.

Lemma compiler_runs_In (command dir : string) (answer : Settled string)
      (tr : list Launch.Event) :
  In (Launch.ExecSync command dir answer) tr ->
  In (command, dir, is_fulfilled answer) (Launch.compiler_runs tr).
Proof.
  induction tr as [|ev tr IH]; [intros []|].
  intros [->|Hin].
  - left. reflexivity.
  - unfold Launch.compiler_runs. cbn [omap list_omap].
    destruct (Launch.compiler_run ev); [right|]; exact (IH Hin).
Qed.

(** How far a deployment goes: the runs of the compiler, the
    transactions and the outcome. *)
Lemma deployCollection_summary (projectDir : string) (net : Launch.Network)
      (log : list Launch.Event) :
  let dump := "sui move build --dump-bytecode-as-base64" in
  let result := fst (Launch.deployCollection w projectDir net log) in
  exists trd,
    snd (Launch.deployCollection w projectDir net log) = log ++ trd /\
    Launch.created_dirs trd = [] /\
    In (Launch.compiler_runs trd, Launch.transaction_outcomes trd, is_fulfilled result)
       [ ([], [], false);
         ([(dump, projectDir, false)], [], false);
         ([(dump, projectDir, true)], [], false);
         ([(dump, projectDir, true)], [false], false);
         ([(dump, projectDir, true)], [true], true) ] /\
    ((Launch.env w "SUI_PRIVATE_KEY" = None \/ Launch.env w "SUI_PRIVATE_KEY" = Some EmptyString) -> trd = [] /\ result = Rejected (JsError "Missing SUI_PRIVATE_KEY in environment")).
Proof.
  cbv zeta. rewrite deployCollection_unfold; cbv zeta.
    destruct (Launch.env w "SUI_PRIVATE_KEY") as [key|].
  2:{ exists []. rewrite app_nil_r. repeat split. left. reflexivity. }
  destruct (truthy key) eqn:Htruthy.
  2:{ exists []. rewrite app_nil_r. repeat split. left. reflexivity. }
  assert (Hpresent : ~ (Some key = None \/ Some key = Some EmptyString)).
  { intros [H|H]; [discriminate H|]. injection H as ->. discriminate Htruthy. }
  destruct (Launch.Keypair_fromSecretKey w key) as [keypair|e].
  2:{ exists []. rewrite app_nil_r.
      split; [reflexivity|]. split; [reflexivity|]. split; [left; reflexivity|].
      intros H; destruct (Hpresent H). }
  destruct (Launch.execSync_run w log _ projectDir) as [stdout|e].
  2:{ eexists [_].
      split; [reflexivity|]. split; [reflexivity|]. split; [right; left; reflexivity|].
      intros H; destruct (Hpresent H). }
  destruct (Launch.JSON_parse w stdout) as [buildOutput|e].
  2:{ eexists [_].
      split; [reflexivity|]. split; [reflexivity|]. split; [do 2 right; left; reflexivity|].
      intros H; destruct (Hpresent H). }
  destruct (Launch.rpc_signAndExecute w _ _ _ _) as [result|e].
  - eexists [_; _; _; _]. cbn [fst snd]. rewrite <- !app_assoc.
    split; [reflexivity|]. split; [reflexivity|]. split; [do 4 right; left; reflexivity|].
    intros H; destruct (Hpresent H).
  - eexists [_; _]. cbn [fst snd]. rewrite <- !app_assoc.
    split; [reflexivity|]. split; [reflexivity|]. split; [do 3 right; left; reflexivity|].
    intros H; destruct (Hpresent H).
Qed.

(** What follows the upload, step by step. *)
Lemma generate_build_deploy_unfold (projectDir : string) (config : Launch.MemeConfig)
      (imageUrl : string) (log : list Launch.Event) :
  Launch.generate_build_deploy w projectDir config imageUrl log =
  match Launch.generateMoveFiles w projectDir config imageUrl log with
  | (Rejected e, log1) => (Rejected e, log1)
  | (Fulfilled _, log1) =>
      let r := Launch.execSync_run w (log1 ++ [Launch.ConsoleLog "🏗 Building Move package..."])
                                   "sui move build" projectDir in
      let log2 := log1 ++ [Launch.ConsoleLog "🏗 Building Move package...";
                           Launch.ExecSync "sui move build" projectDir r] in
      match r with
      | Rejected e => (Rejected e, log2)
      | Fulfilled _ =>
          match Launch.deployCollection w projectDir (Launch.network config)
                  (log2 ++ [Launch.ConsoleLog "🛰 Deploying to Sui..."]) with
          | (Rejected e, log3) => (Rejected e, log3)
          | (Fulfilled _, log3) =>
              (Fulfilled tt,
               log3 ++ [Launch.ConsoleLog (nl +:+ "🎉 Meme NFT launched successfully!");
                        Launch.ConsoleLog ("👉 Project directory: " +:+ projectDir)])
          end
      end
  end.
Proof.
  unfold Launch.generate_build_deploy, bind at 1.
  destruct (Launch.generateMoveFiles w projectDir config imageUrl log) as [[[]|e] log1];
    [|reflexivity].
  unfold bind at 1, emit at 1, bind at 1, Launch.execSync, call at 1; cbv zeta.
  rewrite <- !app_assoc. cbn [app].
  destruct (Launch.execSync_run w _ _ projectDir) as [out|e]; [|reflexivity].
  unfold bind at 1, emit at 1, bind at 1.
  rewrite <- !app_assoc. cbn [app].
  destruct (Launch.deployCollection w projectDir _ _) as [[[]|e] log3]; [|reflexivity].
  unfold bind, emit. rewrite <- !app_assoc. reflexivity.
Qed.

(** Writing the generated files runs no compiler and submits nothing. *)
Lemma generateMoveFiles_quiet (projectDir : string) (config : Launch.MemeConfig)
      (imageUrl : string) (log : list Launch.Event) :
  exists trg,
    snd (Launch.generateMoveFiles w projectDir config imageUrl log) = log ++ trg /\
    Launch.compiler_runs trg = [] /\ Launch.transaction_outcomes trg = [].
Proof.
  rewrite generateMoveFiles_unfold; cbv zeta.
  destruct (Launch.fs_mkdir w log _) as [[]|e1]; [|eexists; repeat split].
  destruct (Launch.fs_writeFile w _ _ (Launch.Move_toml config)) as [[]|e2];
    eexists; repeat split.
Qed.

(** How far the steps after the upload go. *)
Lemma generate_build_deploy_summary (projectDir : string) (config : Launch.MemeConfig)
      (imageUrl : string) (log : list Launch.Event) :
  let build := "sui move build" in
  let dump := "sui move build --dump-bytecode-as-base64" in
  let result := fst (Launch.generate_build_deploy w projectDir config imageUrl log) in
  exists tr,
    snd (Launch.generate_build_deploy w projectDir config imageUrl log) = log ++ tr /\
    In (Launch.compiler_runs tr, Launch.transaction_outcomes tr, is_fulfilled result)
       [ ([], [], false);
         ([(build, projectDir, false)], [], false);
         ([(build, projectDir, true)], [], false);
         ([(build, projectDir, true); (dump, projectDir, false)], [], false);
         ([(build, projectDir, true); (dump, projectDir, true)], [], false);
         ([(build, projectDir, true); (dump, projectDir, true)], [false], false);
         ([(build, projectDir, true); (dump, projectDir, true)], [true], true) ] /\
    (is_fulfilled result = true ->
     last tr = Some (Launch.ConsoleLog ("👉 Project directory: " +:+ projectDir))) /\
    ((Launch.env w "SUI_PRIVATE_KEY" = None \/ Launch.env w "SUI_PRIVATE_KEY" = Some EmptyString) ->
     Launch.compiler_runs tr = [(build, projectDir, true)] -> result = Rejected (JsError "Missing SUI_PRIVATE_KEY in environment")) /\
    ((Launch.env w "SUI_PRIVATE_KEY" = None \/ Launch.env w "SUI_PRIVATE_KEY" = Some EmptyString) -> length (Launch.compiler_runs tr) <= 1).
Proof.
  cbv zeta. rewrite generate_build_deploy_unfold; cbv zeta.
  destruct (generateMoveFiles_quiet projectDir config imageUrl log) as (trg & Hg & Hgc & Hgt).
  destruct (Launch.generateMoveFiles w projectDir config imageUrl log) as [[[]|e] log1];
    cbn [snd] in Hg; subst log1.
  2:{ exists trg. cbn [fst snd is_fulfilled]. rewrite Hgc, Hgt.
      repeat split; [left; reflexivity | discriminate | discriminate | cbn; lia]. }
  destruct (Launch.execSync_run w _ _ projectDir) as [out|e].
  2:{ eexists (trg ++ [_; _]). cbn [fst snd is_fulfilled].
      rewrite compiler_runs_app, transaction_outcomes_app, Hgc, Hgt.
      split; [rewrite <- app_assoc; reflexivity|].
      repeat split; [right; left; reflexivity | discriminate | discriminate | cbn; lia]. }
  match goal with
  | |- context [Launch.deployCollection w projectDir ?net ?l] =>
      destruct (deployCollection_summary projectDir net l) as (trd & Hd & _ & Hcases & Hkey);
      cbv zeta in Hcases, Hkey;
      destruct (Launch.deployCollection w projectDir net l) as [[[]|e] log3];
      cbn [fst snd is_fulfilled] in Hd, Hcases, Hkey; subst log3
  end.
  - eexists (trg ++ [_; _; _] ++ trd ++ [_; _]). cbn [fst snd is_fulfilled].
    split; [rewrite <- !app_assoc; reflexivity|].
    rewrite !compiler_runs_app, !transaction_outcomes_app, Hgc, Hgt.
    cbn [In] in Hcases.
    destruct Hcases as [H|[H|[H|[H|[H|[]]]]]]; try discriminate H.
    injection H as Hc Ht. rewrite <- Hc, <- Ht.
    repeat split.
    + do 6 right; left; reflexivity.
    + intros _.
      change [Launch.ConsoleLog (nl +:+ "🎉 Meme NFT launched successfully!");
              Launch.ConsoleLog ("👉 Project directory: " +:+ projectDir)]
        with ([Launch.ConsoleLog (nl +:+ "🎉 Meme NFT launched successfully!")] ++
              [Launch.ConsoleLog ("👉 Project directory: " +:+ projectDir)]).
      rewrite !app_assoc. apply last_snoc.
    + intros Hmissing. destruct (Hkey Hmissing) as [_ Habs]. discriminate Habs.
    + intros Hmissing. destruct (Hkey Hmissing) as [_ Habs]. discriminate Habs.
  - eexists (trg ++ [_; _; _] ++ trd). cbn [fst snd is_fulfilled].
    split; [rewrite <- !app_assoc; reflexivity|].
    rewrite !compiler_runs_app, !transaction_outcomes_app, Hgc, Hgt.
    cbn [In] in Hcases.
    repeat split.
    + destruct Hcases as [H|[H|[H|[H|[H|[]]]]]]; try discriminate H;
        injection H as Hc Ht; rewrite <- Hc, <- Ht.
      * do 2 right; left; reflexivity.
      * do 3 right; left; reflexivity.
      * do 4 right; left; reflexivity.
      * do 5 right; left; reflexivity.
    + discriminate.
    + intros Hmissing _. destruct (Hkey Hmissing) as [_ Herr]. exact Herr.
    + intros Hmissing. destruct (Hkey Hmissing) as [-> _]. cbn. lia.
Qed.

(** How far a launch goes.  Either it stops before the files are
    generated, or the user's answers were accepted and the runs of the
    compiler, the transactions and the outcome are one of seven
    combinations. *)
Lemma launch_summary (log : list Launch.Event) :
  let build := "sui move build" in
  let dump := "sui move build --dump-bytecode-as-base64" in
  let result := fst (Launch.launchMeme w log) in
  exists tr,
    snd (Launch.launchMeme w log) = log ++ tr /\
    ((Launch.compiler_runs tr = [] /\ Launch.transaction_outcomes tr = [] /\
      is_fulfilled result = false) \/
     exists raw,
       let projectDir :=
         Launch.path_join w [Launch.cwd w; "meme-" +:+ toLowerCase (Launch.raw_symbol raw)] in
       In (Launch.Prompt (Fulfilled raw)) tr /\
       In (Launch.compiler_runs tr, Launch.transaction_outcomes tr, is_fulfilled result)
          [ ([], [], false);
            ([(build, projectDir, false)], [], false);
            ([(build, projectDir, true)], [], false);
            ([(build, projectDir, true); (dump, projectDir, false)], [], false);
            ([(build, projectDir, true); (dump, projectDir, true)], [], false);
            ([(build, projectDir, true); (dump, projectDir, true)], [false], false);
            ([(build, projectDir, true); (dump, projectDir, true)], [true], true) ] /\
       (is_fulfilled result = true ->
        last tr = Some (Launch.ConsoleLog ("👉 Project directory: " +:+ projectDir))) /\
       ((Launch.env w "SUI_PRIVATE_KEY" = None \/ Launch.env w "SUI_PRIVATE_KEY" = Some EmptyString) ->
        Launch.compiler_runs tr = [(build, projectDir, true)] -> result = Rejected (JsError "Missing SUI_PRIVATE_KEY in environment")) /\
       ((Launch.env w "SUI_PRIVATE_KEY" = None \/ Launch.env w "SUI_PRIVATE_KEY" = Some EmptyString) -> length (Launch.compiler_runs tr) <= 1)).
Proof.
  cbv zeta. rewrite launchMeme_unfold; cbv zeta.
  destruct (Launch.inquirer_prompt w log) as [raw|e0].
  2:{ eexists; split; [reflexivity|]. left. repeat split. }
  rewrite MemeSchema_parseAsync_unfold; cbv zeta.
  match goal with
  | |- context [match ?issues with [] => _ | _ :: _ => _ end] => destruct issues
  end.
  2:{ cbn [fst snd]. eexists; split; [rewrite <- !app_assoc; reflexivity|].
      left. repeat split. }
  destruct (Launch.fs_mkdir w _ _) as [[]|e2].
  2:{ cbn [fst snd]. eexists; split; [rewrite <- !app_assoc; reflexivity|].
      left. repeat split. }
  rewrite uploadToWalrus_unfold; cbv zeta.
  destruct (Launch.fs_readFile w _ _) as [data|e3].
  2:{ cbn [fst snd]. eexists; split; [rewrite <- !app_assoc; reflexivity|].
      left. repeat split. }
  destruct (Launch.axios_post w _ _ data _) as [res|e4].
  2:{ cbn [fst snd]. eexists; split; [rewrite <- !app_assoc; reflexivity|].
      left. repeat split. }
  match goal with
  | |- context [Launch.generate_build_deploy w ?dir ?cfg ?u ?l] =>
      destruct (generate_build_deploy_summary dir cfg u l)
        as (tr' & Hsnd & Hcases & Hlast & Hkey1 & Hkey2);
      cbv zeta in Hcases, Hlast, Hkey1, Hkey2;
      destruct (Launch.generate_build_deploy w dir cfg u l) as [result logf]
  end.
  cbn [fst snd] in Hsnd, Hcases, Hlast, Hkey1, Hkey2 |- *. subst logf.
  eexists ([_; _; _; _; _; _; _] ++ tr').
  split; [rewrite <- !app_assoc; reflexivity|].
  right. exists raw. cbv zeta.
  rewrite compiler_runs_app, transaction_outcomes_app.
  change (Launch.compiler_runs [_; _; _; _; _; _; _]) with (@nil (string * string * bool)).
  change (Launch.transaction_outcomes [_; _; _; _; _; _; _]) with (@nil bool).
  cbn [app Launch.apply_defaults Launch.symbol] in *.
  split; [left; reflexivity|].
  split; [exact Hcases|].
  split; [|split; assumption].
  intros Hok. specialize (Hlast Hok).
  destruct tr' as [|ev tr']; [discriminate Hlast|].
  exact Hlast.
Qed.

(** X15: the compiler is run at most twice, in the project directory
    named after the lower-cased symbol of the answers: first the plain
    build, then, only if it succeeded, the build that dumps the bytecode.
    A failed run ends the launch: the workflow fails and no transaction is
    submitted. *)
Theorem launch_runs_compiler_in_order (log : list Launch.Event) :
  let build := "sui move build" in
  let dump := "sui move build --dump-bytecode-as-base64" in
  let events := Launch.events_of (Launch.launchMeme w) log in
  exists projectDir,
    (Launch.compiler_runs events <> [] ->
     exists raw,
       In (Launch.Prompt (Fulfilled raw)) events /\
       projectDir =
         Launch.path_join w [Launch.cwd w; "meme-" +:+ toLowerCase (Launch.raw_symbol raw)]) /\
    (Launch.compiler_runs events = [] \/
     Launch.compiler_runs events = [(build, projectDir, false)] \/
     Launch.compiler_runs events = [(build, projectDir, true)] \/
     Launch.compiler_runs events = [(build, projectDir, true); (dump, projectDir, false)] \/
     Launch.compiler_runs events = [(build, projectDir, true); (dump, projectDir, true)]) /\
    (forall command dir, In (command, dir, false) (Launch.compiler_runs events) ->
       is_fulfilled (fst (Launch.launchMeme w log)) = false /\
       Launch.transaction_outcomes events = []).
Proof.
  cbv zeta.
  destruct (launch_summary log) as (tr & Hsnd & Hcases); cbv zeta in Hcases.
  rewrite (launch_events_of_app _ _ _ Hsnd).
  destruct Hcases as [(Hc & Ht & Hok) | (raw & Hprompt & Hcases & _)].
  - exists EmptyString. rewrite Hc.
    split; [intros H; destruct (H eq_refl)|].
    split; [left; reflexivity|]. intros ? ? [].
  - eexists. split; [intros _; exists raw; split; [exact Hprompt | reflexivity]|].
    cbn [In] in Hcases.
    destruct Hcases as [H|[H|[H|[H|[H|[H|[H|[]]]]]]]];
      injection H as Hc Ht Hok; rewrite <- Hc, <- Ht, <- Hok.
    + split; [left; reflexivity|]. intros ? ? [].
    + split; [right; left; reflexivity|]. intros ? ? _. split; reflexivity.
    + split; [do 2 right; left; reflexivity|]. intros ? ? _. split; reflexivity.
    + split; [do 3 right; left; reflexivity|]. intros ? ? _. split; reflexivity.
    + split; [do 4 right; reflexivity|]. intros ? ? _. split; reflexivity.
    + split; [do 4 right; reflexivity|]. intros ? ? [H|[H|[]]]; discriminate H.
    + split; [do 4 right; reflexivity|]. intros ? ? [H|[H|[]]]; discriminate H.
Qed.

(** X16: a launch succeeds exactly when its transaction was executed.
    At most one transaction is submitted, and only after both runs of the
    compiler succeeded; the workflow is fulfilled if and only if the node
    executed that transaction; and the last line printed by a successful
    launch names the project directory in which the compiler was run. *)
Theorem launch_succeeds_iff_transaction_executed (log : list Launch.Event) :
  let build := "sui move build" in
  let dump := "sui move build --dump-bytecode-as-base64" in
  let events := Launch.events_of (Launch.launchMeme w) log in
  let ok := is_fulfilled (fst (Launch.launchMeme w log)) in
  (ok = true <-> Launch.transaction_outcomes events = [true]) /\
  length (Launch.transaction_outcomes events) <= 1 /\
  (Launch.transaction_outcomes events <> [] ->
   exists projectDir,
     Launch.compiler_runs events = [(build, projectDir, true); (dump, projectDir, true)] /\
     (ok = true ->
      last events = Some (Launch.ConsoleLog ("👉 Project directory: " +:+ projectDir)))).
Proof.
  cbv zeta.
  destruct (launch_summary log) as (tr & Hsnd & Hcases); cbv zeta in Hcases.
  rewrite (launch_events_of_app _ _ _ Hsnd).
  destruct Hcases as [(Hc & Ht & Hok) | (raw & Hprompt & Hcases & Hlast & _)].
  - rewrite Ht, Hok. repeat split; try discriminate; [cbn; lia|].
    intros H; destruct (H eq_refl).
  - cbn [In] in Hcases.
    destruct Hcases as [H|[H|[H|[H|[H|[H|[H|[]]]]]]]];
      injection H as Hc Ht Hok; rewrite <- Hc, <- Ht; rewrite <- Hok in Hlast |- *;
      (split; [split; intros H; try discriminate H; reflexivity|]);
      (split; [cbn; lia|]);
      intros Hsome; try (destruct (Hsome eq_refl));
      eexists; (split; [reflexivity|]).
    + discriminate.
    + exact Hlast.
Qed.

(** X12: the private key is asked for last.  With SUI_PRIVATE_KEY unset
    or empty a launch never succeeds and never submits a transaction, but
    it fails only at the deployment: the only command it may run is the
    plain build, and when that build succeeded (the image has then been
    uploaded and the project written) the workflow fails with 'Missing
    SUI_PRIVATE_KEY in environment'. *)
Theorem launch_without_private_key (log : list Launch.Event) :
  let events := Launch.events_of (Launch.launchMeme w) log in
  Launch.env w "SUI_PRIVATE_KEY" = None \/ Launch.env w "SUI_PRIVATE_KEY" = Some EmptyString ->
  is_fulfilled (fst (Launch.launchMeme w log)) = false /\
  Launch.transaction_outcomes events = [] /\
  (forall command dir answer,
      In (Launch.ExecSync command dir answer) events -> command = "sui move build") /\
  (forall dir out,
      In (Launch.ExecSync "sui move build" dir (Fulfilled out)) events ->
      fst (Launch.launchMeme w log) =
        Rejected (JsError "Missing SUI_PRIVATE_KEY in environment")).
Proof.
  cbv zeta. intros Hmissing.
  destruct (launch_summary log) as (tr & Hsnd & Hcases); cbv zeta in Hcases.
  rewrite (launch_events_of_app _ _ _ Hsnd).
  destruct Hcases as [(Hc & Ht & Hok) | (raw & Hprompt & Hcases & _ & Hkey1 & Hkey2)].
  - split; [exact Hok|]. split; [exact Ht|].
    split; [intros ? ? ? Hin | intros ? ? Hin];
      apply compiler_runs_In in Hin; rewrite Hc in Hin; destruct Hin.
  - specialize (Hkey1 Hmissing). specialize (Hkey2 Hmissing).
    cbn [In] in Hcases.
    destruct Hcases as [H|[H|[H|[H|[H|[H|[H|[]]]]]]]];
      injection H as Hc Ht Hok; rewrite <- Hc in Hkey1, Hkey2;
      try (cbn in Hkey2; lia);
      (split; [symmetry; exact Hok|]); (split; [symmetry; exact Ht|]).
    + split; [intros ? ? ? Hin | intros ? ? Hin];
        apply compiler_runs_In in Hin; rewrite <- Hc in Hin; destruct Hin.
    + split.
      * intros ? ? ? Hin; apply compiler_runs_In in Hin; rewrite <- Hc in Hin.
        destruct Hin as [H|[]]. injection H as <- _ _. reflexivity.
      * intros ? ? Hin; apply compiler_runs_In in Hin; rewrite <- Hc in Hin.
        destruct Hin as [H|[]]. discriminate H.
    + split.
      * intros ? ? ? Hin; apply compiler_runs_In in Hin; rewrite <- Hc in Hin.
        destruct Hin as [H|[]]. injection H as <- _ _. reflexivity.
      * intros ? ? _. exact (Hkey1 eq_refl).
Qed.

(** The steps after the upload read no file. *)
Lemma generate_build_deploy_reads_nothing (projectDir : string) (config : Launch.MemeConfig)
      (imageUrl : string) (log : list Launch.Event) :
  exists tr,
    snd (Launch.generate_build_deploy w projectDir config imageUrl log) = log ++ tr /\
    existsb Launch.is_upload_failure tr = false /\
    forall file answer, ~ In (Launch.FsReadFile file answer) tr.
Proof.
  destruct (generate_build_deploy_trace w projectDir config imageUrl log) as (tr & Hsnd & Hup & _).
  exists tr. split; [exact Hsnd|]. split; [exact Hup|].
  intros file answer Hin.
  rewrite generate_build_deploy_unfold, generateMoveFiles_unfold in Hsnd; cbv zeta in Hsnd.
  destruct (Launch.fs_mkdir w log _) as [[]|e1].
  2:{ cbn [snd] in Hsnd. apply app_inv_head in Hsnd. subst tr.
      destruct Hin as [H|[]]; discriminate H. }
  destruct (Launch.fs_writeFile w _ _ (Launch.Move_toml config)) as [[]|e2].
  2:{ cbn [snd] in Hsnd. apply app_inv_head in Hsnd. subst tr.
      destruct Hin as [H|[H|[]]]; discriminate H. }
  destruct (Launch.fs_writeFile w _ _ (Launch.generateMoveCode w config imageUrl)) as [[]|e3].
  2:{ cbn [snd] in Hsnd. apply app_inv_head in Hsnd. subst tr.
      destruct Hin as [H|[H|[H|[]]]]; discriminate H. }
  destruct (Launch.execSync_run w _ _ projectDir) as [out|e4].
  2:{ cbn [snd] in Hsnd. rewrite <- app_assoc in Hsnd. apply app_inv_head in Hsnd. subst tr.
      destruct Hin as [H|[H|[H|[H|[H|[]]]]]]; discriminate H. }
  match type of Hsnd with
  | context [Launch.deployCollection w projectDir ?net ?l] =>
      destruct (deployCollection_trace w projectDir net l) as (trd & Hd & Hsteps);
      destruct (Launch.deployCollection w projectDir net l) as [[[]|e5] logd];
      cbn [snd] in Hd, Hsnd; rewrite Hd in Hsnd; clear Hd
  end;
    destruct (deploy_steps_facts _ Hsteps) as (_ & _ & _ & Hall);
    rewrite <- !app_assoc in Hsnd; apply app_inv_head in Hsnd; subst tr;
    cbn [app In] in Hin;
    destruct Hin as [H|[H|[H|[H|[H|[H|Hin]]]]]]; try discriminate H.
  - apply in_app_or in Hin as [Hin|[H|[H|[]]]]; try discriminate H.
    apply Hall in Hin. discriminate Hin.
  - apply Hall in Hin. discriminate Hin.
Qed.

(** X20: the project directory is created before the upload is
    attempted.  Whenever the image is read, it is the image of the
    answers that were given, and the first directory created is the
    project directory named after their lower-cased symbol; so an upload
    that fails leaves that directory behind, and it is the only one
    created. *)
Theorem project_directory_precedes_upload (log : list Launch.Event) :
  let events := Launch.events_of (Launch.launchMeme w) log in
  forall file answer,
    In (Launch.FsReadFile file answer) events ->
    exists raw,
      let projectDir :=
        Launch.path_join w [Launch.cwd w; "meme-" +:+ toLowerCase (Launch.raw_symbol raw)] in
      In (Launch.Prompt (Fulfilled raw)) events /\
      file = Launch.raw_imagePath raw /\
      head (Launch.created_dirs events) = Some projectDir /\
      (existsb Launch.is_upload_failure events = true ->
       Launch.created_dirs events = [projectDir]).
Proof.
  cbv zeta. intros file answer.
  pose proof (launchMeme_unfold w log) as Hrun; cbv zeta in Hrun.
  destruct (Launch.inquirer_prompt w log) as [raw|e0].
  2:{ rewrite (launch_events_of_app _ _ [_]) by (rewrite Hrun; reflexivity).
      intros [H|[]]; discriminate H. }
  rewrite MemeSchema_parseAsync_unfold in Hrun; cbv zeta in Hrun.
  match type of Hrun with
  | context [match ?issues with [] => _ | _ :: _ => _ end] => destruct issues
  end.
  2:{ rewrite (launch_events_of_app _ _ [_; _])
        by (rewrite Hrun; cbn [snd]; rewrite <- !app_assoc; reflexivity).
      intros [H|[H|[]]]; discriminate H. }
  destruct (Launch.fs_mkdir w _ _) as [[]|e2].
  2:{ rewrite (launch_events_of_app _ _ [_; _; _])
        by (rewrite Hrun; cbn [snd]; rewrite <- !app_assoc; reflexivity).
      intros [H|[H|[H|[]]]]; discriminate H. }
  rewrite uploadToWalrus_unfold in Hrun; cbv zeta in Hrun.
  destruct (Launch.fs_readFile w _ _) as [data|e3].
  2:{ rewrite (launch_events_of_app _ _ [_; _; _; _; _; _])
        by (rewrite Hrun; cbn [snd]; rewrite <- !app_assoc; reflexivity).
      intros [H|[H|[H|[H|[H|[H|[]]]]]]]; try discriminate H.
      injection H as <- _. exists raw. cbv zeta.
      split; [left; reflexivity|]. repeat split. }
  destruct (Launch.axios_post w _ _ data _) as [res|e4].
  2:{ rewrite (launch_events_of_app _ _ [_; _; _; _; _; _; _])
        by (rewrite Hrun; cbn [snd]; rewrite <- !app_assoc; reflexivity).
      intros [H|[H|[H|[H|[H|[H|[H|[]]]]]]]]; try discriminate H.
      injection H as <- _. exists raw. cbv zeta.
      split; [left; reflexivity|]. repeat split. }
  match type of Hrun with
  | context [Launch.generate_build_deploy w ?dir ?cfg ?u ?l] =>
      destruct (generate_build_deploy_reads_nothing dir cfg u l) as (tr' & Hsnd & Hup & Hnone)
  end.
  rewrite (launch_events_of_app _ _ ([_; _; _; _; _; _; _] ++ tr'))
    by (rewrite Hrun, Hsnd; rewrite <- !app_assoc; reflexivity).
  intros Hin. apply in_app_or in Hin as [Hin|Hin]; [|destruct (Hnone _ _ Hin)].
  destruct Hin as [H|[H|[H|[H|[H|[H|[H|[]]]]]]]]; try discriminate H.
  injection H as <- _. exists raw. cbv zeta.
  split; [left; reflexivity|]. split; [reflexivity|].
  split; [reflexivity|].
  rewrite upload_failure_app, Hup. intros H; discriminate H.
Qed.

End MoreLaunchProperties.

(* ===================================================================== *)
(** ** More runs                                                         *)
(* ===================================================================== *)

Section MoreRuns.

(** An address that no network holds coins of. *)
Lemma detection_misses_empty_account_witness :
  (forall h n,
      Cli.rpc_getAllBalances (Scenarios.account_world "wallet.sui" "0xabc") h
        (Cli.client_of (Scenarios.account_world "wallet.sui" "0xabc") n) "0xdef" = Fulfilled []) /\
  fst (Cli.detectNetworkForAddress (Scenarios.account_world "wallet.sui" "0xabc") "0xdef" []) =
    Rejected (JsError "Address not found on any supported network").
Proof.
  assert (Hempty : forall h n,
             Cli.rpc_getAllBalances (Scenarios.account_world "wallet.sui" "0xabc") h
               (Cli.client_of (Scenarios.account_world "wallet.sui" "0xabc") n) "0xdef"
             = Fulfilled [])
    by (intros h n; destruct n; reflexivity).
  split; [exact Hempty|].
  rewrite (proj1 (detection_misses_empty_account
                    (Scenarios.account_world "wallet.sui" "0xabc") "0xdef" [] Hempty)).
  reflexivity.
Defined.

(** Every naming service is asked when none answers. *)
Lemma resolution_asks_each_endpoint_once_witness :
  is_fulfilled (fst (Cli.resolveSuiNameOnAllNetworks Scenarios.offline_world "wallet.sui" []))
    = false /\
  length (Cli.http_requests
            (Cli.events_of (Cli.resolveSuiNameOnAllNetworks Scenarios.offline_world "wallet.sui")
                           [])) = 4.
Proof.
  split; [reflexivity|].
  exact (proj2 (proj2 (resolution_asks_each_endpoint_once
                         Scenarios.offline_world "wallet.sui" [])) eq_refl).
Defined.

(** An address and a name that nothing knows. *)
Lemma getAccountInfo_not_found_witness :
  (Cli.isSuiNsName "0xabc" = false /\
   fst (Cli.getAccountInfo Scenarios.offline_world "0xabc" []) = 1%Z) /\
  (Cli.isSuiNsName "wallet.sui" = true /\
   fst (Cli.getAccountInfo Scenarios.offline_world "wallet.sui" []) = 1%Z).
Proof.
  split.
  - split; [reflexivity|].
    destruct (proj1 (getAccountInfo_not_found Scenarios.offline_world "0xabc" [])
                    eq_refl eq_refl) as (tr & Hrun & _).
    rewrite Hrun. reflexivity.
  - split; [reflexivity|].
    destruct (proj2 (getAccountInfo_not_found Scenarios.offline_world "wallet.sui" [])
                    eq_refl eq_refl) as (tr & Hrun & _).
    rewrite Hrun. reflexivity.
Defined.

(** An object whose display data has an empty name, with a floor price. *)
Lemma inspection_reports_name_and_floor_price_witness :
  Nft.data {| Nft.data := Some Scenarios.displayed_object |} = Some Scenarios.displayed_object /\
  In "Name: Not available"
    (Nft.printed
     (Nft.events_of
       (Nft.getNftDetails
         (Scenarios.nft_world {| Nft.data := Some Scenarios.displayed_object |}
        (Fulfilled {| Nft.stats_allTimeFloorPrice := Some "12.5" |}))
         "0x1") [])) /\
  In "All Time Floor Price: 12.5"
    (Nft.printed
     (Nft.events_of
       (Nft.getNftDetails
         (Scenarios.nft_world {| Nft.data := Some Scenarios.displayed_object |}
        (Fulfilled {| Nft.stats_allTimeFloorPrice := Some "12.5" |}))
         "0x1") [])).
Proof.
  destruct (inspection_reports_name_and_floor_price
              (Scenarios.nft_world {| Nft.data := Some Scenarios.displayed_object |}
               (Fulfilled {| Nft.stats_allTimeFloorPrice := Some "12.5" |}))
              "0x1" [] {| Nft.data := Some Scenarios.displayed_object |}
              Scenarios.displayed_object eq_refl eq_refl)
    as (_ & Hname & Hprice & _).
  split; [reflexivity|]. split.
  - apply Hname. right. reflexivity.
  - apply (Hprice "12.5"); [reflexivity | discriminate].
Defined.

(** An object with two visible fields, and one whose fields are all
    hidden. *)
Lemma attributes_section_iff_visible_field_witness :
  In (nl +:+ "Attributes:")
     (Nft.printed
        (Nft.events_of
           (Nft.getNftDetails
              (Scenarios.nft_world {| Nft.data := Some Scenarios.bare_object |} Scenarios.not_found)
              "0x1") [])) /\
  ~ In (nl +:+ "Attributes:")
       (Nft.printed
          (Nft.events_of
             (Nft.getNftDetails
                (Scenarios.nft_world {| Nft.data := Some Scenarios.displayed_object |}
                                     Scenarios.not_found)
                "0x1") [])).
Proof.
  split.
  - apply (attributes_section_iff_visible_field
             (Scenarios.nft_world {| Nft.data := Some Scenarios.bare_object |} Scenarios.not_found)
             "0x1" [] {| Nft.data := Some Scenarios.bare_object |} Scenarios.bare_object
             eq_refl eq_refl).
    exists [("id", "0x1"); ("_version", "3"); ("level", "7")], "id", "0x1".
    split; [reflexivity|]. split; [left; reflexivity | reflexivity].
  - intros Hin.
    apply (attributes_section_iff_visible_field
             (Scenarios.nft_world {| Nft.data := Some Scenarios.displayed_object |}
                                  Scenarios.not_found)
             "0x1" [] {| Nft.data := Some Scenarios.displayed_object |}
             Scenarios.displayed_object eq_refl eq_refl) in Hin.
    destruct Hin as (fields & key & value & Hcontent & Hfield & Hkey).
    injection Hcontent as <-.
    destruct Hfield as [H|[H|[]]]; injection H as <- _; discriminate Hkey.
Defined.

(** An upload from an environment without credentials. *)
Lemma upload_without_api_key_witness :
  Launch.env
    (Scenarios.launch_world_with Scenarios.empty_env (Fulfilled "{}")
     Scenarios.doge_answers ["doge.png"] Scenarios.uploaded)
    "WALRUS_API_KEY" = None /\
  Launch.fs_readFile
    (Scenarios.launch_world_with Scenarios.empty_env (Fulfilled "{}")
     Scenarios.doge_answers ["doge.png"] Scenarios.uploaded)
    [] "doge.png" = Fulfilled "PNG" /\
  Launch.uploadToWalrus
    (Scenarios.launch_world_with Scenarios.empty_env (Fulfilled "{}")
     Scenarios.doge_answers ["doge.png"] Scenarios.uploaded)
    "doge.png" [] =
    (Fulfilled "https://walrus.gg/doge.png",
     [ Launch.FsReadFile "doge.png" (Fulfilled "PNG");
       Launch.AxiosPost "https://api.walrus.gg/upload" "PNG" "Bearer undefined"
                        Scenarios.uploaded ]).
Proof.
  split; [reflexivity|]. split; [reflexivity|].
  rewrite (upload_without_api_key
             (Scenarios.launch_world_with Scenarios.empty_env (Fulfilled "{}")
              Scenarios.doge_answers ["doge.png"] Scenarios.uploaded)
             "doge.png" [] "PNG" eq_refl eq_refl).
  reflexivity.
Defined.

(** A launch from an environment without the private key: the image is
    uploaded and the project built before the workflow fails. *)
Lemma launch_without_private_key_witness :
  Launch.env
    (Scenarios.launch_world_with Scenarios.empty_env (Fulfilled "{}")
     Scenarios.doge_answers ["doge.png"] Scenarios.uploaded)
    "SUI_PRIVATE_KEY" = None /\
  In (Launch.ExecSync "sui move build" "/home/user/meme-doge" (Fulfilled "{}"))
    (Launch.events_of
     (Launch.launchMeme
       (Scenarios.launch_world_with Scenarios.empty_env (Fulfilled "{}")
        Scenarios.doge_answers ["doge.png"] Scenarios.uploaded)) []) /\
  fst (Launch.launchMeme
         (Scenarios.launch_world_with Scenarios.empty_env (Fulfilled "{}")
          Scenarios.doge_answers ["doge.png"] Scenarios.uploaded) []) =
    Rejected (JsError "Missing SUI_PRIVATE_KEY in environment").
Proof.
  assert (Hbuilt : In (Launch.ExecSync "sui move build" "/home/user/meme-doge" (Fulfilled "{}"))
                     (Launch.events_of
                      (Launch.launchMeme
                        (Scenarios.launch_world_with Scenarios.empty_env (Fulfilled "{}")
                         Scenarios.doge_answers ["doge.png"] Scenarios.uploaded)) []))
    by (do 11 right; left; reflexivity).
  split; [reflexivity|]. split; [exact Hbuilt|].
  destruct (launch_without_private_key
              (Scenarios.launch_world_with Scenarios.empty_env (Fulfilled "{}")
               Scenarios.doge_answers ["doge.png"] Scenarios.uploaded)
              [] (or_introl eq_refl)) as (_ & _ & _ & Hlate).
  exact (Hlate _ _ Hbuilt).
Defined.

(** The transaction of a deployment in the world of the launch: the
    recipient it names is the encoded text of the signer's address. *)
Lemma deployCollection_transaction_witness :
  exists answer,
    In (Launch.SignAndExecute "https://fullnode.testnet.sui.io:443"
          {| Launch.publish_modules := ["oRzrCwYAAAAK"];
             Launch.publish_dependencies := ["0x1"; "0x2"];
             Launch.upgradeCap_recipient := list_byte_of_string "0x51" |}
          "0x51" answer)
       (Launch.events_of
          (Launch.deployCollection
             (Scenarios.launch_world Scenarios.doge_answers ["doge.png"] Scenarios.uploaded)
             "/home/user/meme-doge" Launch.testnet) []) /\
    list_byte_of_string "0x51" =
      Launch.TextEncoder_encode
        (Scenarios.launch_world Scenarios.doge_answers ["doge.png"] Scenarios.uploaded)
        "0x51".
Proof.
  eexists.
  assert (Hin : In (Launch.SignAndExecute "https://fullnode.testnet.sui.io:443"
                      {| Launch.publish_modules := ["oRzrCwYAAAAK"];
                         Launch.publish_dependencies := ["0x1"; "0x2"];
                         Launch.upgradeCap_recipient := list_byte_of_string "0x51" |}
                      "0x51"
                      (Fulfilled
                         {| Launch.digest := "9oG3";
                            Launch.objectChanges :=
                              Some [{| Launch.change_type := "published";
                                       Launch.objectId := None;
                                       Launch.packageId := Some "0xcafe";
                                       Launch.objectType := None |}] |}))
                   (Launch.events_of
                      (Launch.deployCollection
                         (Scenarios.launch_world Scenarios.doge_answers ["doge.png"] Scenarios.uploaded)
                         "/home/user/meme-doge" Launch.testnet) []))
    by (right; left; reflexivity).
  split; [exact Hin|].
  destruct (proj2 (deployCollection_transaction
                     (Scenarios.launch_world Scenarios.doge_answers ["doge.png"] Scenarios.uploaded)
                     "/home/user/meme-doge" Launch.testnet []) _ _ _ _ Hin)
    as (_ & key & keypair & stdout & buildOutput & _ & _ & Hsigner & Hrecipient & _).
  cbn [Launch.upgradeCap_recipient] in Hrecipient.
  rewrite <- Hsigner in Hrecipient. exact Hrecipient.
Defined.

(** The report of a deployment whose transaction published a package. *)
Lemma deployCollection_reports_package_witness :
  In (Launch.SignAndExecute "https://fullnode.testnet.sui.io:443"
        {| Launch.publish_modules := ["oRzrCwYAAAAK"];
         Launch.publish_dependencies := ["0x1"; "0x2"];
         Launch.upgradeCap_recipient := list_byte_of_string "0x51" |}
        "0x51"
        (Fulfilled
           {| Launch.digest := "9oG3";
            Launch.objectChanges :=
              Some [{| Launch.change_type := "published";
                       Launch.objectId := None;
                       Launch.packageId := Some "0xcafe";
                       Launch.objectType := None |}] |}))
    (Launch.events_of
     (Launch.deployCollection
       (Scenarios.launch_world Scenarios.doge_answers ["doge.png"] Scenarios.uploaded)
       "/home/user/meme-doge" Launch.testnet) []) /\
  In (Launch.ConsoleLog "📦 Package ID: 0xcafe")
    (Launch.events_of
     (Launch.deployCollection
       (Scenarios.launch_world Scenarios.doge_answers ["doge.png"] Scenarios.uploaded)
       "/home/user/meme-doge" Launch.testnet) []) /\
  In (Launch.ConsoleLog "🔗 Explorer: https://suiexplorer.com/txblock/9oG3?network=testnet")
    (Launch.events_of
     (Launch.deployCollection
       (Scenarios.launch_world Scenarios.doge_answers ["doge.png"] Scenarios.uploaded)
       "/home/user/meme-doge" Launch.testnet) []).
Proof.
  assert (Hin : In (Launch.SignAndExecute "https://fullnode.testnet.sui.io:443"
                      {| Launch.publish_modules := ["oRzrCwYAAAAK"];
                       Launch.publish_dependencies := ["0x1"; "0x2"];
                       Launch.upgradeCap_recipient := list_byte_of_string "0x51" |}
                      "0x51"
                      (Fulfilled
                         {| Launch.digest := "9oG3";
                          Launch.objectChanges :=
                            Some [{| Launch.change_type := "published";
                                     Launch.objectId := None;
                                     Launch.packageId := Some "0xcafe";
                                     Launch.objectType := None |}] |}))
                  (Launch.events_of
                   (Launch.deployCollection
                     (Scenarios.launch_world Scenarios.doge_answers ["doge.png"] Scenarios.uploaded)
                     "/home/user/meme-doge" Launch.testnet) []))
    by (right; left; reflexivity).
  split; [exact Hin|].
  destruct (deployCollection_reports_package
              (Scenarios.launch_world Scenarios.doge_answers ["doge.png"] Scenarios.uploaded)
              "/home/user/meme-doge" Launch.testnet [] _ _ _ _ Hin)
    as (_ & Hlink & _ & _ & Hpackage).
  split; [|exact Hlink].
  exact (Hpackage [] _ [] "0xcafe" eq_refl eq_refl eq_refl eq_refl).
Defined.

(** A launch whose build fails. *)
Lemma launch_runs_compiler_in_order_witness :
  In ("sui move build", "/home/user/meme-doge", false)
    (Launch.compiler_runs
       (Launch.events_of
        (Launch.launchMeme
          (Scenarios.launch_world_with
           (Launch.env (Scenarios.launch_world Scenarios.doge_answers ["doge.png"]
                                               Scenarios.uploaded))
           (Rejected (JsError "Command failed: sui move build"))
           Scenarios.doge_answers ["doge.png"] Scenarios.uploaded)) [])) /\
  is_fulfilled
    (fst (Launch.launchMeme
            (Scenarios.launch_world_with
             (Launch.env (Scenarios.launch_world Scenarios.doge_answers ["doge.png"]
                                                 Scenarios.uploaded))
             (Rejected (JsError "Command failed: sui move build"))
             Scenarios.doge_answers ["doge.png"] Scenarios.uploaded) [])) = false /\
  Launch.transaction_outcomes
    (Launch.events_of
     (Launch.launchMeme
       (Scenarios.launch_world_with
        (Launch.env (Scenarios.launch_world Scenarios.doge_answers ["doge.png"]
                                            Scenarios.uploaded))
        (Rejected (JsError "Command failed: sui move build"))
        Scenarios.doge_answers ["doge.png"] Scenarios.uploaded)) []) = [].
Proof.
  assert (Hfailed : In ("sui move build", "/home/user/meme-doge", false)
                      (Launch.compiler_runs
                         (Launch.events_of
                          (Launch.launchMeme
                            (Scenarios.launch_world_with
                             (Launch.env (Scenarios.launch_world Scenarios.doge_answers ["doge.png"]
                                                                 Scenarios.uploaded))
                             (Rejected (JsError "Command failed: sui move build"))
                             Scenarios.doge_answers ["doge.png"] Scenarios.uploaded)) [])))
    by (left; reflexivity).
  split; [exact Hfailed|].
  destruct (launch_runs_compiler_in_order
              (Scenarios.launch_world_with
               (Launch.env (Scenarios.launch_world Scenarios.doge_answers ["doge.png"]
                                                   Scenarios.uploaded))
               (Rejected (JsError "Command failed: sui move build"))
               Scenarios.doge_answers ["doge.png"] Scenarios.uploaded) [])
    as (projectDir & _ & _ & Hstop).
  exact (Hstop _ _ Hfailed).
Defined.

(** A launch that goes through. *)
Lemma launch_succeeds_iff_transaction_executed_witness :
  Launch.transaction_outcomes
    (Launch.events_of
     (Launch.launchMeme
       (Scenarios.launch_world Scenarios.doge_answers ["doge.png"] Scenarios.uploaded)) []) = [true] /\
  is_fulfilled
    (fst (Launch.launchMeme
            (Scenarios.launch_world Scenarios.doge_answers ["doge.png"] Scenarios.uploaded) [])) = true /\
  exists projectDir,
    Launch.compiler_runs
      (Launch.events_of
       (Launch.launchMeme
         (Scenarios.launch_world Scenarios.doge_answers ["doge.png"] Scenarios.uploaded)) []) =
      [("sui move build", projectDir, true);
       ("sui move build --dump-bytecode-as-base64", projectDir, true)].
Proof.
  destruct (launch_succeeds_iff_transaction_executed
              (Scenarios.launch_world Scenarios.doge_answers ["doge.png"] Scenarios.uploaded) [])
    as (Hiff & _ & Hruns).
  split; [reflexivity|].
  split; [apply Hiff; reflexivity|].
  assert (Hsome : Launch.transaction_outcomes
                    (Launch.events_of
                     (Launch.launchMeme
                       (Scenarios.launch_world Scenarios.doge_answers ["doge.png"] Scenarios.uploaded)) []) <> [])
    by discriminate.
  destruct (Hruns Hsome) as (projectDir & Hc & _).
  exists projectDir. exact Hc.
Defined.

(** The directory and the package of the symbol DOGE. *)
Lemma toLowerCase_of_symbol_witness :
  Launch.symbol_regex "DOGE" = true /\
  toLowerCase "DOGE" = "doge" /\
  3 <= String.length (toLowerCase "DOGE") <= 5 /\
  (Launch.symbol_regex "DOGS" = true -> toLowerCase "DOGS" = toLowerCase "DOGE" -> "DOGS" = "DOGE").
Proof.
  split; [reflexivity|]. split; [reflexivity|].
  destruct (toLowerCase_of_symbol "DOGE" eq_refl) as (_ & Hlen & _ & _ & _ & Hinj).
  split; [exact Hlen | exact (Hinj "DOGS")].
Defined.

(** A launch whose upload is refused leaves the project directory. *)
Lemma project_directory_precedes_upload_witness :
  In (Launch.FsReadFile "doge.png" (Fulfilled "PNG"))
    (Launch.events_of
     (Launch.launchMeme
       (Scenarios.launch_world Scenarios.doge_answers ["doge.png"] Scenarios.not_found)) []) /\
  existsb Launch.is_upload_failure
    (Launch.events_of
     (Launch.launchMeme
       (Scenarios.launch_world Scenarios.doge_answers ["doge.png"] Scenarios.not_found)) []) = true /\
  exists raw,
    Launch.created_dirs
      (Launch.events_of
       (Launch.launchMeme
         (Scenarios.launch_world Scenarios.doge_answers ["doge.png"] Scenarios.not_found)) []) =
      ["/home/user/" +:+ "meme-" +:+ toLowerCase (Launch.raw_symbol raw)].
Proof.
  assert (Hread : In (Launch.FsReadFile "doge.png" (Fulfilled "PNG"))
                    (Launch.events_of
                     (Launch.launchMeme
                       (Scenarios.launch_world Scenarios.doge_answers ["doge.png"] Scenarios.not_found)) []))
    by (do 5 right; left; reflexivity).
  split; [exact Hread|]. split; [reflexivity|].
  destruct (project_directory_precedes_upload
              (Scenarios.launch_world Scenarios.doge_answers ["doge.png"] Scenarios.not_found)
              [] _ _ Hread) as (raw & _ & _ & _ & Hleft).
  exists raw. exact (Hleft eq_refl).
Defined.

End MoreRuns.

(* ===================================================================== *)
(** ** The report of the account inspector                               *)
(* ===================================================================== *)

Section ReportProperties.
Context {Obj : Type} (w : Cli.World Obj).

Lemma outputs_no_fetches (out : list (Cli.Event Obj)) :
  forallb Cli.is_output out = true -> Cli.object_fetches out = [].
Proof.
  induction out as [|ev out IH]; [reflexivity|].
  cbn [forallb]. rewrite andb_true_iff. intros [Hev Hout].
  destruct ev; try discriminate Hev; exact (IH Hout).
Qed.

(** The lines of the report: the network, the address, the name when
    there is one, and the balances. *)
Lemma print_account_report_content (addr : string) (network : Cli.NetworkName)
      (accountInfo : Obj) (balances : list Cli.Balance) (reverseLookup : option string) :
  exists out rest,
    only_outputs (Cli.print_account_report w addr network accountInfo balances reverseLookup) out /\
    forallb Cli.is_output out = true /\
    Cli.report_lines out =
      (nl +:+ "Network: " +:+ Cli.NetworkName_to_string network) :: ("Address: " +:+ addr) :: rest /\
    (balances = [] -> In "No coins found" rest) /\
    (forall s, reverseLookup = Some s -> truthy s = true -> In ("SuiNS Name: " +:+ s) rest).
Proof.
  unfold Cli.print_account_report.
  assert (Hrev : exists o, only_outputs
                   (if truthy_opt reverseLookup
                    then emit (Cli.ConsoleLog ("SuiNS Name: " +:+ or_else reverseLookup EmptyString))
                    else ret tt : Async (Cli.Event Obj) unit) o /\
                   forallb Cli.is_output o = true /\
                   (forall s, reverseLookup = Some s -> truthy s = true ->
                              In ("SuiNS Name: " +:+ s) (Cli.report_lines o))).
  { destruct reverseLookup as [s|]; cbn [truthy_opt or_else].
    - destruct (truthy s) eqn:Hs.
      + eexists; split; [apply only_outputs_emit|]. split; [reflexivity|].
        intros s' H _. injection H as <-. left. reflexivity.
      + eexists; split; [apply only_outputs_ret|]. split; [reflexivity|].
        intros s' H Hs'. injection H as <-. rewrite Hs in Hs'. discriminate Hs'.
    - eexists; split; [apply only_outputs_ret|]. split; [reflexivity|].
      intros s' H. discriminate H. }
  assert (Hbal : exists o, only_outputs
                   (match balances with
                    | [] => emit (Cli.ConsoleLog "No coins found")
                    | _ :: _ => Cli.print_balances balances
                    end : Async (Cli.Event Obj) unit) o /\
                   forallb Cli.is_output o = true /\
                   (balances = [] -> In "No coins found" (Cli.report_lines o))).
  { destruct balances as [|b bs].
    - eexists; split; [apply only_outputs_emit|]. split; [reflexivity|].
      intros _. left. reflexivity.
    - eexists; split; [apply print_balances_outputs|]. split; [|intros H; discriminate H].
      apply forallb_forall. intros ev Hin. apply in_map_iff in Hin as (b' & <- & _). reflexivity. }
  destruct Hrev as (o1 & H1 & F1 & N1), Hbal as (o2 & H2 & F2 & N2).
  exists ([Cli.Spinner (Cli.SpinnerSucceed ("Account information retrieved for " +:+ addr))] ++
          [Cli.ConsoleLog (nl +:+ "Network: " +:+ Cli.NetworkName_to_string network)] ++
          [Cli.ConsoleLog ("Address: " +:+ addr)] ++ o1 ++
          [Cli.ConsoleLog (nl +:+ "Balances:")] ++ o2 ++
          [Cli.ConsoleLog (nl +:+ "Account Object:")] ++
          [Cli.ConsoleLog (Cli.JSON_stringify w accountInfo)]).
  exists (Cli.report_lines o1 ++ [nl +:+ "Balances:"] ++ Cli.report_lines o2 ++
          [nl +:+ "Account Object:"; Cli.JSON_stringify w accountInfo]).
  split; [|split; [|split; [|split]]].
  - repeat first [ apply only_outputs_seq | apply only_outputs_emit | exact H1 | exact H2 ].
  - rewrite !forallb_app, F1, F2. reflexivity.
  - rewrite !report_lines_app. reflexivity.
  - intros Hnone. apply in_or_app; right. apply in_or_app; right.
    apply in_or_app; left. exact (N2 Hnone).
  - intros s Hs Ht. apply in_or_app; left. exact (N1 s Hs Ht).
Qed.

(** The fetches and the report of a successful run, once the network is
    known. *)
Lemma fetch_and_print_success (identifier addr : string) (n : Cli.NetworkName)
      (c : Cli.SuiClient) (log : list (Cli.Event Obj)) :
  is_fulfilled (fst (Cli.fetch_and_print w identifier addr n c log)) = true ->
  exists info again tail rest,
    snd (Cli.fetch_and_print w identifier addr n c log) =
      log ++ [ Cli.Spinner (Cli.SpinnerText ("Found account on " +:+
                                             Cli.NetworkName_to_string n +:+ " network"));
               Cli.GetObject c addr (Fulfilled info);
               Cli.GetAllBalances c addr (Fulfilled again) ] ++ tail /\
    Cli.balance_probes tail = [] /\
    Cli.object_fetches tail = [] /\
    Cli.report_lines tail =
      (nl +:+ "Network: " +:+ Cli.NetworkName_to_string n) :: ("Address: " +:+ addr) :: rest /\
    (again = [] -> In "No coins found" rest) /\
    (Cli.isSuiNsName identifier = true -> truthy identifier = true ->
     In ("SuiNS Name: " +:+ identifier) rest).
Proof.
  unfold Cli.fetch_and_print, bind, emit, Cli.Promise_all3, Cli.getObject, Cli.getAllBalances, call.
  set (log0 := log ++ [_]).
  set (r1 := Cli.rpc_getObject w log0 c addr).
  set (log1 := log0 ++ [_]).
  set (r2 := Cli.rpc_getAllBalances w log1 c addr).
  set (log2 := log1 ++ [_]).
  assert (Hthird : exists r3 tr3,
             (if Cli.isSuiNsName identifier then ret (Some identifier)
              else Cli.checkForSuiNsName w addr n) log2 = (Fulfilled r3, log2 ++ tr3) /\
             Cli.report_lines tr3 = [] /\ Cli.balance_probes tr3 = [] /\
             Cli.object_fetches tr3 = [] /\
             (Cli.isSuiNsName identifier = true -> r3 = Some identifier)).
  { destruct (Cli.isSuiNsName identifier).
    - exists (Some identifier), []. unfold ret. rewrite app_nil_r. repeat split.
    - rewrite checkForSuiNsName_unfold; cbv zeta.
      destruct (Cli.axios_get w log2 _) as [data|e3].
      + eexists _, [_]. repeat split. intros H; discriminate H.
      + eexists _, [_; _]. rewrite <- app_assoc. repeat split. intros H; discriminate H. }
  destruct Hthird as (r3 & tr3 & -> & Hq1 & Hq2 & Hq3 & Hname).
  subst log2 log1 log0.
  destruct r1 as [info|e1], r2 as [again|e2]; cbn [fst snd is_fulfilled];
    try (intros H; discriminate H).
  intros _.
  destruct (print_account_report_content addr n info again r3)
    as (out & rest & Hout & Fout & Hlines & Hnone & Hrev).
  rewrite Hout. cbn [fst snd].
  exists info, again, (tr3 ++ out), rest.
  split; [rewrite <- !app_assoc; reflexivity|].
  destruct (outputs_no_calls _ Fout) as [Hb _].
  pose proof (outputs_no_fetches _ Fout) as Hf.
  split; [rewrite balance_probes_app, Hq2, Hb; reflexivity|].
  split; [rewrite object_fetches_app, Hq3, Hf; reflexivity|].
  split; [rewrite report_lines_app, Hq1; exact Hlines|].
  split; [exact Hnone|].
  intros Hname' Htruthy. exact (Hrev identifier (Hname Hname') Htruthy).
Qed.

(** A successful detection, by its balance queries: all but the last did
    not match, the last went to the network returned and matched. *)
Lemma detection_success_probes (addr : string) (log : list (Cli.Event Obj))
      (n : Cli.NetworkName) (c : Cli.SuiClient) (l : list (Cli.Event Obj)) :
  Cli.detectNetworkForAddress w addr log = (Fulfilled (n, c), l) ->
  exists tr earlier found,
    l = log ++ tr /\
    forallb Cli.is_detection_event tr = true /\
    In n Cli.networksToCheck /\
    c = Cli.client_of w n /\
    Cli.balance_probes tr = earlier ++ [(Cli.client_of w n, addr, Fulfilled found)] /\
    found <> [] /\
    Forall (fun p => Cli.is_match (snd p) = false) earlier.
Proof.
  unfold Cli.detectNetworkForAddress. intros Hrun.
  destruct (detect_loop_trace w addr Cli.networksToCheck log) as (tr & k & Hsnd & Hprobes & Hres).
  destruct (detect_loop_events w addr Cli.networksToCheck log) as (tr' & Hsnd' & Hall).
  rewrite Hsnd in Hsnd'. apply app_inv_head in Hsnd'. subst tr'.
  rewrite Hrun in Hsnd, Hres. cbn [fst snd] in Hsnd, Hres.
  destruct Hres as (j & -> & Hj & -> & Hmatch).
  rewrite (take_S_r _ _ _ Hj), map_app in Hprobes. cbn [map] in Hprobes.
  remember (Cli.balance_probes tr) as probes eqn:Hbp.
  revert Hprobes Hmatch Hbp.
  induction probes as [|p0 ps _] using rev_ind; intros Hprobes Hmatch Hbp.
  { destruct (take j Cli.networksToCheck); discriminate Hprobes. }
  rewrite !map_app in Hprobes. rewrite !map_app in Hmatch. cbn [map] in Hprobes, Hmatch.
  rewrite ?map_app in Hmatch. cbn [map] in Hmatch.
  apply app_inj_tail in Hprobes as [_ Hlast].
  apply app_inj_tail in Hmatch as [Hearlier Hlastmatch].
  destruct p0 as [[c0 a0] answer]. cbn [fst snd] in Hlast, Hlastmatch.
  injection Hlast as -> ->.
  destruct answer as [[|b bs]|e]; try discriminate Hlastmatch.
  exists tr, ps, (b :: bs).
  split; [exact Hsnd|]. split; [exact Hall|].
  split.
  { clear -Hj. unfold Cli.networksToCheck in *.
    destruct j as [|[|[|j]]]; try discriminate Hj; injection Hj as <-; cbn; auto. }
  split; [reflexivity|]. split; [symmetry; exact Hbp|]. split; [discriminate|].
  clear -Hearlier. revert j Hearlier.
  induction ps as [|p ps IH]; intros j Hearlier; [constructor|].
  destruct j as [|j]; [discriminate Hearlier|].
  cbn in Hearlier. injection Hearlier as Hp Hrest.
  constructor; [exact Hp | exact (IH j Hrest)].
Qed.

(** X21: a report is about the network on which the account was found.
    When the command completes, the network printed on the first line of
    the report is the one, among mainnet, testnet and devnet, whose node
    answered the last query of the detection with at least one balance,
    every earlier query having failed or found nothing; the object and
    the balances of the report were then fetched from that same node for
    the address printed on the second line, which is the identifier
    itself unless it is a name.  The balances are queried a second time
    for the report: when that second answer is empty the report says 'No
    coins found' although the detection saw coins.  For a name, the report
    prints the identifier as the SuiNS name of the account. *)
Theorem report_matches_detected_network (identifier : string) (log : list (Cli.Event Obj)) :
  let events := drop (length log) (snd (Cli.getAccountInfo w identifier log)) in
  fst (Cli.getAccountInfo w identifier log) = 0%Z ->
  exists addr n earlier found again rest,
    In n [Cli.mainnet; Cli.testnet; Cli.devnet] /\
    (Cli.isSuiNsName identifier = false -> addr = identifier) /\
    Cli.balance_probes events =
      earlier ++ [ (Cli.client_of w n, addr, Fulfilled found);
                   (Cli.client_of w n, addr, Fulfilled again) ] /\
    found <> [] /\
    Forall (fun p => Cli.is_match (snd p) = false) earlier /\
    Cli.object_fetches events = [(Cli.client_of w n, addr)] /\
    Cli.report_lines events =
      (nl +:+ "Network: " +:+ Cli.NetworkName_to_string n) :: ("Address: " +:+ addr) :: rest /\
    (again = [] -> In "No coins found" rest) /\
    (Cli.isSuiNsName identifier = true -> In ("SuiNS Name: " +:+ identifier) rest).
Proof.
  cbv zeta. rewrite getAccountInfo_unfold.
  set (start := Cli.Spinner (Cli.SpinnerStart "Detecting account information...")).
  unfold Cli.getAccountInfo_body, bind.
  destruct (resolve_identifier_events w identifier (log ++ [start])) as (tr1 & Hsnd1 & Hall1 & Hraw).
  destruct (resolution_events_quiet _ Hall1) as (Hq1 & Hf1 & Hb1).
  destruct (Cli.resolve_identifier w identifier (log ++ [start])) as [[addr|e] l1];
    cbn [fst snd] in Hsnd1, Hraw; subst l1; [|intros H; discriminate H].
  destruct (Cli.detectNetworkForAddress w addr ((log ++ [start]) ++ tr1)) as [[[n c]|e] l2] eqn:Hdet;
    [|intros H; discriminate H].
  destruct (detection_success_probes addr _ n c l2 Hdet)
    as (tr2 & earlier & found & -> & Hall2 & Hn & -> & Hprobes & Hfound & Hearlier).
  destruct (detection_events_quiet _ Hall2) as (Hq2 & Hf2 & _).
  pose proof (fetch_and_print_success identifier addr n (Cli.client_of w n)
                                      (((log ++ [start]) ++ tr1) ++ tr2)) as Hfetch.
  destruct (Cli.fetch_and_print w identifier addr n (Cli.client_of w n) _) as [[[]|e] l3];
    cbn [fst snd is_fulfilled] in Hfetch |- *; [|intros H; discriminate H].
  intros _.
  destruct (Hfetch eq_refl) as (info & again & tail & rest & -> & Hb3 & Hf3 & Hlines & Hnone & Hname).
  exists addr, n, earlier, found, again, rest.
  assert (Hevents : drop (length log)
                         ((((log ++ [start]) ++ tr1) ++ tr2) ++
                          [Cli.Spinner (Cli.SpinnerText ("Found account on " +:+
                                                         Cli.NetworkName_to_string n +:+ " network"));
                           Cli.GetObject (Cli.client_of w n) addr (Fulfilled info);
                           Cli.GetAllBalances (Cli.client_of w n) addr (Fulfilled again)] ++ tail) =
                    [start] ++ tr1 ++ tr2 ++
                    [Cli.Spinner (Cli.SpinnerText ("Found account on " +:+
                                                   Cli.NetworkName_to_string n +:+ " network"));
                     Cli.GetObject (Cli.client_of w n) addr (Fulfilled info);
                     Cli.GetAllBalances (Cli.client_of w n) addr (Fulfilled again)] ++ tail).
  { rewrite <- !app_assoc. apply drop_app_length. }
  rewrite Hevents. clear Hevents.
  split; [exact Hn|].
  split; [intros Hno; destruct (Hraw Hno) as [_ H]; injection H as ->; reflexivity|].
  split.
  { rewrite !balance_probes_app, Hb1, Hprobes, Hb3.
    change (Cli.balance_probes [start]) with (@nil (Cli.SuiClient * string * Settled (list Cli.Balance))).
    cbn [app]. rewrite <- app_assoc. reflexivity. }
  split; [exact Hfound|]. split; [exact Hearlier|].
  split.
  { rewrite !object_fetches_app, Hf1, Hf2, Hf3. reflexivity. }
  split.
  { rewrite !report_lines_app, Hq1, Hq2.
    change (Cli.report_lines [start]) with (@nil string).
    cbn [app]. exact Hlines. }
  split; [exact Hnone|].
  intros Hyes. apply (Hname Hyes).
  destruct identifier; [discriminate Hyes | reflexivity].
Qed.

End ReportProperties.

Section ReportRuns.

(** The report of an address that holds coins on mainnet. *)
Lemma report_matches_detected_network_witness :
  fst (Cli.getAccountInfo (Scenarios.account_world "wallet.sui" "0xabc") "0xabc" []) = 0%Z /\
  exists addr n,
    In n [Cli.mainnet; Cli.testnet; Cli.devnet] /\
    Cli.object_fetches
      (drop (length (@nil (Cli.Event string)))
            (snd (Cli.getAccountInfo (Scenarios.account_world "wallet.sui" "0xabc") "0xabc" []))) =
      [(Cli.client_of (Scenarios.account_world "wallet.sui" "0xabc") n, addr)].
Proof.
  split; [reflexivity|].
  destruct (report_matches_detected_network
              (Scenarios.account_world "wallet.sui" "0xabc") "0xabc" [] eq_refl)
    as (addr & n & earlier & found & again & rest & Hn & _ & _ & _ & _ & Hfetch & _).
  exists addr, n. split; [exact Hn | exact Hfetch].
Defined.

End ReportRuns.
